(** * PDF2HTML: extraction-quality scoring and image post-processing

    A shallow embedding of [documents/utils/document_processor.py] and
    [documents/utils/image_processor.py].

    Conventions of the embedding.
    - A Python [int] is a [Z].  A Python [float] is an exact rational [Q]:
      true division, multiplication and subtraction are the exact field
      operations and float literals ([0.5], [0.3], [1.2]) are the decimal
      fractions they are written as.  Results are compared with [==].
    - A [str] whose characters the code inspects (extracted text, formatted
      markup) is a list of code points.  A [str] that is only stored and
      passed on (messages, names, modes) is a [string] holding the UTF-8
      bytes of the source literal.
    - A [dict] with a fixed set of keys is a record; a key that may be
      missing is an [option] field, and [d.get(k, default)] is a match on it.
    - The processor object is threaded explicitly through a state monad;
      a Python exception is the [Raise] case of [result]. *)

From Stdlib Require Import ZArith QArith Qround Qminmax Lqa Lia.
From Stdlib Require Import List String Ascii Bool DecimalString SpecFloat.
Import ListNotations.

Local Open Scope string_scope.
Local Open Scope Z_scope.

(* ------------------------------------------------------------------ *)
(** ** Python primitives *)

Module Py.

(** A text is the sequence of its code points. *)
Definition text := list Z.

(** An ASCII source literal as a text. *)
Definition lit (s : string) : text :=
  map (fun a => Z.of_N (N_of_ascii a)) (list_ascii_of_string s).

(** [str(n)] for an int. *)
Definition str_of_int (n : Z) : string :=
  NilZero.string_of_int (Z.to_int n).

(** [sep.join(parts)] *)
Fixpoint join (sep : string) (parts : list string) : string :=
  match parts with
  | [] => EmptyString
  | [p] => p
  | p :: rest => (p ++ sep ++ join sep rest)%string
  end.

(** [s.startswith(sub)] at the head of [s]. *)
Fixpoint startswith (sub s : text) : bool :=
  match sub, s with
  | [], _ => true
  | _ :: _, [] => false
  | a :: sub', b :: s' => (a =? b) && startswith sub' s'
  end.

(** [sub in s] *)
Fixpoint contains (sub s : text) : bool :=
  startswith sub s ||
  match s with
  | [] => false
  | _ :: s' => contains sub s'
  end.

(** [s.count(sub)] for a non-empty [sub]: occurrences are counted from the
    left and do not overlap.  [skip] is the number of characters of the
    last match still to be stepped over. *)
Fixpoint count_from (sub s : text) (skip : nat) : Z :=
  match s with
  | [] => 0
  | _ :: s' =>
      match skip with
      | S k => count_from sub s' k
      | O => if startswith sub s
             then 1 + count_from sub s' (Nat.pred (List.length sub))
             else count_from sub s' O
      end
  end.

Definition count (sub s : text) : Z := count_from sub s O.

(** [s.split(sep)] for a one-character separator: always at least one
    field. *)
Fixpoint split_on (sep : Z) (s : text) : list text :=
  match s with
  | [] => [[]]
  | c :: s' =>
      if c =? sep then [] :: split_on sep s'
      else match split_on sep s' with
           | [] => [[c]]
           | f :: fs => (c :: f) :: fs
           end
  end.

(** [c.isspace()]: the Unicode white space that [strip()] and [split()]
    without argument remove. *)
Definition isspace (c : Z) : bool :=
  ((9 <=? c) && (c <=? 13)) || ((28 <=? c) && (c <=? 32))
  || (c =? 133) || (c =? 160) || (c =? 5760)
  || ((8192 <=? c) && (c <=? 8202))
  || (c =? 8232) || (c =? 8233) || (c =? 8239) || (c =? 8287)
  || (c =? 12288).

Fixpoint lstrip (s : text) : text :=
  match s with
  | [] => []
  | c :: s' => if isspace c then lstrip s' else s
  end.

Definition rstrip (s : text) : text := rev (lstrip (rev s)).

(** [s.strip()] *)
Definition strip (s : text) : text := rstrip (lstrip s).

(** [len(s.split())]: the number of maximal runs of non-space characters.
    [inword] tells whether the previous character belonged to a word. *)
Fixpoint word_count_from (s : text) (inword : bool) : Z :=
  match s with
  | [] => 0
  | c :: s' =>
      if isspace c then word_count_from s' false
      else (if inword then 0 else 1) + word_count_from s' true
  end.

Definition word_count (s : text) : Z := word_count_from s false.

(** Truthiness of a sequence. *)
Definition truthy {A} (l : list A) : bool :=
  match l with [] => false | _ => true end.

(** [len(l)] *)
Definition len {A} (l : list A) : Z := Z.of_nat (List.length l).

(** [a / b] on ints, as a float.  Python raises on [b = 0]; every division
    of the document processor is guarded against it (a non-empty text, the
    fields of a split, an expected length tested for truth, a non-empty
    list of images, a positive counter), and the one of the image processor
    that is not is modelled with its exception. *)
Definition truediv (a b : Z) : Q := inject_Z a / inject_Z b.

(** [x > y] on floats. *)
Definition gt (x y : Q) : bool := negb (Qle_bool x y).

(** [x < y] on floats. *)
Definition lt (x y : Q) : bool := negb (Qle_bool y x).

(** [round(x)]: to the nearest integer, ties to the even one. *)
Definition round_half_even (x : Q) : Z :=
  let f := Qfloor x in
  match Qcompare (x - inject_Z f) (1 # 2) with
  | Lt => f
  | Gt => f + 1
  | Eq => if Z.even f then f else f + 1
  end.

(** [round(x, 2)] *)
Definition round2 (x : Q) : Q :=
  inject_Z (round_half_even (x * 100)) / 100.

(** The values a loosely typed dict entry holds here. *)
Inductive value :=
| VNone
| VInt (n : Z)
| VFloat (x : Q)
| VStr (s : string).

(** A dict literal, in insertion order. *)
Definition dict := list (string * value).

(** Exceptions carry the text [str(e)] gives. *)
Inductive result (A : Type) :=
| Ok (a : A)
| Raise (msg : string).
Arguments Ok {A} a.
Arguments Raise {A} msg.

Definition type_name (v : value) : string :=
  match v with
  | VNone => "NoneType"
  | VInt _ => "int"
  | VFloat _ => "float"
  | VStr _ => "str"
  end.

(** [v < n] for an int literal [n]: numbers compare, anything else is a
    [TypeError]. *)
Definition lt_int (v : value) (n : Z) : result bool :=
  match v with
  | VInt m => Ok (m <? n)
  | VFloat x => Ok (lt x (inject_Z n))
  | _ => Raise ("'<' not supported between instances of '"
                ++ type_name v ++ "' and 'int'")%string
  end.

(** [int(x)] for a float: truncation towards zero. *)
Definition int_of_float (x : Q) : Z :=
  if Qle_bool 0 x then Qfloor x else Qceiling x.

(** [s.replace(old, new)] for a non-empty [old]: every occurrence, from
    the left, without overlap. *)
Fixpoint replace_from (old new s : string) (skip : nat) : string :=
  match s with
  | EmptyString => EmptyString
  | String c s' =>
      match skip with
      | S k => replace_from old new s' k
      | O => if String.prefix old s
             then new ++ replace_from old new s' (Nat.pred (String.length old))
             else String c (replace_from old new s' O)
      end
  end.

Definition replace (old new s : string) : string := replace_from old new s O.

(** Sequencing of steps that may raise. *)
Definition and_then {A B} (r : result A) (k : A -> result B) : result B :=
  match r with
  | Ok a => k a
  | Raise msg => Raise msg
  end.

(** [s == t] on texts. *)
Fixpoint text_eqb (s t : text) : bool :=
  match s, t with
  | [], [] => true
  | a :: s', b :: t' => (a =? b) && text_eqb s' t'
  | _, _ => false
  end.

(** [p.rfind(c)] for a character: the index of its last occurrence, or -1.
    [i] is the index of the head of [p], [last] the result so far. *)
Fixpoint rfind_from (c : Z) (p : text) (i last : Z) : Z :=
  match p with
  | [] => last
  | x :: p' => rfind_from c p' (i + 1) (if x =? c then i else last)
  end.

Definition rfind (c : Z) (p : text) : Z := rfind_from c p 0 (-1).

(** [p[i:j]] for [0 <= i]. *)
Definition slice (p : text) (i j : Z) : text :=
  firstn (Z.to_nat (j - i)) (skipn (Z.to_nat i) p).

(** [os.path.splitext(p)] of [posixpath]: the extension starts at the last
    dot of the last component, unless that component has only dots in front
    of it.  The loop over the leading dots is the search for a character of
    the name that is not a dot. *)
Definition splitext (p : text) : text * text :=
  let sepIndex := rfind 47 p in
  let dotIndex := rfind 46 p in
  if sepIndex <? dotIndex then
    if existsb (fun x => negb (x =? 46)) (slice p (sepIndex + 1) dotIndex)
    then (firstn (Z.to_nat dotIndex) p, skipn (Z.to_nat dotIndex) p)
    else (p, [])
  else (p, []).

(** [s.lower()]: the ASCII capitals become small letters and the other
    ASCII characters stay; [beyond] gives the lower case of a character
    above 127, which may be several characters. *)
Definition lower (beyond : Z -> text) (s : text) : text :=
  flat_map (fun c => if c <=? 127
                     then [if (65 <=? c) && (c <=? 90) then c + 32 else c]
                     else beyond c) s.

End Py.

(* ------------------------------------------------------------------ *)
(** ** documents/utils/document_processor.py *)

(** The fields of the Django document this module writes. *)
Module Document.
Record t := {
  extraction_precision : Q;
  total_elements_detected : Z;
  total_elements_extracted : Z;
  text_extraction_quality : Q;
  image_extraction_quality : Q;
  table_extraction_quality : Q
}.

(** A document on which no metric has been recorded yet. *)
Definition empty : t :=
  {| extraction_precision := 0;
     total_elements_detected := 0;
     total_elements_extracted := 0;
     text_extraction_quality := 0;
     image_extraction_quality := 0;
     table_extraction_quality := 0 |}.
End Document.

Module DocumentProcessor.
Import Py.

(** One entry of [extraction_metrics['errors']] (the [error_data] dict). *)
Record error_data := {
  error_type : string;
  severity : string;
  message : string;
  details : option dict;
  page_number : Z;
  element_type : option string;
  suggested_fix : string
}.

(** [self.extraction_metrics] *)
Record metrics := {
  total_elements_detected : Z;
  total_elements_extracted : Z;
  text_quality : Q;
  image_quality : Q;
  table_quality : Q;
  errors : list error_data
}.

(** The processor object.  [current_page_number] is only ever read, through
    [getattr] with a default; [current_page_count] is set by
    [update_extraction_metrics]. *)
Record processor := {
  document : Document.t;
  extraction_metrics : metrics;
  current_page_number : option Z;
  current_page_count : option Z
}.

(** An image dict as the extractors hand it over.  [data] is [None] when
    the key is missing or holds [None] (the code only tests its
    truthiness); [width] and [height] are [None] when the key is missing
    and hold whatever the extractor stored otherwise. *)
Record image_dict := {
  data : option (list Byte.byte);
  name : option string;
  width : option value;
  height : option value
}.

(** [result['format_info']] *)
Record format_info_dict := {
  has_headers : option bool;
  has_footers : option bool;
  has_tables : option bool;
  has_images : option bool;
  generated_css : option string
}.

(** The dict an extractor returns. *)
Record extraction_result := {
  content : option text;
  formatted_content : option text;
  images : option (list image_dict);
  format_info : option format_info_dict
}.

(** [d.get(k, default)] *)
Definition get {A} (field : option A) (default : A) : A :=
  match field with Some v => v | None => default end.

(** [d.get(k)] for a loosely typed entry. *)
Definition get_value (field : option value) : value := get field VNone.

(** *** Methods as state transformers over the processor *)

Definition M (A : Type) : Type := processor -> A * processor.

Definition ret {A} (a : A) : M A := fun self => (a, self).

Definition bind {A B} (m : M A) (k : A -> M B) : M B :=
  fun self => let (a, self') := m self in k a self'.

Declare Scope py_scope.
Delimit Scope py_scope with py.
Notation "x <- m ;; k" := (bind m (fun x => k))
  (at level 61, m at next level, right associativity) : py_scope.
Notation "m ;; k" := (bind m (fun _ => k))
  (at level 61, right associativity) : py_scope.
Local Open Scope py_scope.

(** The value a method returns and the processor it leaves. *)
Definition returns {A} (m : M A) (self : processor) : A := fst (m self).
Definition after {A} (m : M A) (self : processor) : processor := snd (m self).

Definition set_metrics (f : metrics -> metrics) : M unit :=
  fun self =>
    (tt, {| document := document self;
            extraction_metrics := f (extraction_metrics self);
            current_page_number := current_page_number self;
            current_page_count := current_page_count self |}).

(** [self.extraction_metrics['errors'].append(e)] *)
Definition append_error (e : error_data) (m : metrics) : metrics :=
  {| total_elements_detected := total_elements_detected m;
     total_elements_extracted := total_elements_extracted m;
     text_quality := text_quality m;
     image_quality := image_quality m;
     table_quality := table_quality m;
     errors := (errors m ++ [e])%list |}.

(** [self.extraction_metrics['total_elements_detected'] += n] *)
Definition add_detected (n : Z) (m : metrics) : metrics :=
  {| total_elements_detected := total_elements_detected m + n;
     total_elements_extracted := total_elements_extracted m;
     text_quality := text_quality m;
     image_quality := image_quality m;
     table_quality := table_quality m;
     errors := errors m |}.

(** [self.extraction_metrics['total_elements_extracted'] += n] *)
Definition add_extracted (n : Z) (m : metrics) : metrics :=
  {| total_elements_detected := total_elements_detected m;
     total_elements_extracted := total_elements_extracted m + n;
     text_quality := text_quality m;
     image_quality := image_quality m;
     table_quality := table_quality m;
     errors := errors m |}.

Definition set_text_quality (q : Q) (m : metrics) : metrics :=
  {| total_elements_detected := total_elements_detected m;
     total_elements_extracted := total_elements_extracted m;
     text_quality := q;
     image_quality := image_quality m;
     table_quality := table_quality m;
     errors := errors m |}.

Definition set_image_quality (q : Q) (m : metrics) : metrics :=
  {| total_elements_detected := total_elements_detected m;
     total_elements_extracted := total_elements_extracted m;
     text_quality := text_quality m;
     image_quality := q;
     table_quality := table_quality m;
     errors := errors m |}.

Definition set_table_quality (q : Q) (m : metrics) : metrics :=
  {| total_elements_detected := total_elements_detected m;
     total_elements_extracted := total_elements_extracted m;
     text_quality := text_quality m;
     image_quality := image_quality m;
     table_quality := q;
     errors := errors m |}.

(** [__init__] *)
Definition init (document_instance : Document.t) : processor :=
  {| document := document_instance;
     extraction_metrics :=
       {| total_elements_detected := 0;
          total_elements_extracted := 0;
          text_quality := 0;
          image_quality := 0;
          table_quality := 0;
          errors := [] |};
     current_page_number := None;
     current_page_count := None |}.

Definition apply_automatic_corrections
    (error_type : string) (details : option dict) : list string :=
  if String.eqb error_type "encoding" then
    [ "Ré-encoder le document avec UTF-8";
      "Utiliser un OCR avec détection automatique d'encodage";
      "Convertir le document en PDF avant extraction" ]
  else if String.eqb error_type "image_extraction" then
    [ "Augmenter la résolution DPI pour l'extraction";
      "Utiliser un algorithme d'amélioration d'image";
      "Convertir les images en format standard (PNG/JPEG)" ]
  else if String.eqb error_type "table_parsing" then
    [ "Appliquer un pré-traitement de détection de bordures";
      "Utiliser un algorithme spécialisé pour tableaux complexes";
      "Convertir en format avec grille structurée" ]
  else if String.eqb error_type "text_ocr" then
    [ "Appliquer un filtre de débruitage d'image";
      "Utiliser un modèle OCR plus avancé";
      "Améliorer la résolution du document source" ]
  else if String.eqb error_type "layout_analysis" then
    [ "Appliquer une détection automatique de colonnes";
      "Utiliser un algorithme de segmentation de page";
      "Ré-analyser avec détection de zones de texte" ]
  else if String.eqb error_type "font_detection" then
    [ "Normaliser les polices vers des équivalents standard";
      "Utiliser une bibliothèque de substitution de polices";
      "Convertir en format texte uniforme" ]
  else
    [ "Retraiter le document avec des paramètres optimisés";
      "Utiliser un processeur alternatif";
      "Vérifier l'intégrité du fichier source" ].

(** Lines 59-76 of [log_extraction_error]: the [error_data] dict, with the
    page and the suggestion defaulted. *)
Definition new_error_data
    (error_type severity message : string) (details : option dict)
    (page_number : option Z) (element_type : option string)
    (suggested_fix : option string) (self : processor) : error_data :=
  let page_number :=
    match page_number with
    | Some p => p
    | None => get (current_page_number self) 1
    end in
  let suggested_fix :=
    match suggested_fix with
    | Some given => given
    | None =>
        let auto_corrections :=
          apply_automatic_corrections error_type details in
        join "; " (firstn 2 auto_corrections)
    end in
  {| error_type := error_type;
     severity := severity;
     message := message;
     details := details;
     page_number := page_number;
     element_type := element_type;
     suggested_fix := suggested_fix |}.

Definition log_extraction_error
    (error_type severity message : string) (details : option dict)
    (page_number : option Z) (element_type : option string)
    (suggested_fix : option string) : M unit :=
  fun self =>
    let error_data :=
      new_error_data error_type severity message details page_number
                     element_type suggested_fix self in
    set_metrics (append_error error_data) self.

(** The test of the comprehension counting corrupted characters:
    [ord(c) > 65535 or c in '��□?']. *)
Definition corrupted (c : Z) : bool :=
  (65535 <? c) || existsb (Z.eqb c) [65533; 65533; 9633; 63].

(** [not line.strip()] *)
Definition blank (line : text) : bool := negb (truthy (strip line)).

Definition calculate_text_quality
    (extracted_text : text) (expected_length : option Z) : M Q :=
  if negb (truthy extracted_text) then ret 0%Q
  else
    let quality_score := 100%Q in
    let corrupted_chars := len (filter corrupted extracted_text) in
    quality_score <-
      (if 0 <? corrupted_chars then
         let corruption_penalty :=
           Qmin 50 (truediv corrupted_chars (len extracted_text) * 100)%Q in
         let quality_score := (quality_score - corruption_penalty)%Q in
         (if gt corruption_penalty 10%Q then
            log_extraction_error "encoding" "medium"
              ("Détection de " ++ str_of_int corrupted_chars
               ++ " caractères corrompus")
              (Some [("corrupted_chars", VInt corrupted_chars);
                     ("total_chars", VInt (len extracted_text))])
              None None
              (Some "Vérifier l'encodage du document source")
          else ret tt) ;;
         ret quality_score
       else ret quality_score) ;;
    let lines := split_on 10 extracted_text in
    let empty_lines := len (filter blank lines) in
    quality_score <-
      (if gt (truediv empty_lines (len lines)) (1 # 2) then
         let quality_score := (quality_score - 20)%Q in
         log_extraction_error "layout_analysis" "low"
           "Beaucoup de lignes vides détectées"
           (Some [("empty_lines_ratio",
                   VFloat (truediv empty_lines (len lines)))])
           None None
           (Some "Le document pourrait nécessiter un OCR plus précis") ;;
         ret quality_score
       else ret quality_score) ;;
    quality_score <-
      (match expected_length with
       | Some expected =>
           if negb (expected =? 0)
              && gt (truediv (Z.abs (len extracted_text - expected))
                             expected) (3 # 10)
           then
             let quality_score := (quality_score - 15)%Q in
             log_extraction_error "text_ocr" "medium"
               "Différence significative avec la longueur attendue"
               (Some [("extracted_length", VInt (len extracted_text));
                      ("expected_length", VInt expected)])
               None None None ;;
             ret quality_score
           else ret quality_score
       | None => ret quality_score
       end) ;;
    ret (Qmax 0%Q quality_score).

(** [img_data.get('data') and len(img_data['data']) > 0] *)
Definition has_data (img_data : image_dict) : bool :=
  match data img_data with
  | Some bytes => truthy bytes && (0 <? len bytes)
  | None => false
  end.

(** [img_data.get('width', 0) < 50 or img_data.get('height', 0) < 50]:
    the height is only looked at when the width compares and is not
    below 50. *)
Definition too_small (img_data : image_dict) : result bool :=
  match lt_int (get (width img_data) (VInt 0)) 50 with
  | Raise e => Raise e
  | Ok true => Ok true
  | Ok false => lt_int (get (height img_data) (VInt 0)) 50
  end.

(** One turn of the loop of [calculate_image_quality]: the [try] block
    and its handler.  The counter is incremented before the dimensions
    are compared, so the increment survives an exception raised there. *)
Definition inspect_image
    (i : Z) (img_data : image_dict) (successful_extractions : Z) : M Z :=
  if has_data img_data then
    let successful_extractions := successful_extractions + 1 in
    match too_small img_data with
    | Ok true =>
        log_extraction_error "image_extraction" "low"
          ("Image " ++ str_of_int (i + 1) ++ " de très petite taille")
          (Some [("width", get_value (width img_data));
                 ("height", get_value (height img_data))])
          None None
          (Some "L'image pourrait être de mauvaise qualité ou corrompue") ;;
        ret successful_extractions
    | Ok false => ret successful_extractions
    | Raise e =>
        log_extraction_error "image_extraction" "high"
          ("Erreur lors du traitement de l'image " ++ str_of_int (i + 1)
           ++ ": " ++ e)
          (Some [("image_index", VInt i); ("error", VStr e)])
          None None None ;;
        ret successful_extractions
    end
  else
    log_extraction_error "image_extraction" "medium"
      ("Échec d'extraction de l'image " ++ str_of_int (i + 1))
      (Some [("image_index", VInt i)])
      None None None ;;
    ret successful_extractions.

(** [for i, img_data in enumerate(images_data)], from index [i] on. *)
Fixpoint inspect_images
    (i : Z) (images_data : list image_dict) (successful_extractions : Z)
    : M Z :=
  match images_data with
  | [] => ret successful_extractions
  | img_data :: rest =>
      successful_extractions <-
        inspect_image i img_data successful_extractions ;;
      inspect_images (i + 1) rest successful_extractions
  end.

Definition calculate_image_quality
    (images_data : list image_dict) (total_images_detected : option Z)
    : M Q :=
  if negb (truthy images_data) then
    match total_images_detected with
    | Some detected =>
        if negb (detected =? 0) && (0 <? detected) then
          log_extraction_error "image_extraction" "high"
            ("Aucune image extraite alors que " ++ str_of_int detected
             ++ " ont été détectées")
            (Some [("detected", VInt detected); ("extracted", VInt 0)])
            None None None ;;
          ret 0%Q
        else ret 100%Q
    | None => ret 100%Q
    end
  else
    successful_extractions <- inspect_images 0 images_data 0 ;;
    if 0 <? len images_data then
      ret (truediv successful_extractions (len images_data) * 100)%Q
    else ret 100%Q.

Definition calculate_table_quality
    (content : text) (format_info : format_info_dict) : M Q :=
  let has_tables := get (has_tables format_info) false in
  if negb has_tables then ret 100%Q
  else
    let table_indicators :=
      count (lit "<table>") content + count (lit "|") content
      + count [9] content in
    if table_indicators =? 0 then
      log_extraction_error "table_parsing" "high"
        "Tableaux détectés mais non extraits correctement"
        None None None
        (Some "Le document contient des tableaux complexes nécessitant un traitement spécialisé") ;;
      ret 20%Q
    else if contains (lit "<table>") content then
      let table_count := count (lit "<table>") content in
      let complete_tables := count (lit "</table>") content in
      if negb (table_count =? complete_tables) then
        log_extraction_error "table_parsing" "medium"
          "Tableaux HTML incomplets détectés"
          (Some [("incomplete_tables",
                  VInt (table_count - complete_tables))])
          None None None ;;
        ret 60%Q
      else ret 85%Q
    else ret 85%Q.

Definition _estimate_page_count (content formatted_content : text) : Z :=
  if contains (lit "pdf-page") formatted_content then
    count (lit "pdf-page") formatted_content
  else if truthy content then
    let word_count := word_count content in
    Z.max 1 (word_count / 500)
  else 1.

Definition set_current_page_count (n : Z) : M unit :=
  fun self =>
    (tt, {| document := document self;
            extraction_metrics := extraction_metrics self;
            current_page_number := current_page_number self;
            current_page_count := Some n |}).

(** [img.get('data')] as a truth value. *)
Definition data_truthy (img : image_dict) : bool :=
  match data img with Some bytes => truthy bytes | None => false end.

Definition update_extraction_metrics (result : extraction_result) : M unit :=
  let content := get (content result) [] in
  let formatted_content := get (formatted_content result) [] in
  let images := get (images result) [] in
  let format_info :=
    get (format_info result)
        {| has_headers := None; has_footers := None; has_tables := None;
           has_images := None; generated_css := None |} in
  set_current_page_count (_estimate_page_count content formatted_content) ;;
  set_metrics (add_detected 1) ;;
  set_metrics (add_extracted (if truthy content then 1 else 0)) ;;
  let total_images_detected := if truthy images then len images else 0 in
  let total_images_detected :=
    if get (has_images format_info) false
    then Z.max total_images_detected 1 else total_images_detected in
  set_metrics (add_detected total_images_detected) ;;
  set_metrics (add_extracted (len (filter data_truthy images))) ;;
  (if get (has_tables format_info) false then
     set_metrics (add_detected 1) ;;
     if existsb (fun indicator => contains indicator formatted_content)
                [lit "<table>"; lit "|"; [9]]
     then set_metrics (add_extracted 1)
     else ret tt
   else ret tt) ;;
  q <- calculate_text_quality content None ;;
  set_metrics (set_text_quality q) ;;
  q <- calculate_image_quality images (Some total_images_detected) ;;
  set_metrics (set_image_quality q) ;;
  q <- calculate_table_quality formatted_content format_info ;;
  set_metrics (set_table_quality q).

(** The local [precision] of [save_extraction_metrics]. *)
Definition precision (metrics : metrics) : Q :=
  if 0 <? total_elements_detected metrics then
    (truediv (total_elements_extracted metrics)
             (total_elements_detected metrics) * 100)%Q
  else 100%Q.


(** [content.replace('\n', '<br>\n')] *)
Definition br_lines (content : text) : text :=
  flat_map (fun c => if c =? 10 then (lit "<br>" ++ [10])%list else [c])
           content.

(** The dict [_process_text_file] returns for the text it read: the text
    itself, the text wrapped in preformatted markup (34 is the double
    quote), and a [format_info] without headers, footers, tables or images.
    There is no ['images'] key. *)
Definition text_file_result (content : text) : extraction_result :=
  let html_content := br_lines content in
  let html_content :=
    (lit "<div class=" ++ [34] ++ lit "text-document" ++ [34] ++ lit "><pre>"
     ++ html_content ++ lit "</pre></div>")%list in
  {| content := Some content;
     formatted_content := Some html_content;
     images := None;
     format_info :=
       Some {| has_headers := Some false;
               has_footers := Some false;
               has_tables := Some false;
               has_images := Some false;
               generated_css :=
                 Some ".text-document { font-family: monospace; white-space: pre-wrap; }" |} |}.

(** [_process_text_file]: [read encoding] is
    [open(file_path, 'r', encoding=encoding, errors='ignore').read()], which
    raises when the file cannot be opened.  UTF-8 is tried first, then
    Latin-1, then CP1252, whose failure is not caught. *)
Definition _process_text_file (read : string -> result text)
    : result extraction_result :=
  let content :=
    match read "utf-8" with
    | Ok content => Ok content
    | Raise _ =>
        match read "latin-1" with
        | Ok content => Ok content
        | Raise _ => read "cp1252"
        end
    end in
  match content with
  | Ok content => Ok (text_file_result content)
  | Raise e => Raise e
  end.

(** The [mime_map] of [detect_file_type], in the order it is written. *)
Definition mime_map : list (text * string) :=
  [ (lit ".pdf", "application/pdf");
    (lit ".docx",
     "application/vnd.openxmlformats-officedocument.wordprocessingml.document");
    (lit ".doc", "application/msword");
    (lit ".txt", "text/plain");
    (lit ".html", "text/html");
    (lit ".xlsx",
     "application/vnd.openxmlformats-officedocument.spreadsheetml.sheet");
    (lit ".xls", "application/vnd.ms-excel");
    (lit ".rtf", "application/rtf") ].

(** [d.get(key, default)] on a dict with text keys. *)
Fixpoint lookup (d : list (text * string)) (key : text) (default : string)
    : string :=
  match d with
  | [] => default
  | (k, v) :: d' => if text_eqb k key then v else lookup d' key default
  end.

(** [detect_file_type].  [magic] is [None] when the module could not be
    imported and otherwise [magic.Magic(mime=True).from_file], which may
    raise; [beyond] is the lower case of the characters above 127. *)
Definition detect_file_type
    (magic : option (text -> result string)) (beyond : Z -> text)
    (file_path : text) : string :=
  let fallback :=
    let ext := lower beyond (snd (splitext file_path)) in
    lookup mime_map ext "application/octet-stream" in
  match magic with
  | Some from_file =>
      match from_file file_path with
      | Ok mime => mime
      | Raise _ => fallback
      end
  | None => fallback
  end.

End DocumentProcessor.

(* ------------------------------------------------------------------ *)
(** ** The precision in IEEE arithmetic

    The development computes with exact rationals.  Where a claim names a
    float to the last bit, the same expression is also written in binary64
    (round to nearest, ties to even), as CPython evaluates it for integers
    below 2^53. *)

Module Binary64.

Definition prec : Z := 53.
Definition emax : Z := 1024.

(** [float(n)] *)
Definition of_int (n : Z) : spec_float := binary_normalize prec emax n 0 false.

(** [(a / b) * 100] *)
Definition percentage (a b : Z) : spec_float :=
  SFmul prec emax (SFdiv prec emax (of_int a) (of_int b)) (of_int 100).

(** The local [precision] of [save_extraction_metrics]. *)
Definition precision (detected extracted : Z) : spec_float :=
  if 0 <? detected then percentage extracted detected else of_int 100.

(** [int(x)] for a finite float: truncation towards zero. *)
Definition to_int (x : spec_float) : Z :=
  match x with
  | S754_finite s m e =>
      let magnitude :=
        match e with
        | Z0 => Zpos m
        | Zpos k => Z.shiftl (Zpos m) (Zpos k)
        | Zneg k => Z.shiftr (Zpos m) (Zpos k)
        end in
      if s then - magnitude else magnitude
  | _ => 0
  end.

(** Lines 64-66 of [_optimize_image] as CPython evaluates them, for an
    image of [width] by [height], both below 300 and not 0: the scale
    factor, a side scaled by it, and the size asked of [resize]. *)
Definition scale_factor (smaller : Z) : spec_float :=
  SFdiv prec emax (of_int 300) (of_int smaller).

Definition scaled (scale_factor : spec_float) (side : Z) : Z :=
  to_int (SFmul prec emax (of_int side) scale_factor).

Definition upscaled_size (width height : Z) : Z * Z :=
  let scale_factor := scale_factor (Z.min width height) in
  let new_width := scaled scale_factor width in
  let new_height := scaled scale_factor height in
  (new_width, new_height).

(** The sides an image can have when it is upscaled: 1 to 299. *)
Definition small_sides : list Z := map Z.of_nat (seq 1 299).

(** For a smaller side [m]: every side [s] from [m] on is scaled to the
    integer part of [s * 300 / m] or to one less, and [m] itself to 300
    unless it is 281 or 291. *)
Definition scaled_sides_checked (m : Z) : bool :=
  let scale_factor := scale_factor m in
  forallb
    (fun s =>
       (s <? m)
       || (let n := scaled scale_factor s in
           (s * 300 / m - 1 <=? n) && (n <=? s * 300 / m)
           && (negb (s =? m) || (n =? 300) || (m =? 281) || (m =? 291))))
    small_sides.

(** The exact value of a finite float. *)
Definition to_Q (x : spec_float) : Q :=
  match x with
  | S754_finite s m e =>
      (inject_Z (if s then Zneg m else Zpos m) * Qpower 2 e)%Q
  | _ => 0%Q
  end.

(** What [calculate_image_quality] returns: the [int] of one of its
    short-cut [return]s, or the [float] of its quotient. *)
Inductive number :=
| Int (n : Z)
| Float (x : spec_float).

(** [calculate_image_quality] with the value it returns as CPython computes
    it.  The candidates are inspected, and the diagnostics logged, by the
    loop of [DocumentProcessor.calculate_image_quality]. *)
Definition calculate_image_quality
    (images_data : list DocumentProcessor.image_dict)
    (total_images_detected : option Z) : DocumentProcessor.M number :=
  if negb (Py.truthy images_data) then
    match total_images_detected with
    | Some detected =>
        if negb (detected =? 0) && (0 <? detected) then
          DocumentProcessor.bind
            (DocumentProcessor.log_extraction_error "image_extraction" "high"
               ("Aucune image extraite alors que " ++ Py.str_of_int detected
                ++ " ont été détectées")
               (Some [("detected", Py.VInt detected);
                      ("extracted", Py.VInt 0)])
               None None None)
            (fun _ => DocumentProcessor.ret (Int 0))
        else DocumentProcessor.ret (Int 100)
    | None => DocumentProcessor.ret (Int 100)
    end
  else
    DocumentProcessor.bind
      (DocumentProcessor.inspect_images 0 images_data 0)
      (fun successful_extractions =>
         if 0 <? Py.len images_data then
           DocumentProcessor.ret
             (Float (percentage successful_extractions (Py.len images_data)))
         else DocumentProcessor.ret (Int 100)).

End Binary64.

(* ------------------------------------------------------------------ *)
(** ** documents/utils/image_processor.py *)

Module ImageProcessor.
Import Py.

Definition bytes := list Byte.byte.

(** The part of Pillow the module calls.  Every call may raise.  Images
    are values: a method that changes the image in place ([thumbnail],
    [paste]) gives the changed image back.  [enhance_sharpness im f] is
    [ImageEnhance.Sharpness(im).enhance(f)], likewise for the contrast;
    [alpha_band im] is [im.split()[-1]]; [save im format quality optimize]
    is the content of the buffer after [im.save(buffer, ...)]. *)
Class PIL := {
  Image : Type;
  mode : Image -> string;
  width : Image -> Z;
  height : Image -> Z;
  Image_open : bytes -> result Image;
  Image_new : string -> Z * Z -> Z * Z * Z -> result Image;
  copy : Image -> result Image;
  resize : Image -> Z * Z -> result Image;
  thumbnail : Image -> Z * Z -> result Image;
  convert : Image -> string -> result Image;
  alpha_band : Image -> result Image;
  paste : Image -> Image -> Image -> result Image;
  enhance_sharpness : Image -> Q -> result Image;
  enhance_contrast : Image -> Q -> result Image;
  save : Image -> string -> option Z -> bool -> result bytes
}.

(** What Pillow documents about the mode of the images these calls give
    back: copying, resampling and enhancing keep it. *)
Class PILModes (P : PIL) := {
  copy_mode : forall im im', copy im = Ok im' -> mode im' = mode im;
  resize_mode : forall im size im',
    resize im size = Ok im' -> mode im' = mode im;
  thumbnail_mode : forall im size im',
    thumbnail im size = Ok im' -> mode im' = mode im;
  enhance_sharpness_mode : forall im f im',
    enhance_sharpness im f = Ok im' -> mode im' = mode im
}.

(** A [ContentFile] with its [name] set. *)
Record ContentFile := {
  content : bytes;
  name : string
}.

(** The attributes [__init__] sets. *)
Record image_processor := {
  max_width : Z;
  max_height : Z;
  quality : Z
}.

Definition init : image_processor :=
  {| max_width := 2400; max_height := 2400; quality := 92 |}.

Notation "x <- r ;; k" := (and_then r (fun x => k))
  (at level 61, r at next level, right associativity).

Section WithPillow.
Context {P : PIL}.

Definition size (im : Image) : Z * Z := (width im, height im).

Definition _optimize_image (self : image_processor) (image : Image)
    : result Image :=
  optimized <- copy image ;;
  let min_size := 300 in
  optimized <-
    (if (width optimized <? min_size) && (height optimized <? min_size)
     then
       let smaller := Z.min (width optimized) (height optimized) in
       if smaller =? 0 then Raise "division by zero"
       else
         let scale_factor := truediv min_size smaller in
         let new_width :=
           int_of_float (inject_Z (width optimized) * scale_factor) in
         let new_height :=
           int_of_float (inject_Z (height optimized) * scale_factor) in
         resize optimized (new_width, new_height)
     else Ok optimized) ;;
  optimized <-
    (if (max_width self <? width optimized)
        || (max_height self <? height optimized)
     then thumbnail optimized (max_width self, max_height self)
     else Ok optimized) ;;
  (* try: sharpen; except: pass *)
  let optimized :=
    match enhance_sharpness optimized (12 # 10) with
    | Ok sharpened => sharpened
    | Raise _ => optimized
    end in
  Ok optimized.

(** Lines 57-71 of [_optimize_image]: the copy, enlarged when both sides
    are below 300 and reduced when a side exceeds its maximum.  The
    sharpening that follows is all that is left of the function. *)
Definition optimize_size (self : image_processor) (image : Image)
    : result Image :=
  optimized <- copy image ;;
  let min_size := 300 in
  optimized <-
    (if (width optimized <? min_size) && (height optimized <? min_size)
     then
       let smaller := Z.min (width optimized) (height optimized) in
       if smaller =? 0 then Raise "division by zero"
       else
         let scale_factor := truediv min_size smaller in
         let new_width :=
           int_of_float (inject_Z (width optimized) * scale_factor) in
         let new_height :=
           int_of_float (inject_Z (height optimized) * scale_factor) in
         resize optimized (new_width, new_height)
     else Ok optimized) ;;
  if (max_width self <? width optimized)
     || (max_height self <? height optimized)
  then thumbnail optimized (max_width self, max_height self)
  else Ok optimized.

(** Lines 34-36 of [save_image]: a white RGB image of the same size with
    the image pasted through its own last band. *)
Definition on_white_background (optimized_image : Image) : result Image :=
  background <- Image_new "RGB" (size optimized_image) (255, 255, 255) ;;
  mask <- alpha_band optimized_image ;;
  paste background optimized_image mask.

(** Lines 32-36: what the JPEG branch does to the image before it
    encodes it. *)
Definition rgb_for_jpeg (optimized_image : Image) : result Image :=
  if String.eqb (mode optimized_image) "RGBA"
  then on_white_background optimized_image
  else Ok optimized_image.

(** The [try] block of [save_image]. *)
Definition save_image_try
    (self : image_processor) (image_data : bytes) (filename : string)
    : result ContentFile :=
  image <- Image_open image_data ;;
  optimized_image <- _optimize_image self image ;;
  let output_format :=
    if String.eqb (mode optimized_image) "RGBA" then "PNG" else "JPEG" in
  if String.eqb output_format "JPEG" then
    optimized_image <- rgb_for_jpeg optimized_image ;;
    output <- save optimized_image "JPEG" (Some (quality self)) true ;;
    let filename := replace ".png" ".jpg" filename in
    Ok {| content := output; name := filename |}
  else
    output <- save optimized_image "PNG" None true ;;
    Ok {| content := output; name := filename |}.

Definition save_image
    (self : image_processor) (image_data : bytes) (filename : string)
    : ContentFile :=
  match save_image_try self image_data filename with
  | Ok django_file => django_file
  | Raise _ => {| content := image_data; name := filename |}
  end.

(** The inner [try] of [convert_to_web_format]: a failure keeps the image
    as far as it got. *)
Definition web_enhance (image : Image) : Image :=
  match enhance_contrast image (11 # 10) with
  | Raise _ => image
  | Ok contrasted =>
      match enhance_sharpness contrasted (13 # 10) with
      | Raise _ => contrasted
      | Ok sharpened => sharpened
      end
  end.

(** Lines 225-232 of [convert_to_web_format]: the image brought to RGB
    or RGBA and fitted into 1600 by 1600. *)
Definition web_fit (image : Image) : result Image :=
  image <-
    (if negb (existsb (String.eqb (mode image)) ["RGB"; "RGBA"])
     then convert image "RGB" else Ok image) ;;
  let max_size := (1600, 1600) in
  if (fst max_size <? width image) || (snd max_size <? height image)
  then thumbnail image max_size else Ok image.

(** The outer [try] block of [convert_to_web_format]. *)
Definition convert_to_web_format_try (image_data : bytes) : result bytes :=
  image <- Image_open image_data ;;
  image <- web_fit image ;;
  let image := web_enhance image in
  save image "JPEG" (Some 90) true.

Definition convert_to_web_format (image_data : bytes) : bytes :=
  match convert_to_web_format_try image_data with
  | Ok output => output
  | Raise _ => image_data
  end.

End WithPillow.

(** *** A small instance of the interface

    An image is its mode and its size, and a file is one byte for the mode
    followed by one byte each for width and height; the encoders write a
    byte for the format in front.  As in Pillow, palette images cannot be
    filtered, bilevel and palette images cannot be blended, and the JPEG
    encoder refuses the modes it has no raw mode for. *)
Module Raster.

Record t := {
  mode : string;
  width : Z;
  height : Z
}.

Definition byte_of (n : Z) : Byte.byte :=
  match Byte.of_N (Z.to_N (n mod 256)) with
  | Some b => b
  | None => Byte.x00
  end.

Definition mode_of_tag (tag : Byte.byte) : result string :=
  match tag with
  | Byte.x00 => Ok "RGB"
  | Byte.x01 => Ok "RGBA"
  | Byte.x02 => Ok "L"
  | Byte.x03 => Ok "P"
  | Byte.x04 => Ok "1"
  | _ => Raise "cannot identify image file"
  end.

Definition tag_of_mode (mode : string) : Byte.byte :=
  if String.eqb mode "RGB" then Byte.x00
  else if String.eqb mode "RGBA" then Byte.x01
  else if String.eqb mode "L" then Byte.x02
  else if String.eqb mode "P" then Byte.x03
  else Byte.x04.

(** As Pillow does, [open] refuses a file whose width or height is 0. *)
Definition open (data : bytes) : result t :=
  match data with
  | tag :: w :: h :: _ =>
      mode <- mode_of_tag tag ;;
      if (Byte.to_N w =? 0)%N || (Byte.to_N h =? 0)%N
      then Raise "cannot identify image file"
      else Ok {| mode := mode;
                 width := Z.of_N (Byte.to_N w);
                 height := Z.of_N (Byte.to_N h) |}
  | _ => Raise "cannot identify image file"
  end.

Definition resized (im : t) (size : Z * Z) : t :=
  {| mode := mode im; width := fst size; height := snd size |}.

(** The image scaled down, by one factor for both sides, until it fits
    into [size]; an image that fits already is left alone. *)
Definition fitted (im : t) (size : Z * Z) : t :=
  if (width im <=? fst size) && (height im <=? snd size) then im
  else
    let scale := Qmin (truediv (fst size) (width im))
                      (truediv (snd size) (height im)) in
    resized im (Z.max 1 (int_of_float (inject_Z (width im) * scale)),
                Z.max 1 (int_of_float (inject_Z (height im) * scale))).

(** [im.filter(...)] with a built-in kernel. *)
Definition filter (im : t) : result t :=
  if String.eqb (mode im) "P" then Raise "cannot filter palette images"
  else Ok im.

(** [Image.blend(degenerate, im, factor)] *)
Definition blend (degenerate im : t) : result t :=
  if existsb (String.eqb (mode im)) ["1"; "P"] then Raise "image has wrong mode"
  else Ok im.

(** [ImageEnhance.Sharpness(im).enhance(factor)]: the smoothed image
    blended with the image. *)
Definition sharpened (im : t) : result t :=
  degenerate <- filter im ;;
  blend degenerate im.

(** [ImageEnhance.Contrast(im).enhance(factor)]: the mean grey blended with
    the image. *)
Definition contrasted (im : t) : result t := blend im im.

Definition encode (im : t) (format : string) : result bytes :=
  if String.eqb format "JPEG" then
    if existsb (String.eqb (mode im)) ["1"; "L"; "RGB"; "RGBX"; "CMYK"; "YCbCr"]
    then Ok [Byte.xff; tag_of_mode (mode im);
             byte_of (width im); byte_of (height im)]
    else Raise ("cannot write mode " ++ mode im ++ " as JPEG")
  else Ok [Byte.x89; tag_of_mode (mode im);
           byte_of (width im); byte_of (height im)].

End Raster.

#[export] Instance raster : PIL := {|
  Image := Raster.t;
  mode := Raster.mode;
  width := Raster.width;
  height := Raster.height;
  Image_open := Raster.open;
  Image_new := fun mode size _ =>
    Ok {| Raster.mode := mode;
          Raster.width := fst size; Raster.height := snd size |};
  copy := fun im => Ok im;
  resize := fun im size => Ok (Raster.resized im size);
  thumbnail := fun im size => Ok (Raster.fitted im size);
  convert := fun im mode =>
    Ok {| Raster.mode := mode;
          Raster.width := Raster.width im;
          Raster.height := Raster.height im |};
  alpha_band := fun im =>
    Ok {| Raster.mode := "L";
          Raster.width := Raster.width im;
          Raster.height := Raster.height im |};
  paste := fun background _ _ => Ok background;
  enhance_sharpness := fun im _ => Raster.sharpened im;
  enhance_contrast := fun im _ => Raster.contrasted im;
  save := fun im format _ _ => Raster.encode im format
|}.

(** *** The other entry points of the image processor *)

(** What Pillow documents about the mode of a converted, contrasted or
    filtered image. *)
Class PILConversions (P : PIL) (median_filter : Image -> result Image) := {
  convert_mode : forall im target im',
    convert im target = Ok im' -> mode im' = target;
  enhance_contrast_mode : forall im f im',
    enhance_contrast im f = Ok im' -> mode im' = mode im;
  median_filter_mode : forall im im',
    median_filter im = Ok im' -> mode im' = mode im
}.

(** The [options] dict of [enhance_image_quality]; a missing key is
    [None]. *)
Record options_dict := {
  upscale : option bool;
  denoise : option bool;
  sharpen : option bool;
  contrast_enhancement : option bool
}.

(** The dict used when [options] is [None]. *)
Definition default_options : options_dict :=
  {| upscale := Some true;
     denoise := Some false;
     sharpen := Some true;
     contrast_enhancement := Some true |}.

(** An [<img>] tag as BeautifulSoup gives it: the attributes the code
    reads, [None] when the tag does not have them. *)
Record img_tag := {
  src : option text;
  width_attribute : option string;
  height_attribute : option string
}.

Section EntryPoints.
Context {P : PIL}.

(** [image.filter(ImageFilter.MedianFilter(size=3))] *)
Variable median_filter : Image -> result Image.

(** [base64.b64decode] *)
Variable b64decode : text -> result bytes.

(** [Image.open(image_path)] on a path of the file system. *)
Variable open_path : string -> result Image.

(** The inner [try] of [enhance_image_quality]: the steps asked for, in
    order; the first that fails ends them and the image stays as the steps
    before left it. *)
Definition enhance (options : options_dict) (image : Image) : Image :=
  match (if DocumentProcessor.get (denoise options) false
         then median_filter image else Ok image) with
  | Raise _ => image
  | Ok image =>
      match (if DocumentProcessor.get (contrast_enhancement options) true
             then enhance_contrast image (12 # 10) else Ok image) with
      | Raise _ => image
      | Ok image =>
          match (if DocumentProcessor.get (sharpen options) true
                 then enhance_sharpness image (15 # 10) else Ok image) with
          | Raise _ => image
          | Ok image => image
          end
      end
  end.

(** The outer [try] block of [enhance_image_quality]. *)
Definition enhance_image_quality_try
    (image_data : bytes) (options : option options_dict) : result bytes :=
  let options := match options with Some options => options | None => default_options end in
  image <- Image_open image_data ;;
  image <-
    (if DocumentProcessor.get (upscale options) true
        && ((width image <? 500) || (height image <? 500))
     then
       let scale_factor := 2%Q in
       let new_size :=
         (int_of_float (inject_Z (width image) * scale_factor),
          int_of_float (inject_Z (height image) * scale_factor)) in
       resize image new_size
     else Ok image) ;;
  let image := enhance options image in
  if String.eqb (mode image) "RGBA" then
    save image "PNG" None true
  else
    image <-
      (if negb (String.eqb (mode image) "RGB")
       then convert image "RGB" else Ok image) ;;
    save image "JPEG" (Some 95) true.

Definition enhance_image_quality
    (image_data : bytes) (options : option options_dict) : bytes :=
  match enhance_image_quality_try image_data options with
  | Ok output => output
  | Raise _ => image_data
  end.

(** [src.split(',', 1)] unpacked into two names: the text before the first
    comma and the text after it; without a comma the unpacking raises. *)
Fixpoint split_header (src : text) : result (text * text) :=
  match src with
  | [] => Raise "not enough values to unpack (expected 2, got 1)"
  | c :: rest =>
      if c =? 44 then Ok ([], rest)
      else
        parts <- split_header rest ;;
        Ok (c :: fst parts, snd parts)
  end.

(** [img.get(attribute)] as a dict entry: the attribute text or [None]. *)
Definition attribute_value (attribute : option string) : value :=
  match attribute with
  | Some s => VStr s
  | None => VNone
  end.

(** The [try] block of [extract_images_from_html] for the tag at index
    [i], entered when its [src] starts with ['data:image/']. *)
Definition embedded_image (i : Z) (img : img_tag) (src : text)
    : result DocumentProcessor.image_dict :=
  parts <- split_header src ;;
  let header := fst parts in
  let data := snd parts in
  image_data <- b64decode data ;;
  let ext :=
    if contains (lit "png") header then "png"
    else if contains (lit "jpeg") header || contains (lit "jpg") header
         then "jpg"
         else "png" in
  Ok {| DocumentProcessor.data := Some image_data;
        DocumentProcessor.name :=
          Some ("embedded_image_" ++ str_of_int i ++ "." ++ ext)%string;
        DocumentProcessor.width :=
          Some (attribute_value (width_attribute img));
        DocumentProcessor.height :=
          Some (attribute_value (height_attribute img)) |}.

(** The loop of [extract_images_from_html] over the [<img>] tags of the
    parsed document, from index [i] on. *)
Fixpoint embedded_images (i : Z) (img_tags : list img_tag)
    : list DocumentProcessor.image_dict :=
  match img_tags with
  | [] => []
  | img :: rest =>
      let src := DocumentProcessor.get (src img) [] in
      let found :=
        if startswith (lit "data:image/") src then
          match embedded_image i img src with
          | Ok image => [image]
          | Raise _ => []
          end
        else [] in
      (found ++ embedded_images (i + 1) rest)%list
  end.

(** [extract_images_from_html], given the tags [soup.find_all('img')]
    finds. *)
Definition extract_images_from_html (img_tags : list img_tag)
    : list DocumentProcessor.image_dict :=
  embedded_images 0 img_tags.

(** The [try] block of [create_thumbnail]; [save] gets no [optimize]. *)
Definition create_thumbnail_try
    (self : image_processor) (image_path : string) (size : Z * Z)
    : result bytes :=
  img <- open_path image_path ;;
  img <- thumbnail img size ;;
  let img_format :=
    if String.eqb (mode img) "RGBA" then "PNG" else "JPEG" in
  img <-
    (if String.eqb img_format "JPEG" && String.eqb (mode img) "RGBA"
     then on_white_background img else Ok img) ;;
  save img img_format (Some (quality self)) false.

(** [create_thumbnail]; [None] is Python's [None]. *)
Definition create_thumbnail
    (self : image_processor) (image_path : string) (size : Z * Z)
    : option bytes :=
  match create_thumbnail_try self image_path size with
  | Ok thumb => Some thumb
  | Raise _ => None
  end.

End EntryPoints.

End ImageProcessor.

(* ------------------------------------------------------------------ *)
(** ** documents/utils/document_processor.py: the hand-over to the database

    The models are reached through the two calls the methods make,
    [DocumentImage.objects.create] and
    [DocumentExtractionError.objects.create]: a call changes the database,
    or raises and leaves it as it was.  The import of the models at the
    head of each method is taken to succeed. *)

Module Storage.
Import Py.

(** The keyword arguments of [DocumentImage.objects.create], the document
    apart. *)
Record DocumentImage := {
  image : ImageProcessor.ContentFile;
  image_name : string;
  position_in_document : Z;
  width : value;
  height : value
}.

Section WithDatabase.
Context {P : ImageProcessor.PIL}.

Variable DB : Type.

(** [DocumentImage.objects.create(document=self.document, ...)] *)
Variable create_image : DocumentImage -> DB -> result DB.

(** [DocumentExtractionError.objects.create(document=self.document,
    **error_data)] *)
Variable create_error : DocumentProcessor.error_data -> DB -> result DB.

(** [self.document.id] as the f-string prints it. *)
Variable document_id : string.

(** The file name [_save_images] asks for at index [i]. *)
Definition image_filename (i : Z) : string :=
  (document_id ++ "_image_" ++ str_of_int i ++ ".png")%string.

(** The row built for the image at index [i].  [image_data['data']]
    raises [KeyError] when the key is missing; [ContentFile] refuses a
    [None] in its place. *)
Definition image_row (i : Z) (image_data : DocumentProcessor.image_dict)
    : result DocumentImage :=
  match DocumentProcessor.data image_data with
  | None => Raise "'data'"
  | Some data =>
      let image_file :=
        ImageProcessor.save_image ImageProcessor.init data
          (image_filename i) in
      Ok {| image := image_file;
            image_name :=
              DocumentProcessor.get (DocumentProcessor.name image_data)
                ("Image " ++ str_of_int (i + 1))%string;
            position_in_document := i;
            width :=
              DocumentProcessor.get_value
                (DocumentProcessor.width image_data);
            height :=
              DocumentProcessor.get_value
                (DocumentProcessor.height image_data) |}
  end.

(** The [try] block inside the loop of [_save_images]. *)
Definition save_image_row
    (i : Z) (image_data : DocumentProcessor.image_dict) (db : DB)
    : result DB :=
  and_then (image_row i image_data) (fun row => create_image row db).

(** [for i, image_data in enumerate(images)], from index [i] on: an image
    whose [try] block raises is passed over. *)
Fixpoint save_images_from
    (i : Z) (images : list DocumentProcessor.image_dict) (db : DB) : DB :=
  match images with
  | [] => db
  | image_data :: rest =>
      let db :=
        match save_image_row i image_data db with
        | Ok db => db
        | Raise _ => db
        end in
      save_images_from (i + 1) rest db
  end.

Definition _save_images
    (images : list DocumentProcessor.image_dict) (db : DB) : DB :=
  save_images_from 0 images db.

(** The loop of [save_extraction_errors]: the one [try] is around the
    loop, so the first record the database refuses ends it. *)
Fixpoint save_errors
    (errors : list DocumentProcessor.error_data) (db : DB) : DB :=
  match errors with
  | [] => db
  | error_data :: rest =>
      match create_error error_data db with
      | Ok db => save_errors rest db
      | Raise _ => db
      end
  end.

Definition save_extraction_errors
    (self : DocumentProcessor.processor) (db : DB) : DB :=
  save_errors
    (DocumentProcessor.errors (DocumentProcessor.extraction_metrics self))
    db.

End WithDatabase.

End Storage.

(* ------------------------------------------------------------------ *)
(** ** Observations on a run, used to state the properties *)

Module Run.
Import Py DocumentProcessor.

(** The diagnostics a method call appended to [extraction_metrics['errors']]. *)
Definition emitted {A} (m : M A) (self : processor) : list error_data :=
  skipn (List.length (errors (extraction_metrics self)))
        (errors (extraction_metrics (after m self))).

(** A method that leaves the diagnostics it found in place and adds its
    own after them. *)
Definition appends_only {A} (m : M A) : Prop :=
  forall self,
    errors (extraction_metrics (after m self))
    = (errors (extraction_metrics self) ++ emitted m self)%list.

(** The records of one severity among [l]. *)
Definition of_severity (level : string) (l : list error_data)
    : list error_data :=
  List.filter (fun e => String.eqb (severity e) level) l.

(** The share of corrupted characters in a text, as the code computes it
    before scaling it to a penalty. *)
Definition corrupted_ratio (extracted_text : text) : Q :=
  truediv (len (List.filter corrupted extracted_text)) (len extracted_text).

(** The test that triggers the blank-line penalty. *)
Definition mostly_blank (extracted_text : text) : bool :=
  let lines := split_on 10 extracted_text in
  gt (truediv (len (List.filter blank lines)) (len lines)) (1 # 2).


(** Two processors with the same counters. *)
Definition same_counters (self self' : processor) : Prop :=
  total_elements_detected (extraction_metrics self')
  = total_elements_detected (extraction_metrics self)
  /\ total_elements_extracted (extraction_metrics self')
     = total_elements_extracted (extraction_metrics self).

(** A method that adds [detected] and [extracted] to the two counters,
    whatever the processor it starts from. *)
Definition counters_grow_by {A} (m : M A) (detected extracted : Z) : Prop :=
  forall self,
    total_elements_detected (extraction_metrics (after m self))
    = total_elements_detected (extraction_metrics self) + detected
    /\ total_elements_extracted (extraction_metrics (after m self))
       = total_elements_extracted (extraction_metrics self) + extracted.

(** [self'] differs from [self] at most by diagnostics added after those of
    [self]: document, page trackers, counters and scores are the same. *)
Definition only_logs (self self' : processor) : Prop :=
  document self' = document self
  /\ current_page_number self' = current_page_number self
  /\ current_page_count self' = current_page_count self
  /\ total_elements_detected (extraction_metrics self')
     = total_elements_detected (extraction_metrics self)
  /\ total_elements_extracted (extraction_metrics self')
     = total_elements_extracted (extraction_metrics self)
  /\ text_quality (extraction_metrics self')
     = text_quality (extraction_metrics self)
  /\ image_quality (extraction_metrics self')
     = image_quality (extraction_metrics self)
  /\ table_quality (extraction_metrics self')
     = table_quality (extraction_metrics self)
  /\ exists ds,
       errors (extraction_metrics self')
       = (errors (extraction_metrics self) ++ ds)%list.

(** The severities and the error types of the module. *)
Definition severities : list string := ["low"; "medium"; "high"].

Definition error_types : list string :=
  ["encoding"; "layout_analysis"; "text_ocr"; "image_extraction";
   "table_parsing"; "font_detection"; "other"].

(** A diagnostic as the data model wants it: a known severity and error
    type, the given page, no element type and a suggestion that is not
    empty. *)
Definition well_formed (page : Z) (e : error_data) : Prop :=
  In (severity e) severities
  /\ In (error_type e) error_types
  /\ page_number e = page
  /\ element_type e = None
  /\ suggested_fix e <> EmptyString.

(** [self'] is [self] with well-formed diagnostics added, all on the
    current page of [self] (page 1 when none is set). *)
Definition logs_well_formed (self self' : processor) : Prop :=
  current_page_number self' = current_page_number self
  /\ exists ds,
       errors (extraction_metrics self')
       = (errors (extraction_metrics self) ++ ds)%list
       /\ Forall (well_formed (get (current_page_number self) 1)) ds.

(** A text without the character [c]. *)
Definition without (c : Z) (s : text) : Prop :=
  forallb (fun x => negb (x =? c)) s = true.

(** A path prefix that ends a directory: empty, or ending in a slash. *)
Definition directory (dir : text) : Prop :=
  dir = [] \/ exists d, dir = (d ++ [47])%list.

(** Type sniffing that is unavailable, or raises on [file_path]. *)
Definition no_magic (magic : option (text -> result string))
    (file_path : text) : Prop :=
  match magic with
  | None => True
  | Some from_file => exists msg, from_file file_path = Raise msg
  end.

(** The extension [extract_images_from_html] gives a name, from the text
    before the comma of the data URL. *)
Definition extension_for (header : text) : string :=
  if contains (lit "png") header then "png"
  else if contains (lit "jpeg") header || contains (lit "jpg") header
       then "jpg"
       else "png".

(** The dict [extract_images_from_html] stores for the tag [img] at index
    [i], from the header of its data URL and the decoded payload. *)
Definition stored_image (i : Z) (img : ImageProcessor.img_tag)
    (header : text) (image_data : ImageProcessor.bytes) : image_dict :=
  {| data := Some image_data;
     name := Some ("embedded_image_" ++ str_of_int i ++ "."
                   ++ extension_for header)%string;
     width := Some (ImageProcessor.attribute_value
                      (ImageProcessor.width_attribute img));
     height := Some (ImageProcessor.attribute_value
                       (ImageProcessor.height_attribute img)) |}.

(** The indices, from [i] on, of the images that have a ['data'] entry. *)
Fixpoint indices_with_data (i : Z) (images : list image_dict) : list Z :=
  match images with
  | [] => []
  | image_data :: rest =>
      match data image_data with
      | Some _ => i :: indices_with_data (i + 1) rest
      | None => indices_with_data (i + 1) rest
      end
  end.

End Run.

(* ------------------------------------------------------------------ *)
(** * Properties *)

(** ** The diagnostic logger *)

Section Logger.
Import Py DocumentProcessor Run.

Lemma skipn_length_app {A} (l l' : list A) :
  skipn (List.length l) (l ++ l')%list = l'.
Proof. induction l; simpl; auto. Qed.

(** A call appends exactly one record and leaves counters, document and
    page tracker alone. *)
Lemma log_extraction_error_after
    error_type severity message details page element suggestion self :
  let self' := after (log_extraction_error error_type severity message
                        details page element suggestion) self in
  errors (extraction_metrics self')
  = (errors (extraction_metrics self)
     ++ [new_error_data error_type severity message details page element
                        suggestion self])%list
  /\ total_elements_detected (extraction_metrics self')
     = total_elements_detected (extraction_metrics self)
  /\ total_elements_extracted (extraction_metrics self')
     = total_elements_extracted (extraction_metrics self)
  /\ document self' = document self
  /\ current_page_number self' = current_page_number self.
Proof. repeat split. Qed.

Lemma emitted_of_appended {A} (m : M A) self new :
  errors (extraction_metrics (after m self))
  = (errors (extraction_metrics self) ++ new)%list ->
  emitted m self = new.
Proof. unfold emitted; intros ->; apply skipn_length_app. Qed.

(** C6.  Logging an ['encoding'] error without a suggested fix appends a
    record whose [suggested_fix] is the first entry of the encoding
    remediation list, then ["; "], then the second entry. *)
Theorem encoding_suggested_fix :
  forall severity message details page element self,
  exists first second rest record,
    apply_automatic_corrections "encoding" details = first :: second :: rest
    /\ emitted (log_extraction_error "encoding" severity message details
                  page element None) self = [record]
    /\ suggested_fix record = first ++ "; " ++ second
    /\ suggested_fix record
       = "Ré-encoder le document avec UTF-8; Utiliser un OCR avec détection automatique d'encodage".
Proof.
  intros. do 4 eexists. split; [reflexivity|]. split.
  - apply emitted_of_appended.
    apply (log_extraction_error_after "encoding").
  - split; reflexivity.
Qed.

End Logger.

(** ** The global precision *)

Section Precision.
Import Py DocumentProcessor.



(** Two successes out of three in binary64: the score is the float just
    below the one nearest to 200/3, and rounds to 66.67 like it. *)
Remark two_of_three_binary64 :
  SFcompare (Binary64.percentage 2 3)
            (SFdiv Binary64.prec Binary64.emax
                   (Binary64.of_int 200) (Binary64.of_int 3))
  = Some Lt
  /\ round2 (200 # 3) == 6667 # 100.
Proof. split; reflexivity. Qed.


End Precision.

(** ** The text score *)

Section TextQuality.
Import Py DocumentProcessor Run.

Lemma len_nonneg {A} (l : list A) : 0 <= len l.
Proof. unfold len; lia. Qed.

Lemma len_cons_pos {A} (a : A) (l : list A) : 0 < len (a :: l).
Proof. unfold len; simpl; lia. Qed.

(** [split] always gives at least one field, so the share of blank lines
    never divides by zero. *)
Lemma split_on_fields sep s : 0 < len (split_on sep s).
Proof.
  destruct s as [|c s]; cbn [split_on]; [apply len_cons_pos|].
  destruct (c =? sep); [apply len_cons_pos|].
  destruct (split_on sep s); apply len_cons_pos.
Qed.

Lemma truediv_nonneg a b : 0 <= a -> 0 < b -> (0 <= truediv a b)%Q.
Proof.
  intros Ha Hb. unfold truediv.
  apply Qle_shift_div_l.
  - change 0%Q with (inject_Z 0). rewrite <- Zlt_Qlt. exact Hb.
  - rewrite Qmult_0_l. change 0%Q with (inject_Z 0). rewrite <- Zle_Qle. exact Ha.
Qed.

Lemma corruption_penalty_bounds c n :
  0 <= c -> 0 < n ->
  (0 <= Qmin 50 (truediv c n * 100) <= 50)%Q.
Proof.
  intros Hc Hn. pose proof (truediv_nonneg c n Hc Hn) as H.
  split.
  - apply Q.min_glb; [discriminate|]. nra.
  - apply Q.le_min_l.
Qed.

Lemma clamp_bounds q : (q <= 100 -> 0 <= Qmax 0 q <= 100)%Q.
Proof.
  intros H. split.
  - apply Q.le_max_l.
  - apply Q.max_lub; [discriminate | exact H].
Qed.

(** The score lies between 0 and 100 whatever the text, the expected
    length and the processor. *)
Lemma text_quality_range t e self :
  (0 <= returns (calculate_text_quality t e) self <= 100)%Q.
Proof.
  unfold returns, calculate_text_quality.
  destruct t as [|c t]; [simpl; split; discriminate|].
  cbn [truthy negb].
  pose proof (corruption_penalty_bounds (len (filter corrupted (c :: t))) (len (c :: t)) (len_nonneg _) (len_cons_pos _ _)) as Hp.
  set (pen := Qmin 50 _) in *.
  set (cc := len (filter corrupted (c :: t))) in *.
  set (n := len (c :: t)) in *.
  set (lines := split_on 10 (c :: t)) in *.
  unfold bind, ret.
  destruct (0 <? cc); [destruct (gt pen 10)|];
  (destruct (gt (truediv _ (len lines)) (1#2)));
  (destruct e as [e|]; [destruct (negb (e =? 0) && gt _ (3#10))|]);
  cbn [fst snd log_extraction_error set_metrics]; apply clamp_bounds; lra.
Qed.

(** C2.  For every text, [calculate_text_quality] returns a score between
    0 and 100; for the empty text it returns exactly 0, emits no diagnostic
    and leaves the processor as it was. *)
Theorem text_quality_in_range :
  forall extracted_text expected_length self,
    (0 <= returns (calculate_text_quality extracted_text expected_length) self
       <= 100)%Q
    /\ returns (calculate_text_quality [] expected_length) self = 0%Q
    /\ emitted (calculate_text_quality [] expected_length) self = []
    /\ after (calculate_text_quality [] expected_length) self = self.
Proof.
  intros t e self. split; [apply text_quality_range|].
  split; [reflexivity|]. split; [|reflexivity].
  apply emitted_of_appended. simpl. symmetry. apply app_nil_r.
Qed.

Lemma ratio_zero_iff_none c n :
  0 <= c -> 0 < n -> (truediv c n <= 0)%Q -> c = 0.
Proof.
  intros Hc Hn H. unfold truediv in H.
  destruct (Z.eq_dec c 0) as [|Hne]; [assumption|exfalso].
  assert (Hpos : (0 < inject_Z c / inject_Z n)%Q).
  { apply Qlt_shift_div_l.
    - change 0%Q with (inject_Z 0). rewrite <- Zlt_Qlt. exact Hn.
    - rewrite Qmult_0_l. change 0%Q with (inject_Z 0). rewrite <- Zlt_Qlt. lia. }
  lra.
Qed.

Lemma truediv_zero n : (truediv 0 n == 0)%Q.
Proof. unfold truediv. unfold Qdiv. ring. Qed.

(** C3, as amended.  For two non-empty texts of equal length scored against
    the same expected length, if the second has a corrupted-character ratio
    at least that of the first, and is mostly blank lines whenever the first
    is, then the second scores no higher than the first. *)
Theorem text_quality_monotone t1 t2 e self1 self2 :
  t1 <> [] -> t2 <> [] -> List.length t1 = List.length t2 ->
  (corrupted_ratio t1 <= corrupted_ratio t2)%Q ->
  (mostly_blank t1 = true -> mostly_blank t2 = true) ->
  (returns (calculate_text_quality t2 e) self2
   <= returns (calculate_text_quality t1 e) self1)%Q.
Proof.
  intros H1 H2 Hlen Hratio Hblank.
  unfold returns, calculate_text_quality.
  destruct t1 as [|a1 t1]; [congruence|].
  destruct t2 as [|a2 t2]; [congruence|].
  cbn [truthy negb].
  unfold corrupted_ratio, mostly_blank in *.
  assert (Hn : len (a2 :: t2) = len (a1 :: t1)) by (unfold len; rewrite Hlen; reflexivity).
  rewrite Hn in *.
  pose proof (corruption_penalty_bounds (len (filter corrupted (a1 :: t1))) (len (a1 :: t1)) (len_nonneg _) (len_cons_pos _ _)) as Hp1.
  pose proof (corruption_penalty_bounds (len (filter corrupted (a2 :: t2))) (len (a1 :: t1)) (len_nonneg _) (len_cons_pos _ _)) as Hp2.
  pose proof (ratio_zero_iff_none (len (filter corrupted (a1 :: t1))) (len (a1 :: t1)) (len_nonneg _) (len_cons_pos _ _)) as Hz1.
  assert (Hmin : (Qmin 50 (truediv (len (filter corrupted (a1 :: t1))) (len (a1 :: t1)) * 100) <= Qmin 50 (truediv (len (filter corrupted (a2 :: t2))) (len (a1 :: t1)) * 100))%Q).
  { apply Q.min_le_compat_l. lra. }
  set (c1 := len (filter corrupted (a1 :: t1))) in *.
  set (c2 := len (filter corrupted (a2 :: t2))) in *.
  set (n := len (a1 :: t1)) in *.
  set (pen1 := Qmin 50 (truediv c1 n * 100)) in *.
  set (pen2 := Qmin 50 (truediv c2 n * 100)) in *.
  set (b1 := gt (truediv (len (filter blank (split_on 10 (a1 :: t1)))) _) (1#2)) in *.
  set (b2 := gt (truediv (len (filter blank (split_on 10 (a2 :: t2)))) _) (1#2)) in *.
  unfold bind, ret.
  assert (Hc : (0 <? c2) = false -> (0 <? c1) = false).
  { intros Hc2. apply Z.ltb_ge in Hc2. apply Z.ltb_ge.
    assert (c2 = 0) by (subst c2; pose proof (len_nonneg (filter corrupted (a2 :: t2))); lia).
    rewrite Hz1; [lia|]. rewrite H in Hratio. rewrite truediv_zero in Hratio. exact Hratio. }
  destruct (0 <? c2); [destruct (gt pen2 10)|];
  (destruct (0 <? c1); [destruct (gt pen1 10)| ]; try (specialize (Hc eq_refl); discriminate));
  (destruct b1; [rewrite (Hblank eq_refl)|destruct b2]);
  (destruct e as [e|]; [destruct (negb (e =? 0) && gt _ (3#10))|]);
  cbn [fst snd log_extraction_error set_metrics]; apply Q.max_le_compat_l; lra.
Qed.

Lemma text_quality_monotone_witness :
  let first := [10; 10; 97] in
  let second := [10; 10; 63] in
  let self := init Document.empty in
  (returns (calculate_text_quality second None) self
   <= returns (calculate_text_quality first None) self)%Q.
Proof.
  apply text_quality_monotone;
    [ discriminate | discriminate | reflexivity
    | vm_compute; discriminate | intros _; reflexivity ].
Defined.

(** C3, as stated, fails: ten line breaks have no corrupted character and
    score 80 because of the blank-line penalty, while a question mark
    followed by nine letters has a corrupted ratio of 1/10 and scores 90. *)
Lemma corruption_monotonicity_counterexample :
  let first := repeat 10 10%nat in
  let second := 63 :: repeat 97 9%nat in
  let self := init Document.empty in
  first <> [] /\ second <> []
  /\ List.length first = List.length second
  /\ (corrupted_ratio first <= corrupted_ratio second)%Q
  /\ (returns (calculate_text_quality first None) self == 80)%Q
  /\ (returns (calculate_text_quality second None) self == 90)%Q
  /\ (returns (calculate_text_quality first None) self
      < returns (calculate_text_quality second None) self)%Q.
Proof.
  repeat split; try discriminate; reflexivity.
Qed.

End TextQuality.

(** ** The image score *)

Section ImageQuality.
Import Py DocumentProcessor Run.

(** One turn of the loop: the counter grows by one exactly for a candidate
    with data; a candidate without data is reported once, as medium; a
    candidate with data and a dimension below 50 is reported once, as low. *)
Lemma inspect_image_run i img_data successful self :
  exists ds,
    returns (inspect_image i img_data successful) self
    = successful + (if has_data img_data then 1 else 0)
    /\ errors (extraction_metrics
                 (after (inspect_image i img_data successful) self))
       = (errors (extraction_metrics self) ++ ds)%list
    /\ Forall (fun e => error_type e = "image_extraction") ds
    /\ List.length (of_severity "medium" ds)
       = (if has_data img_data then 0 else 1)%nat
    /\ (has_data img_data = true -> too_small img_data = Ok true ->
        exists e,
          ds = [e] /\ severity e = "low"
          /\ message e
             = "Image " ++ str_of_int (i + 1) ++ " de très petite taille"
          /\ details e = Some [("width", get_value (width img_data));
                               ("height", get_value (height img_data))]).
Proof.
  unfold returns, after, inspect_image.
  destruct (has_data img_data) eqn:Hd.
  - destruct (too_small img_data) as [[|]|msg] eqn:Hs.
    + eexists; split; [reflexivity|]; split; [reflexivity|].
      split; [repeat constructor|]. split; [reflexivity|].
      intros _ _. eexists. repeat split.
    + exists []. split; [reflexivity|].
      split; [simpl; symmetry; apply app_nil_r|].
      split; [constructor|]. split; [reflexivity|]. intros _ H; discriminate.
    + eexists; split; [reflexivity|]; split; [reflexivity|].
      split; [repeat constructor|]. split; [reflexivity|].
      intros _ H; discriminate.
  - eexists; split; [unfold bind, ret; simpl; f_equal; lia|].
    split; [reflexivity|].
    split; [repeat constructor|]. split; [reflexivity|].
    intros H; discriminate.
Qed.

Lemma of_severity_app level l l' :
  of_severity level (l ++ l')%list
  = (of_severity level l ++ of_severity level l')%list.
Proof. apply filter_app. Qed.

Lemma bind_run {A B} (m : M A) (k : A -> M B) self :
  bind m k self = k (returns m self) (after m self).
Proof. unfold bind, returns, after. destruct (m self); reflexivity. Qed.

(** The whole loop, started at index [i] with [successful] successes. *)
Lemma inspect_images_run images_data :
  forall i successful self,
  exists ds,
    returns (inspect_images i images_data successful) self
    = successful + len (List.filter has_data images_data)
    /\ errors (extraction_metrics
                 (after (inspect_images i images_data successful) self))
       = (errors (extraction_metrics self) ++ ds)%list
    /\ Forall (fun e => error_type e = "image_extraction") ds
    /\ List.length (of_severity "medium" ds)
       = List.length
           (List.filter (fun img => negb (has_data img)) images_data)
    /\ (forall k img_data,
          nth_error images_data k = Some img_data ->
          has_data img_data = true -> too_small img_data = Ok true ->
          exists e,
            In e ds /\ severity e = "low"
            /\ message e
               = "Image " ++ str_of_int (i + Z.of_nat k + 1)
                 ++ " de très petite taille"
            /\ details e = Some [("width", get_value (width img_data));
                                 ("height", get_value (height img_data))]).
Proof.
  induction images_data as [|img rest IH]; intros i successful self.
  - exists []. split; [unfold returns, len; simpl; lia|].
    split; [simpl; symmetry; apply app_nil_r|].
    split; [constructor|]. split; [reflexivity|].
    intros [|k] ? H; discriminate.
  - destruct (inspect_image_run i img successful self)
      as (d1 & Hr1 & He1 & Ht1 & Hm1 & Hl1).
    set (s1 := returns (inspect_image i img successful) self) in *.
    set (self1 := after (inspect_image i img successful) self) in *.
    destruct (IH (i + 1) s1 self1) as (d2 & Hr2 & He2 & Ht2 & Hm2 & Hl2).
    assert (Hstep : inspect_images i (img :: rest) successful self
                    = inspect_images (i + 1) rest s1 self1)
      by (cbn [inspect_images]; apply bind_run).
    unfold returns, after in Hr2, He2 |- *. rewrite Hstep.
    exists (d1 ++ d2)%list.
    split.
    { rewrite Hr2, Hr1. cbn [List.filter]. unfold len.
      destruct (has_data img); cbn [List.length]; lia. }
    split; [rewrite He2, He1; symmetry; apply app_assoc|].
    split; [apply Forall_app; split; assumption|].
    split.
    { rewrite of_severity_app, length_app, Hm1, Hm2. cbn [List.filter].
      destruct (has_data img); reflexivity. }
    intros [|k] img_data Hk Hd Hs.
    + injection Hk as <-. destruct (Hl1 Hd Hs) as (e & -> & Hsev & Hmsg & Hdet).
      exists e. split; [left; reflexivity|]. split; [exact Hsev|].
      split; [|exact Hdet]. rewrite Hmsg. do 3 f_equal. simpl. lia.
    + destruct (Hl2 k img_data Hk Hd Hs) as (e & Hin & Hsev & Hmsg & Hdet).
      exists e. split; [apply in_or_app; right; exact Hin|].
      split; [exact Hsev|]. split; [|exact Hdet].
      rewrite Hmsg. do 3 f_equal. lia.
Qed.

(** The value and the records of a call on a non-empty list. *)
Lemma calculate_image_quality_run images_data total self :
  images_data <> [] ->
  exists ds,
    (returns (calculate_image_quality images_data total) self
     == inject_Z (len (List.filter has_data images_data))
        / inject_Z (len images_data) * 100)%Q
    /\ emitted (calculate_image_quality images_data total) self = ds
    /\ Forall (fun e => error_type e = "image_extraction") ds
    /\ List.length (of_severity "medium" ds)
       = List.length
           (List.filter (fun img => negb (has_data img)) images_data)
    /\ (forall k img_data,
          nth_error images_data k = Some img_data ->
          has_data img_data = true -> too_small img_data = Ok true ->
          exists e,
            In e ds /\ severity e = "low"
            /\ message e
               = "Image " ++ str_of_int (Z.of_nat k + 1)
                 ++ " de très petite taille"
            /\ details e = Some [("width", get_value (width img_data));
                                 ("height", get_value (height img_data))]).
Proof.
  intros Hne.
  destruct (inspect_images_run images_data 0 0 self)
    as (ds & Hr & He & Ht & Hm & Hl).
  exists ds.
  assert (Hrun : calculate_image_quality images_data total self
                 = (truediv (returns (inspect_images 0 images_data 0) self)
                            (len images_data) * 100,
                    after (inspect_images 0 images_data 0) self)%Q).
  { unfold calculate_image_quality.
    destruct images_data as [|img rest]; [congruence|].
    cbn [truthy negb]. rewrite bind_run.
    assert (Hpos : (0 <? len (img :: rest)) = true)
      by (apply Z.ltb_lt; apply len_cons_pos).
    rewrite Hpos. reflexivity. }
  split; [unfold returns at 1; rewrite Hrun, Hr; reflexivity|].
  split; [apply emitted_of_appended; unfold after at 1; rewrite Hrun; exact He|].
  split; [exact Ht|]. split; [exact Hm|]. exact Hl.
Qed.

(** The binary64 embedding runs the loop of the rational one: it leaves the
    processor, and so the diagnostics, that one leaves. *)
Lemma binary64_image_quality_after images_data total self :
  after (Binary64.calculate_image_quality images_data total) self
  = after (calculate_image_quality images_data total) self.
Proof.
  unfold after, Binary64.calculate_image_quality, calculate_image_quality.
  destruct images_data as [|img rest]; cbn [truthy negb].
  - destruct total as [detected|]; [|reflexivity].
    destruct (negb (detected =? 0) && (0 <? detected)); reflexivity.
  - rewrite !bind_run.
    destruct (0 <? len (img :: rest)); reflexivity.
Qed.

(** Its value on a list that is not empty: the quotient of the candidates
    with data by all candidates, times 100, in binary64. *)
Lemma binary64_image_quality_run images_data total self :
  images_data <> [] ->
  returns (Binary64.calculate_image_quality images_data total) self
  = Binary64.Float
      (Binary64.percentage (len (List.filter has_data images_data))
                           (len images_data)).
Proof.
  intros Hne.
  destruct (inspect_images_run images_data 0 0 self) as (ds & Hr & _).
  unfold returns at 1, Binary64.calculate_image_quality.
  destruct images_data as [|img rest]; [congruence|].
  cbn [truthy negb]. rewrite bind_run.
  assert (Hpos : (0 <? len (img :: rest)) = true)
    by (apply Z.ltb_lt; apply len_cons_pos).
  rewrite Hpos, Hr. reflexivity.
Qed.

(** C4, as amended.  On an empty list the call returns 100 without any
    diagnostic when the number of detected images is absent or 0, and 0
    with exactly one high [image_extraction] diagnostic when it is
    positive.  On three candidates of which two carry data it returns the
    binary64 value of [(2 / 3) * 100], which is 4691249611844266 * 2^-46:
    it lies below 200/3, by less than 10^-14, and is 66.67 when rounded to
    two decimals; exactly one medium diagnostic, an [image_extraction] one,
    is emitted. *)
Theorem image_quality_cases :
  forall self,
    (forall total, total = None \/ total = Some 0 ->
       returns (Binary64.calculate_image_quality [] total) self
       = Binary64.Int 100
       /\ emitted (Binary64.calculate_image_quality [] total) self = [])
    /\ (forall detected, 0 < detected ->
          returns (Binary64.calculate_image_quality [] (Some detected)) self
          = Binary64.Int 0
          /\ exists e,
               emitted (Binary64.calculate_image_quality [] (Some detected))
                       self
               = [e]
               /\ severity e = "high"
               /\ error_type e = "image_extraction")
    /\ (forall images_data total,
          List.length images_data = 3%nat ->
          List.length (List.filter has_data images_data) = 2%nat ->
          let score := S754_finite false 4691249611844266 (-46) in
          returns (Binary64.calculate_image_quality images_data total) self
          = Binary64.Float score
          /\ (Binary64.to_Q score < 200 # 3)%Q
          /\ ((200 # 3) - Binary64.to_Q score < 1 # 100000000000000)%Q
          /\ (round2 (Binary64.to_Q score) == 6667 # 100)%Q
          /\ exists e,
               of_severity "medium"
                 (emitted (Binary64.calculate_image_quality images_data total)
                          self)
               = [e]
               /\ error_type e = "image_extraction").
Proof.
  intros self. split; [|split].
  - intros total [-> | ->]; (split; [reflexivity|]);
      apply emitted_of_appended; simpl; symmetry; apply app_nil_r.
  - intros detected Hpos.
    assert (Hc : negb (detected =? 0) && (0 <? detected) = true).
    { apply andb_true_iff. split.
      - apply negb_true_iff, Z.eqb_neq. lia.
      - apply Z.ltb_lt. exact Hpos. }
    unfold Binary64.calculate_image_quality. cbn [truthy negb]. rewrite Hc.
    split; [reflexivity|]. eexists. split.
    + apply emitted_of_appended. reflexivity.
    + split; reflexivity.
  - intros images_data total Hlen Hdata score.
    assert (Hne : images_data <> []) by (intros ->; discriminate).
    split; [|split; [|split; [|split]]].
    + rewrite (binary64_image_quality_run images_data total self Hne).
      unfold len. rewrite Hlen, Hdata. reflexivity.
    + reflexivity.
    + reflexivity.
    + reflexivity.
    + destruct (calculate_image_quality_run images_data total self Hne)
        as (ds & _ & He & Ht & Hm & _).
      assert (He' : emitted (Binary64.calculate_image_quality images_data
                               total) self = ds).
      { unfold emitted. rewrite binary64_image_quality_after. exact He. }
      rewrite He'.
      pose proof (filter_length has_data images_data) as Hsum.
      rewrite Hlen, Hdata in Hsum.
      assert (H1 : List.length (of_severity "medium" ds) = 1%nat)
        by (rewrite Hm; lia).
      destruct (of_severity "medium" ds) as [|e [|e' l]] eqn:Hmed;
        try discriminate.
      exists e. split; [reflexivity|].
      assert (Hin : In e (of_severity "medium" ds))
        by (rewrite Hmed; left; reflexivity).
      apply filter_In in Hin. destruct Hin as [Hin _].
      rewrite Forall_forall in Ht. apply Ht. exact Hin.
Qed.

Lemma image_quality_cases_witness :
  let with_data :=
    {| data := Some [Byte.x89]; name := None;
       width := Some (VInt 640); height := Some (VInt 480) |} in
  let without_data :=
    {| data := None; name := None; width := None; height := None |} in
  let images_data := [with_data; without_data; with_data] in
  let self := init Document.empty in
  let score := S754_finite false 4691249611844266 (-46) in
  returns (Binary64.calculate_image_quality images_data (Some 3%Z)) self
  = Binary64.Float score
  /\ (Binary64.to_Q score < 200 # 3)%Q
  /\ ((200 # 3) - Binary64.to_Q score < 1 # 100000000000000)%Q
  /\ (round2 (Binary64.to_Q score) == 6667 # 100)%Q
  /\ exists e,
       of_severity "medium"
         (emitted (Binary64.calculate_image_quality images_data (Some 3%Z))
                  self)
       = [e]
       /\ error_type e = "image_extraction".
Proof.
  apply (proj2 (proj2 (image_quality_cases (init Document.empty))));
    reflexivity.
Defined.

(** C4, as stated, fails in the last place: with two of three candidates
    carrying data the value returned is neither 200/3 nor the float nearest
    to it, the one [200 / 3] evaluates to, but the float below that one. *)
Lemma two_of_three_counterexample :
  let with_data :=
    {| data := Some [Byte.x89]; name := None;
       width := Some (VInt 640); height := Some (VInt 480) |} in
  let without_data :=
    {| data := None; name := None; width := None; height := None |} in
  let images_data := [with_data; without_data; with_data] in
  exists score,
    returns (Binary64.calculate_image_quality images_data (Some 3%Z))
            (init Document.empty)
    = Binary64.Float score
    /\ SFcompare score
                 (SFdiv Binary64.prec Binary64.emax
                        (Binary64.of_int 200) (Binary64.of_int 3))
       = Some Lt
    /\ (Binary64.to_Q score < 200 # 3)%Q.
Proof.
  eexists. split; [reflexivity|]. split; reflexivity.
Qed.





End ImageQuality.

(** ** The table score *)

Section TableQuality.
Import Py DocumentProcessor Run.

Lemma count_from_nonneg sub s : forall skip, 0 <= count_from sub s skip.
Proof.
  induction s as [|c s IH]; intros skip; cbn [count_from]; [lia|].
  destruct skip; [|apply IH].
  destruct (startswith sub (c :: s)); [|apply IH].
  specialize (IH (Nat.pred (List.length sub))). lia.
Qed.

(** A substring that is counted at least once occurs. *)
Lemma count_from_contains sub s :
  forall skip, 0 < count_from sub s skip -> contains sub s = true.
Proof.
  induction s as [|c s IH]; intros skip; cbn [count_from contains]; [lia|].
  destruct skip as [|k].
  - destruct (startswith sub (c :: s)); [reflexivity|].
    intros H. rewrite (IH _ H). apply orb_true_r.
  - intros H. rewrite (IH _ H). apply orb_true_r.
Qed.

Lemma count_contains sub s : 0 < count sub s -> contains sub s = true.
Proof. apply count_from_contains. Qed.

(** C5.  Without [has_tables] the score is 100 whatever the content.  With
    it, a content without any ['<table>'], ['|'] or tab scores 20 and emits
    exactly one high [table_parsing] diagnostic; a content with three
    ['<table>'] and two ['</table>'] scores 60 and emits exactly one medium
    diagnostic whose details give an imbalance of 1; a content with some
    indicator and as many ['<table>'] as ['</table>'] scores 85. *)
Theorem table_quality_cases :
  forall content format_info self,
    let run := calculate_table_quality content format_info in
    let opened := count (lit "<table>") content in
    let closed := count (lit "</table>") content in
    let indicators :=
      opened + count (lit "|") content + count [9] content in
    (get (has_tables format_info) false = false ->
       returns run self = 100%Q /\ emitted run self = [])
    /\ (get (has_tables format_info) false = true -> indicators = 0 ->
          returns run self = 20%Q
          /\ exists e,
               emitted run self = [e]
               /\ severity e = "high" /\ error_type e = "table_parsing")
    /\ (get (has_tables format_info) false = true ->
        opened = 3 -> closed = 2 ->
          returns run self = 60%Q
          /\ exists e,
               emitted run self = [e]
               /\ severity e = "medium" /\ error_type e = "table_parsing"
               /\ details e = Some [("incomplete_tables", VInt 1)])
    /\ (get (has_tables format_info) false = true ->
        indicators <> 0 -> opened = closed ->
          returns run self = 85%Q /\ emitted run self = []).
Proof.
  intros content format_info self run opened closed indicators.
  assert (Hnil : forall q, emitted (ret q : M Q) self = [])
    by (intros q; apply emitted_of_appended; simpl; symmetry; apply app_nil_r).
  subst run. unfold calculate_table_quality.
  fold opened closed. fold indicators.
  split; [|split; [|split]].
  - intros ->. cbn [negb]. split; [reflexivity|apply Hnil].
  - intros -> ->. cbn [negb Z.eqb]. split; [reflexivity|].
    eexists. split; [apply emitted_of_appended; reflexivity|].
    split; reflexivity.
  - intros -> Ho Hc. cbn [negb].
    assert (Hind : (indicators =? 0) = false).
    { apply Z.eqb_neq. subst indicators.
      pose proof (count_from_nonneg (lit "|") content O).
      pose proof (count_from_nonneg [9] content O).
      unfold count in *. lia. }
    rewrite Hind.
    rewrite (count_contains (lit "<table>") content) by (fold opened; lia).
    rewrite Ho, Hc. cbn [Z.eqb Pos.eqb negb Z.sub].
    split; [reflexivity|].
    eexists. split; [apply emitted_of_appended; reflexivity|].
    repeat split.
  - intros -> Hind Heq. cbn [negb].
    apply Z.eqb_neq in Hind. rewrite Hind.
    rewrite Heq, Z.eqb_refl. cbn [negb].
    destruct (contains (lit "<table>") content);
      (split; [reflexivity|apply Hnil]).
Qed.

Lemma table_quality_cases_witness :
  let content := lit "<table><table><table></table></table>" in
  let format_info :=
    {| has_headers := Some false; has_footers := Some false;
       has_tables := Some true; has_images := Some false;
       generated_css := None |} in
  let self := init Document.empty in
  returns (calculate_table_quality content format_info) self = 60%Q
  /\ exists e,
       emitted (calculate_table_quality content format_info) self = [e]
       /\ severity e = "medium" /\ error_type e = "table_parsing"
       /\ details e = Some [("incomplete_tables", VInt 1)].
Proof.
  apply (proj1 (proj2 (proj2
           (table_quality_cases _ _ (init Document.empty)))));
    reflexivity.
Defined.

End TableQuality.

(** ** The scorers only append to the diagnostics *)

Section Appending.
Import Py DocumentProcessor Run.

Lemma appends_only_intro {A} (m : M A) :
  (forall self, exists ds,
     errors (extraction_metrics (after m self))
     = (errors (extraction_metrics self) ++ ds)%list) ->
  appends_only m.
Proof.
  intros H self. destruct (H self) as (ds & Hds).
  rewrite (emitted_of_appended _ _ _ Hds). exact Hds.
Qed.

Lemma text_quality_appends t e : appends_only (calculate_text_quality t e).
Proof.
  apply appends_only_intro. intros self.
  unfold after, calculate_text_quality.
  destruct t as [|c t]; [exists []; simpl; symmetry; apply app_nil_r|].
  cbn [truthy negb]. unfold bind, ret.
  destruct (0 <? _); [destruct (gt _ 10)|];
  (destruct (gt (truediv _ _) (1#2)));
  (destruct e as [e|]; [destruct (negb (e =? 0) && gt _ (3#10))|]);
  cbn [fst snd log_extraction_error set_metrics append_error errors
       extraction_metrics];
  repeat rewrite <- app_assoc;
  solve [ eexists; reflexivity
        | exists []; symmetry; apply app_nil_r ].
Qed.

Lemma image_quality_appends images_data total :
  appends_only (calculate_image_quality images_data total).
Proof.
  apply appends_only_intro. intros self.
  destruct images_data as [|img rest].
  - unfold after, calculate_image_quality. cbn [truthy negb].
    destruct total as [n|]; [destruct (negb (n =? 0) && (0 <? n))|];
      solve [ eexists; reflexivity
            | exists []; simpl; symmetry; apply app_nil_r ].
  - destruct (inspect_images_run (img :: rest) 0 0 self)
      as (ds' & _ & He' & _).
    exists ds'.
    unfold after, calculate_image_quality. cbn [truthy negb].
    rewrite bind_run.
    destruct (0 <? len (img :: rest)); exact He'.
Qed.

Lemma table_quality_appends content format_info :
  appends_only (calculate_table_quality content format_info).
Proof.
  apply appends_only_intro. intros self.
  unfold after, calculate_table_quality.
  destruct (negb _); [exists []; simpl; symmetry; apply app_nil_r|].
  destruct (_ =? 0); [eexists; reflexivity|].
  destruct (contains _ _); [|exists []; simpl; symmetry; apply app_nil_r].
  destruct (negb _);
    [eexists; reflexivity|exists []; simpl; symmetry; apply app_nil_r].
Qed.

End Appending.

(** ** The counters *)

Section Counters.
Import Py DocumentProcessor Run.

Lemma same_counters_refl self : same_counters self self.
Proof. split; reflexivity. Qed.

Lemma same_counters_trans s1 s2 s3 :
  same_counters s1 s2 -> same_counters s2 s3 -> same_counters s1 s3.
Proof. intros [A B] [C D]. split; congruence. Qed.

Lemma after_bind {A B} (m : M A) (k : A -> M B) self :
  after (bind m k) self = after (k (returns m self)) (after m self).
Proof. unfold after at 1. rewrite bind_run. reflexivity. Qed.

Lemma returns_bind {A B} (m : M A) (k : A -> M B) self :
  returns (bind m k) self = returns (k (returns m self)) (after m self).
Proof. unfold returns at 1. rewrite bind_run. reflexivity. Qed.

Lemma log_keeps_counters error_type severity message details page element
    suggestion self :
  same_counters self
    (after (log_extraction_error error_type severity message details page
              element suggestion) self).
Proof. split; reflexivity. Qed.

Lemma text_quality_keeps_counters t e self :
  same_counters self (after (calculate_text_quality t e) self).
Proof.
  unfold after, calculate_text_quality.
  destruct t as [|c t]; [apply same_counters_refl|].
  cbn [truthy negb]. unfold bind, ret.
  destruct (0 <? _); [destruct (gt _ 10)|];
  (destruct (gt (truediv _ _) (1#2)));
  (destruct e as [e|]; [destruct (negb (e =? 0) && gt _ (3#10))|]);
  split; reflexivity.
Qed.

Lemma inspect_image_keeps_counters i img successful self :
  same_counters self (after (inspect_image i img successful) self).
Proof.
  unfold after, inspect_image.
  destruct (has_data img); [destruct (too_small img) as [[|]|]|];
    split; reflexivity.
Qed.

Lemma inspect_images_keeps_counters images_data :
  forall i successful self,
    same_counters self (after (inspect_images i images_data successful) self).
Proof.
  induction images_data as [|img rest IH]; intros i successful self.
  - apply same_counters_refl.
  - cbn [inspect_images]. rewrite after_bind.
    eapply same_counters_trans; [apply inspect_image_keeps_counters|apply IH].
Qed.

Lemma image_quality_keeps_counters images_data total self :
  same_counters self (after (calculate_image_quality images_data total) self).
Proof.
  unfold calculate_image_quality.
  destruct images_data as [|img rest]; cbn [truthy negb].
  - destruct total as [n|]; [|apply same_counters_refl].
    destruct (negb (n =? 0) && (0 <? n)); split; reflexivity.
  - rewrite after_bind.
    eapply same_counters_trans; [apply inspect_images_keeps_counters|].
    destruct (0 <? len (img :: rest)); apply same_counters_refl.
Qed.

Lemma table_quality_keeps_counters content format_info self :
  same_counters self (after (calculate_table_quality content format_info) self).
Proof.
  unfold after, calculate_table_quality.
  destruct (negb _); [apply same_counters_refl|].
  destruct (_ =? 0); [split; reflexivity|].
  destruct (contains _ _); [|apply same_counters_refl].
  destruct (negb _); split; reflexivity.
Qed.

Lemma grows_ret {A} (a : A) : counters_grow_by (ret a) 0 0.
Proof. intros self. split; unfold after; simpl; lia. Qed.

Lemma grows_bind {A B} (m : M A) (k : A -> M B) d1 e1 d2 e2 :
  counters_grow_by m d1 e1 ->
  (forall a, counters_grow_by (k a) d2 e2) ->
  counters_grow_by (bind m k) (d1 + d2) (e1 + e2).
Proof.
  intros Hm Hk self. rewrite after_bind.
  destruct (Hm self) as [A1 A2].
  destruct (Hk (returns m self) (after m self)) as [B1 B2].
  split; lia.
Qed.

Lemma grows_same {A} (m : M A) :
  (forall self, same_counters self (after m self)) ->
  counters_grow_by m 0 0.
Proof. intros H self. destruct (H self). split; lia. Qed.

Lemma grows_add_detected n : counters_grow_by (set_metrics (add_detected n)) n 0.
Proof. intros self. split; unfold after; simpl; lia. Qed.

Lemma grows_add_extracted n :
  counters_grow_by (set_metrics (add_extracted n)) 0 n.
Proof. intros self. split; unfold after; simpl; lia. Qed.

Lemma grows_eq {A} (m : M A) d e d' e' :
  counters_grow_by m d e -> d = d' -> e = e' -> counters_grow_by m d' e'.
Proof. intros H <- <-. exact H. Qed.

(** What one update adds to the two counters. *)
Lemma update_counters result :
  exists detected extracted,
    0 <= extracted <= detected
    /\ counters_grow_by (update_extraction_metrics result) detected extracted.
Proof.
  unfold update_extraction_metrics.
  set (content := get (DocumentProcessor.content result) []).
  set (formatted := get (formatted_content result) []).
  set (images := get (DocumentProcessor.images result) []).
  set (info := get (format_info result) _).
  set (detected_images :=
         if get (has_images info) false
         then Z.max (if truthy images then len images else 0) 1
         else if truthy images then len images else 0).
  set (tables := get (has_tables info) false).
  set (found := existsb (fun indicator => contains indicator formatted) _).
  exists (1 + detected_images + (if tables then 1 else 0)),
         ((if truthy content then 1 else 0)
          + len (List.filter data_truthy images)
          + (if tables then if found then 1 else 0 else 0)).
  assert (Himg : 0 <= len (List.filter data_truthy images) <= detected_images).
  { split; [apply len_nonneg|].
    assert (len (List.filter data_truthy images) <= len images)
      by (unfold len; apply inj_le, filter_length_le).
    subst detected_images.
    destruct images; cbn [truthy] in *;
      destruct (get (has_images info) false); unfold len in *; simpl in *; lia. }
  split.
  { destruct (truthy content), tables, found; lia. }
  assert (Htables :
            counters_grow_by
              (if tables
               then set_metrics (add_detected 1) ;;
                    (if found then set_metrics (add_extracted 1) else ret tt)
               else ret tt)%py
              (if tables then 1 else 0)
              (if tables then if found then 1 else 0 else 0)).
  { destruct tables; [|apply grows_ret].
    destruct found.
    - apply (grows_bind _ _ 1 0 0 1);
        [apply grows_add_detected|intros _; apply grows_add_extracted].
    - apply (grows_bind _ _ 1 0 0 0);
        [apply grows_add_detected|intros _; apply grows_ret]. }
  eapply grows_eq.
  - apply grows_bind; [apply grows_same; intros s; split; reflexivity|intros _].
    apply grows_bind; [apply grows_add_detected|intros _].
    apply grows_bind; [apply grows_add_extracted|intros _].
    apply grows_bind; [apply grows_add_detected|intros _].
    apply grows_bind; [apply grows_add_extracted|intros _].
    apply grows_bind; [exact Htables|intros _].
    apply grows_bind;
      [apply grows_same, text_quality_keeps_counters|intros q1].
    apply grows_bind; [apply grows_same; intros s; split; reflexivity|intros _].
    apply grows_bind;
      [apply grows_same, image_quality_keeps_counters|intros q2].
    apply grows_bind; [apply grows_same; intros s; split; reflexivity|intros _].
    apply grows_bind;
      [apply grows_same, table_quality_keeps_counters|intros q3].
    apply grows_same; intros s; split; reflexivity.
  - lia.
  - lia.
Qed.

Lemma precision_at_most_100 metrics :
  0 <= total_elements_extracted metrics <= total_elements_detected metrics ->
  (precision metrics <= 100)%Q.
Proof.
  intros [He Hd]. unfold precision.
  destruct (0 <? total_elements_detected metrics) eqn:Hpos; [|discriminate].
  apply Z.ltb_lt in Hpos. unfold truediv.
  assert (Hq : (inject_Z (total_elements_extracted metrics)
                / inject_Z (total_elements_detected metrics) <= 1)%Q).
  { apply Qle_shift_div_r.
    - change 0%Q with (inject_Z 0). rewrite <- Zlt_Qlt. exact Hpos.
    - rewrite Qmult_1_l. rewrite <- Zle_Qle. exact Hd. }
  lra.
Qed.

(** The bound is an invariant: an update from counters that satisfy it
    leaves counters that satisfy it. *)
Theorem update_preserves_bound :
  forall result self,
    total_elements_extracted (extraction_metrics self)
    <= total_elements_detected (extraction_metrics self) ->
    let metrics :=
      extraction_metrics (after (update_extraction_metrics result) self) in
    total_elements_extracted metrics <= total_elements_detected metrics.
Proof.
  intros result self Hle metrics.
  destruct (update_counters result) as (d & e & Hde & Hgrow).
  destruct (Hgrow self) as [Hd' He']. fold metrics in Hd', He'. lia.
Qed.

Lemma update_preserves_bound_witness :
  let result :=
    {| content := Some (lit "deux mots"); formatted_content := None;
       images := None; format_info := None |} in
  let once := after (update_extraction_metrics result) (init Document.empty) in
  let metrics :=
    extraction_metrics (after (update_extraction_metrics result) once) in
  total_elements_extracted metrics <= total_elements_detected metrics.
Proof.
  intros result once.
  apply (update_preserves_bound result once). vm_compute. discriminate.
Defined.

(** C9.  From counters at zero, one call of [update_extraction_metrics]
    leaves the extracted counter at most the detected counter, so the
    precision computed afterwards is at most 100. *)
Theorem single_update_precision_bounded :
  forall result self,
    total_elements_detected (extraction_metrics self) = 0 ->
    total_elements_extracted (extraction_metrics self) = 0 ->
    let metrics :=
      extraction_metrics (after (update_extraction_metrics result) self) in
    total_elements_extracted metrics <= total_elements_detected metrics
    /\ (precision metrics <= 100)%Q.
Proof.
  intros result self Hd He metrics.
  destruct (update_counters result) as (d & e & Hde & Hgrow).
  destruct (Hgrow self) as [Hd' He']. fold metrics in Hd', He'.
  split; [lia|].
  apply precision_at_most_100. lia.
Qed.

Lemma single_update_precision_bounded_witness :
  let image :=
    {| data := Some [Byte.x89]; name := None;
       width := Some (VInt 10); height := Some (VInt 10) |} in
  let result :=
    {| content := Some (lit "a|b");
       formatted_content := Some (lit "<table><tr><td>a</td></tr>");
       images := Some [image;
                       {| data := None; name := None;
                          width := None; height := None |}];
       format_info :=
         Some {| has_headers := None; has_footers := None;
                 has_tables := Some true; has_images := Some true;
                 generated_css := None |} |} in
  let metrics :=
    extraction_metrics
      (after (update_extraction_metrics result) (init Document.empty)) in
  total_elements_extracted metrics <= total_elements_detected metrics
  /\ (precision metrics <= 100)%Q.
Proof.
  apply single_update_precision_bounded; reflexivity.
Defined.

End Counters.

(** ** Image post-processing *)

Section ImagePipeline.
Import Py.
Import ImageProcessor.

#[local] Instance raster_modes : PILModes raster.
Proof.
  split.
  - intros im im' H. injection H as <-. reflexivity.
  - intros im size im' H. injection H as <-. reflexivity.
  - intros im size im' H. injection H as <-. cbn. unfold Raster.fitted.
    destruct (_ && _); reflexivity.
  - intros im f im'. cbn. unfold Raster.sharpened, Raster.blend, Raster.filter.
    destruct (String.eqb (Raster.mode im) "P"); [discriminate|].
    cbn [and_then]. destruct (existsb _ _); [discriminate|].
    intros H. injection H as <-. reflexivity.
Qed.

Context {P : PIL}.

Lemma and_then_ok {A B} (r : result A) (k : A -> result B) b :
  and_then r k = Ok b -> exists a, r = Ok a /\ k a = Ok b.
Proof. destruct r as [a|msg]; [eauto|discriminate]. Qed.

(** The optimised image has the mode of the image it was made from. *)
Lemma _optimize_image_mode {PM : PILModes P} self image optimized :
  _optimize_image self image = Ok optimized -> mode optimized = mode image.
Proof.
  unfold _optimize_image. intros H.
  apply and_then_ok in H. destruct H as (o1 & H1 & H).
  apply and_then_ok in H. destruct H as (o2 & H2 & H).
  apply and_then_ok in H. destruct H as (o3 & H3 & H).
  assert (M1 : mode o1 = mode image) by (eapply copy_mode; eassumption).
  assert (M2 : mode o2 = mode o1).
  { destruct ((width o1 <? 300) && (height o1 <? 300)).
    - destruct (Z.min (width o1) (height o1) =? 0); [discriminate|].
      eapply resize_mode; eassumption.
    - injection H2 as <-. reflexivity. }
  assert (M3 : mode o3 = mode o2).
  { destruct ((max_width self <? width o2) || (max_height self <? height o2)).
    - eapply thumbnail_mode; eassumption.
    - injection H3 as <-. reflexivity. }
  destruct (enhance_sharpness o3 (12 # 10)) as [sharpened|msg] eqn:Hs;
    injection H as <-.
  - rewrite (enhance_sharpness_mode _ _ _ Hs). congruence.
  - congruence.
Qed.

(** In [save_image] the JPEG branch is only entered with an image that is
    not RGBA, so the image it encodes is the optimised image itself. *)
Lemma rgb_for_jpeg_other_modes optimized_image :
  mode optimized_image <> "RGBA" ->
  rgb_for_jpeg optimized_image = Ok optimized_image.
Proof.
  intros H. unfold rgb_for_jpeg.
  apply String.eqb_neq in H. rewrite H. reflexivity.
Qed.

(** C7, as amended.  For an input that decodes and that the optimisation
    and the encoder accept, [save_image] encodes an image in RGBA mode, the
    alpha test the code makes, as PNG, which is lossless and takes no
    quality, and an image in any other mode as JPEG with quality 92,
    renaming [.png] to [.jpg]; the step that prepares the image for the JPEG
    encoder pastes an RGBA image onto a white background. *)
Theorem save_image_format :
  forall (PM : PILModes P) image_data filename image optimized,
    Image_open image_data = Ok image ->
    _optimize_image init image = Ok optimized ->
    (mode image = "RGBA" ->
     forall output,
       save optimized "PNG" None true = Ok output ->
       save_image init image_data filename
       = {| content := output; name := filename |})
    /\ (mode image <> "RGBA" ->
        forall output,
          save optimized "JPEG" (Some 92) true = Ok output ->
          save_image init image_data filename
          = {| content := output;
               name := replace ".png" ".jpg" filename |})
    /\ (forall rgba,
          mode rgba = "RGBA" ->
          rgb_for_jpeg rgba
          = (background <- Image_new "RGB" (width rgba, height rgba)
                                     (255, 255, 255) ;;
             mask <- alpha_band rgba ;;
             paste background rgba mask)).
Proof.
  intros PM image_data filename image optimized Hopen Hopt.
  pose proof (_optimize_image_mode _ _ _ Hopt) as Hmode.
  split; [|split].
  - intros Hrgba output Hsave.
    unfold save_image, save_image_try. rewrite Hopen. cbn [and_then].
    rewrite Hopt. cbn [and_then].
    rewrite Hmode, Hrgba. cbn. rewrite Hsave. reflexivity.
  - intros Hrgb output Hsave.
    unfold save_image, save_image_try. rewrite Hopen. cbn [and_then].
    rewrite Hopt. cbn [and_then]. unfold rgb_for_jpeg.
    rewrite Hmode. apply String.eqb_neq in Hrgb. rewrite Hrgb.
    cbn. change (quality init) with 92. rewrite Hsave. reflexivity.
  - intros rgba Hrgba. unfold rgb_for_jpeg, on_white_background, size.
    rewrite Hrgba. reflexivity.
Qed.

(** A failing sharpening step is swallowed: the image goes on unsharpened
    and nothing is raised. *)
Lemma _optimize_image_swallows_sharpening self image msg :
  copy image = Ok image ->
  (300 <=? width image) = true ->
  (width image <=? max_width self) = true ->
  (height image <=? max_height self) = true ->
  enhance_sharpness image (12 # 10) = Raise msg ->
  _optimize_image self image = Ok image.
Proof.
  intros Hcopy Hw Hmw Hmh Hsharp. unfold _optimize_image.
  rewrite Hcopy. cbn [and_then].
  assert (Hsmall : (width image <? 300) = false)
    by (apply Z.ltb_ge; apply Z.leb_le in Hw; lia).
  rewrite Hsmall. cbn [andb and_then].
  assert (Hbig1 : (max_width self <? width image) = false)
    by (apply Z.ltb_ge; apply Z.leb_le in Hmw; lia).
  assert (Hbig2 : (max_height self <? height image) = false)
    by (apply Z.ltb_ge; apply Z.leb_le in Hmh; lia).
  rewrite Hbig1, Hbig2. cbn [orb and_then]. rewrite Hsharp. reflexivity.
Qed.

(** A failing contrast step leaves the image as it was; a failing sharpening
    step after it leaves the contrasted image. *)
Lemma web_enhance_swallows image :
  (forall msg, enhance_contrast image (11 # 10) = Raise msg ->
               web_enhance image = image)
  /\ (forall contrasted msg,
        enhance_contrast image (11 # 10) = Ok contrasted ->
        enhance_sharpness contrasted (13 # 10) = Raise msg ->
        web_enhance image = contrasted).
Proof.
  unfold web_enhance. split.
  - intros msg ->. reflexivity.
  - intros contrasted msg -> ->. reflexivity.
Qed.

(** [_optimize_image] is the sizing followed by the sharpening, whose
    failure leaves the sized image. *)
Lemma _optimize_image_steps self image :
  _optimize_image self image
  = (resized <- optimize_size self image ;;
     Ok (match enhance_sharpness resized (12 # 10) with
         | Ok sharpened => sharpened
         | Raise _ => resized
         end)).
Proof.
  unfold _optimize_image, optimize_size.
  destruct (copy image) as [optimized|]; [|reflexivity]. cbn [and_then].
  destruct (if (width optimized <? 300) && (height optimized <? 300)
            then
              if Z.min (width optimized) (height optimized) =? 0
              then Raise "division by zero"
              else
                resize optimized
                  (int_of_float
                     (inject_Z (width optimized)
                      * truediv 300
                          (Z.min (width optimized) (height optimized))),
                   int_of_float
                     (inject_Z (height optimized)
                      * truediv 300
                          (Z.min (width optimized) (height optimized))))
            else Ok optimized) as [resized|]; [|reflexivity].
  cbn [and_then].
  destruct (if (max_width self <? width resized)
               || (max_height self <? height resized)
            then thumbnail resized (max_width self, max_height self)
            else Ok resized); reflexivity.
Qed.

(** C8, as amended.  Neither function raises: each returns a value on every
    input.  When the [try] block of [save_image] raises, at the decoding,
    in [_optimize_image] or at the encoding, the file returned holds the
    original bytes under the original name; when the [try] block of
    [convert_to_web_format] raises, at the decoding, the fitting or the
    encoding, the original bytes are returned.  A failure of the sharpening
    step of [_optimize_image] is swallowed where it occurs: the function
    returns the sized image, and [save_image] returns its encoding, not the
    original bytes.  Likewise in [convert_to_web_format]: when the contrast
    step fails the fitted image is encoded as it is, and when the sharpening
    step fails the contrasted image is. *)
Theorem image_processing_falls_back :
  forall self image_data filename,
    let original := {| content := image_data; name := filename |} in
    (forall msg,
       save_image_try self image_data filename = Raise msg ->
       save_image self image_data filename = original)
    /\ (forall msg,
          Image_open image_data = Raise msg ->
          save_image self image_data filename = original)
    /\ (forall image msg,
          Image_open image_data = Ok image ->
          _optimize_image self image = Raise msg ->
          save_image self image_data filename = original)
    /\ (forall image optimized msg,
          Image_open image_data = Ok image ->
          _optimize_image self image = Ok optimized ->
          save optimized
               (if String.eqb (mode optimized) "RGBA" then "PNG" else "JPEG")
               (if String.eqb (mode optimized) "RGBA"
                then None else Some (quality self))
               true
          = Raise msg ->
          save_image self image_data filename = original)
    /\ (forall msg,
          convert_to_web_format_try image_data = Raise msg ->
          convert_to_web_format image_data = image_data)
    /\ (forall msg,
          Image_open image_data = Raise msg ->
          convert_to_web_format image_data = image_data)
    /\ (forall image msg,
          Image_open image_data = Ok image ->
          web_fit image = Raise msg ->
          convert_to_web_format image_data = image_data)
    /\ (forall image fitted msg,
          Image_open image_data = Ok image ->
          web_fit image = Ok fitted ->
          save (web_enhance fitted) "JPEG" (Some 90) true = Raise msg ->
          convert_to_web_format image_data = image_data)
    /\ (forall image resized msg,
          optimize_size self image = Ok resized ->
          enhance_sharpness resized (12 # 10) = Raise msg ->
          _optimize_image self image = Ok resized)
    /\ (forall image resized msg output,
          Image_open image_data = Ok image ->
          optimize_size self image = Ok resized ->
          enhance_sharpness resized (12 # 10) = Raise msg ->
          save resized
               (if String.eqb (mode resized) "RGBA" then "PNG" else "JPEG")
               (if String.eqb (mode resized) "RGBA"
                then None else Some (quality self))
               true
          = Ok output ->
          save_image self image_data filename
          = {| content := output;
               name := if String.eqb (mode resized) "RGBA" then filename
                       else replace ".png" ".jpg" filename |})
    /\ (forall image fitted msg output,
          Image_open image_data = Ok image ->
          web_fit image = Ok fitted ->
          enhance_contrast fitted (11 # 10) = Raise msg ->
          save fitted "JPEG" (Some 90) true = Ok output ->
          convert_to_web_format image_data = output)
    /\ (forall image fitted contrasted msg output,
          Image_open image_data = Ok image ->
          web_fit image = Ok fitted ->
          enhance_contrast fitted (11 # 10) = Ok contrasted ->
          enhance_sharpness contrasted (13 # 10) = Raise msg ->
          save contrasted "JPEG" (Some 90) true = Ok output ->
          convert_to_web_format image_data = output).
Proof.
  intros self image_data filename original.
  assert (Htry : forall msg,
            save_image_try self image_data filename = Raise msg ->
            save_image self image_data filename = original)
    by (intros msg H; unfold save_image; rewrite H; reflexivity).
  assert (Hweb : forall msg,
            convert_to_web_format_try image_data = Raise msg ->
            convert_to_web_format image_data = image_data)
    by (intros msg H; unfold convert_to_web_format; rewrite H; reflexivity).
  assert (Hswallow : forall image resized msg,
            optimize_size self image = Ok resized ->
            enhance_sharpness resized (12 # 10) = Raise msg ->
            _optimize_image self image = Ok resized).
  { intros image resized msg Hsize Hsharp.
    rewrite _optimize_image_steps, Hsize. cbn [and_then].
    rewrite Hsharp. reflexivity. }
  split; [exact Htry|].
  split; [|split; [|split; [|split; [exact Hweb|split; [|split; [|split;
    [|split; [exact Hswallow|split; [|split]]]]]]]]].
  - intros msg Hopen. apply (Htry msg).
    unfold save_image_try. rewrite Hopen. reflexivity.
  - intros image msg Hopen Hopt. apply (Htry msg).
    unfold save_image_try. rewrite Hopen. cbn [and_then].
    rewrite Hopt. reflexivity.
  - intros image optimized msg Hopen Hopt Hsave. apply (Htry msg).
    unfold save_image_try, rgb_for_jpeg. rewrite Hopen. cbn [and_then].
    rewrite Hopt. cbn [and_then].
    destruct (String.eqb (mode optimized) "RGBA"); cbn;
      rewrite Hsave; reflexivity.
  - intros msg Hopen. apply (Hweb msg).
    unfold convert_to_web_format_try. rewrite Hopen. reflexivity.
  - intros image msg Hopen Hfit. apply (Hweb msg).
    unfold convert_to_web_format_try. rewrite Hopen. cbn [and_then].
    rewrite Hfit. reflexivity.
  - intros image fitted msg Hopen Hfit Hsave. apply (Hweb msg).
    unfold convert_to_web_format_try. rewrite Hopen. cbn [and_then].
    rewrite Hfit. cbn [and_then]. exact Hsave.
  - intros image resized msg output Hopen Hsize Hsharp Hsave.
    unfold save_image, save_image_try, rgb_for_jpeg.
    rewrite Hopen. cbn [and_then].
    rewrite (Hswallow image resized msg Hsize Hsharp). cbn [and_then].
    destruct (String.eqb (mode resized) "RGBA"); cbn;
      rewrite Hsave; reflexivity.
  - intros image fitted msg output Hopen Hfit Hcontrast Hsave.
    unfold convert_to_web_format, convert_to_web_format_try.
    rewrite Hopen. cbn [and_then]. rewrite Hfit. cbn [and_then].
    rewrite (proj1 (web_enhance_swallows fitted) msg Hcontrast), Hsave.
    reflexivity.
  - intros image fitted contrasted msg output Hopen Hfit Hcontrast Hsharp
           Hsave.
    unfold convert_to_web_format, convert_to_web_format_try.
    rewrite Hopen. cbn [and_then]. rewrite Hfit. cbn [and_then].
    rewrite (proj2 (web_enhance_swallows fitted) contrasted msg
               Hcontrast Hsharp), Hsave.
    reflexivity.
Qed.

End ImagePipeline.

Lemma save_image_format_witness :
  let image_data := [Byte.x00; Byte.x64; Byte.x50] in
  ImageProcessor.save_image (P := ImageProcessor.raster)
    ImageProcessor.init image_data "7_image_0.png"
  = {| ImageProcessor.content := [Byte.xff; Byte.x00; Byte.x77; Byte.x2c];
       ImageProcessor.name := "7_image_0.jpg" |}.
Proof.
  refine (proj1 (proj2 (save_image_format (P := ImageProcessor.raster)
                          raster_modes
                          [Byte.x00; Byte.x64; Byte.x50] "7_image_0.png"
                          _ _ _ _)) _ _ _);
    [ reflexivity | reflexivity | discriminate | reflexivity ].
Defined.

Lemma image_processing_falls_back_witness :
  let image_data := [Byte.x03; Byte.x64; Byte.x50] in
  ImageProcessor.save_image (P := ImageProcessor.raster)
    ImageProcessor.init image_data "7_image_1.png"
  = {| ImageProcessor.content := image_data;
       ImageProcessor.name := "7_image_1.png" |}
  /\ ImageProcessor.convert_to_web_format (P := ImageProcessor.raster)
       [Byte.x09]
     = [Byte.x09]
  /\ ImageProcessor.save_image (P := ImageProcessor.raster)
       ImageProcessor.init [Byte.x04; Byte.x64; Byte.x50] "7_image_3.png"
     = {| ImageProcessor.content := [Byte.xff; Byte.x04; Byte.x77; Byte.x2c];
          ImageProcessor.name := "7_image_3.jpg" |}.
Proof.
  split; [|split].
  - refine (proj1 (image_processing_falls_back
                     (P := ImageProcessor.raster) ImageProcessor.init
                     [Byte.x03; Byte.x64; Byte.x50] "7_image_1.png") _ _).
    reflexivity.
  - refine (proj1 (proj2 (proj2 (proj2 (proj2 (proj2
              (image_processing_falls_back
                 (P := ImageProcessor.raster) ImageProcessor.init
                 [Byte.x09] "7_image_2.png"))))))
              _ _).
    reflexivity.
  - refine (proj1 (proj2 (proj2 (proj2 (proj2 (proj2 (proj2 (proj2 (proj2
              (proj2
                 (image_processing_falls_back
                    (P := ImageProcessor.raster) ImageProcessor.init
                    [Byte.x04; Byte.x64; Byte.x50] "7_image_3.png"))))))))))
              {| ImageProcessor.Raster.mode := "1";
                 ImageProcessor.Raster.width := 100;
                 ImageProcessor.Raster.height := 80 |}
              {| ImageProcessor.Raster.mode := "1";
                 ImageProcessor.Raster.width := 375;
                 ImageProcessor.Raster.height := 300 |}
              "image has wrong mode"
              [Byte.xff; Byte.x04; Byte.x77; Byte.x2c] _ _ _ _);
      reflexivity.
Defined.

(** C7, as stated, fails on the small instance: a palette image decodes
    and has no alpha channel, the JPEG encoder refuses its mode, and
    [save_image] hands back the file it was given instead of a JPEG. *)
Lemma palette_image_counterexample :
  let image_data := [Byte.x03; Byte.x64; Byte.x50] in
  let pillow := ImageProcessor.raster in
  exists image optimized,
    ImageProcessor.Image_open image_data = Py.Ok image
    /\ ImageProcessor.mode image = "P"
    /\ ImageProcessor._optimize_image ImageProcessor.init image = Py.Ok optimized
    /\ ImageProcessor.save optimized "JPEG" (Some 92) true
       = Py.Raise "cannot write mode P as JPEG"
    /\ ImageProcessor.save_image ImageProcessor.init image_data "7_image_0.png"
       = {| ImageProcessor.content := image_data;
            ImageProcessor.name := "7_image_0.png" |}.
Proof.
  do 2 eexists. repeat split.
Qed.

(** C8, as stated, fails on the small instance: for a bilevel image the
    sharpening step raises, the failure is swallowed, and [save_image]
    returns the JPEG of the unsharpened image, not the bytes it was given. *)
Lemma swallowed_sharpening_counterexample :
  let image_data := [Byte.x04; Byte.x64; Byte.x50] in
  let pillow := ImageProcessor.raster in
  exists image resized,
    ImageProcessor.Image_open image_data = Py.Ok image
    /\ ImageProcessor.resize image (375, 300) = Py.Ok resized
    /\ ImageProcessor.enhance_sharpness resized (12 # 10)
       = Py.Raise "image has wrong mode"
    /\ ImageProcessor._optimize_image ImageProcessor.init image = Py.Ok resized
    /\ ImageProcessor.save_image ImageProcessor.init image_data "7_image_0.png"
       = {| ImageProcessor.content := [Byte.xff; Byte.x04; Byte.x77; Byte.x2c];
            ImageProcessor.name := "7_image_0.jpg" |}
    /\ ImageProcessor.content
         (ImageProcessor.save_image ImageProcessor.init image_data
            "7_image_0.png")
       <> image_data.
Proof.
  do 2 eexists. repeat split. discriminate.
Qed.

(* ------------------------------------------------------------------ *)
(** * Further properties of the document processor *)

(** ** What the scorers leave alone *)

Section ScorersFrame.
Import Py DocumentProcessor Run.

Lemma only_logs_refl self : only_logs self self.
Proof.
  repeat split. exists []. symmetry. apply app_nil_r.
Qed.

Lemma only_logs_trans s1 s2 s3 :
  only_logs s1 s2 -> only_logs s2 s3 -> only_logs s1 s3.
Proof.
  intros (A1 & A2 & A3 & A4 & A5 & A6 & A7 & A8 & d1 & A9)
         (B1 & B2 & B3 & B4 & B5 & B6 & B7 & B8 & d2 & B9).
  repeat split; try congruence.
  exists (d1 ++ d2)%list. rewrite B9, A9. symmetry. apply app_assoc.
Qed.

Lemma log_only_logs error_type severity message details page element
    suggestion self :
  only_logs self
    (after (log_extraction_error error_type severity message details page
              element suggestion) self).
Proof. repeat split. eexists. reflexivity. Qed.

Lemma ret_only_logs {A} (a : A) self : only_logs self (after (ret a) self).
Proof. apply only_logs_refl. Qed.

Lemma bind_only_logs {A B} (m : M A) (k : A -> M B) :
  (forall self, only_logs self (after m self)) ->
  (forall a self, only_logs self (after (k a) self)) ->
  forall self, only_logs self (after (bind m k) self).
Proof.
  intros Hm Hk self. rewrite after_bind.
  eapply only_logs_trans; [apply Hm|apply Hk].
Qed.

Ltac only_logs_step :=
  first [ apply ret_only_logs
        | apply log_only_logs
        | apply bind_only_logs; intros ].

Lemma text_quality_only_logs t e self :
  only_logs self (after (calculate_text_quality t e) self).
Proof.
  unfold calculate_text_quality.
  destruct t as [|c t]; [apply only_logs_refl|].
  cbn [truthy negb]. revert self.
  apply bind_only_logs; [intros self|intros q1].
  { destruct (0 <? _); [|apply ret_only_logs]. revert self.
    apply bind_only_logs; intros; [|apply ret_only_logs].
    destruct (gt _ 10); only_logs_step. }
  apply bind_only_logs; [intros self|intros q2].
  { destruct (gt (truediv _ _) (1 # 2)); [|apply ret_only_logs]. revert self.
    apply bind_only_logs; intros; only_logs_step. }
  apply bind_only_logs; [intros self|intros q3 self; apply ret_only_logs].
  destruct e as [e|]; [|apply ret_only_logs].
  destruct (negb (e =? 0) && gt _ (3 # 10)); [|apply ret_only_logs].
  revert self. apply bind_only_logs; intros; only_logs_step.
Qed.

Lemma inspect_image_only_logs i img successful self :
  only_logs self (after (inspect_image i img successful) self).
Proof.
  unfold inspect_image.
  destruct (has_data img); [destruct (too_small img) as [[|]|]|];
    try apply ret_only_logs;
    (revert self; apply bind_only_logs; intros; only_logs_step).
Qed.

Lemma inspect_images_only_logs images_data :
  forall i successful self,
    only_logs self (after (inspect_images i images_data successful) self).
Proof.
  induction images_data as [|img rest IH]; intros i successful.
  - intros self. apply only_logs_refl.
  - cbn [inspect_images]. apply bind_only_logs; intros.
    + apply inspect_image_only_logs.
    + apply IH.
Qed.

Lemma image_quality_only_logs images_data total self :
  only_logs self (after (calculate_image_quality images_data total) self).
Proof.
  unfold calculate_image_quality.
  destruct images_data as [|img rest]; cbn [truthy negb].
  - destruct total as [n|]; [|apply ret_only_logs].
    destruct (negb (n =? 0) && (0 <? n)); [|apply ret_only_logs].
    revert self. apply bind_only_logs; intros; only_logs_step.
  - revert self. apply bind_only_logs; intros.
    + apply inspect_images_only_logs.
    + destruct (0 <? len (img :: rest)); apply ret_only_logs.
Qed.

Lemma table_quality_only_logs content format_info self :
  only_logs self (after (calculate_table_quality content format_info) self).
Proof.
  unfold calculate_table_quality.
  destruct (negb _); [apply ret_only_logs|].
  destruct (_ =? 0).
  { revert self. apply bind_only_logs; intros; only_logs_step. }
  destruct (contains _ _); [|apply ret_only_logs].
  destruct (negb _); [|apply ret_only_logs].
  revert self. apply bind_only_logs; intros; only_logs_step.
Qed.

(** X2.  The logger and the three scorers touch nothing but the list of
    diagnostics, and that list only grows at its end: the document, the
    page trackers, the two counters and the three stored scores are the
    same after a call, whatever the arguments. *)
Theorem scorers_only_log :
  forall self,
    (forall error_type severity message details page element suggestion,
       only_logs self
         (after (log_extraction_error error_type severity message details
                   page element suggestion) self))
    /\ (forall extracted_text expected_length,
          only_logs self
            (after (calculate_text_quality extracted_text expected_length)
               self))
    /\ (forall images_data total,
          only_logs self
            (after (calculate_image_quality images_data total) self))
    /\ (forall content format_info,
          only_logs self
            (after (calculate_table_quality content format_info) self)).
Proof.
  intros self. split; [|split; [|split]]; intros.
  - apply log_only_logs.
  - apply text_quality_only_logs.
  - apply image_quality_only_logs.
  - apply table_quality_only_logs.
Qed.

End ScorersFrame.

(** ** What an update leaves behind *)

Section UpdateScores.
Import Py DocumentProcessor Run.
Local Open Scope py_scope.

Lemma contains_count sub s :
  sub <> [] -> contains sub s = true -> 0 < count sub s.
Proof.
  intros Hsub. unfold count.
  induction s as [|c s IH]; cbn [contains count_from].
  - destruct sub; [congruence|]. discriminate.
  - destruct (startswith sub (c :: s)).
    + intros _. pose proof (count_from_nonneg sub s (Nat.pred (List.length sub))).
      lia.
    + cbn [orb]. exact IH.
Qed.

Lemma word_count_from_nonneg s : forall inword, 0 <= word_count_from s inword.
Proof.
  induction s as [|c s IH]; intros inword; cbn [word_count_from]; [lia|].
  destruct (isspace c); [apply IH|].
  specialize (IH true). destruct inword; lia.
Qed.

Lemma page_estimate_at_least_one content formatted_content :
  1 <= _estimate_page_count content formatted_content.
Proof.
  unfold _estimate_page_count.
  destruct (contains (lit "pdf-page") formatted_content) eqn:Hc.
  - pose proof (contains_count (lit "pdf-page") formatted_content) as H.
    specialize (H ltac:(discriminate) Hc). lia.
  - destruct (truthy content); lia.
Qed.

(** X3.  The page estimate is never below 1: with page markers it is their
    number, without them it is one page per 500 words and at least one,
    so a text of fewer than 1000 words counts as a single page. *)
Theorem page_estimate_positive :
  forall content formatted_content,
    1 <= _estimate_page_count content formatted_content
    /\ (contains (lit "pdf-page") formatted_content = true ->
        _estimate_page_count content formatted_content
        = count (lit "pdf-page") formatted_content)
    /\ (contains (lit "pdf-page") formatted_content = false ->
        word_count content < 1000 ->
        _estimate_page_count content formatted_content = 1).
Proof.
  intros content formatted. unfold _estimate_page_count.
  destruct (contains (lit "pdf-page") formatted) eqn:Hc.
  - split; [|split; [reflexivity|discriminate]].
    pose proof (page_estimate_at_least_one content formatted) as H.
    unfold _estimate_page_count in H. rewrite Hc in H. exact H.
  - split; [|split; [discriminate|]].
    + destruct (truthy content); lia.
    + intros _ Hw. destruct (truthy content); [|reflexivity].
      assert (word_count content / 500 < 2)
        by (apply Z.div_lt_upper_bound; lia).
      assert (0 <= word_count content / 500).
      { apply Z.div_pos; [apply word_count_from_nonneg|lia]. }
      lia.
Qed.

Lemma image_quality_range images_data total self :
  (0 <= returns (calculate_image_quality images_data total) self <= 100)%Q.
Proof.
  destruct images_data as [|img rest].
  - unfold returns, calculate_image_quality. cbn [truthy negb].
    destruct total as [n|]; [destruct (negb (n =? 0) && (0 <? n))|];
      split; discriminate.
  - destruct (calculate_image_quality_run (img :: rest) total self)
      as (ds & Hr & _); [discriminate|].
    rewrite Hr.
    set (k := len (List.filter has_data (img :: rest))).
    set (n := len (img :: rest)).
    assert (Hk : 0 <= k <= n).
    { subst k n. split; [apply len_nonneg|].
      unfold len. apply inj_le, filter_length_le. }
    assert (Hn : 0 < n) by apply len_cons_pos.
    assert (H0 : (0 <= inject_Z k / inject_Z n)%Q)
      by (apply (truediv_nonneg k n); lia).
    assert (H1 : (inject_Z k / inject_Z n <= 1)%Q).
    { apply Qle_shift_div_r.
      - change 0%Q with (inject_Z 0). rewrite <- Zlt_Qlt. exact Hn.
      - rewrite Qmult_1_l. rewrite <- Zle_Qle. lia. }
    split; lra.
Qed.

Lemma table_quality_range content format_info self :
  (0 <= returns (calculate_table_quality content format_info) self <= 100)%Q.
Proof.
  unfold returns, calculate_table_quality.
  destruct (negb _); [split; discriminate|].
  destruct (_ =? 0); [split; discriminate|].
  destruct (contains _ _); [|split; discriminate].
  destruct (negb _); split; discriminate.
Qed.

(** The last six steps of [update_extraction_metrics]: the three scorers,
    each followed by the storing of its score. *)
Lemma scoring_steps content images total formatted format_info self :
  let self' :=
    after (q <- calculate_text_quality content None ;;
           set_metrics (set_text_quality q) ;;
           q <- calculate_image_quality images total ;;
           set_metrics (set_image_quality q) ;;
           q <- calculate_table_quality formatted format_info ;;
           set_metrics (set_table_quality q)) self in
  (0 <= text_quality (extraction_metrics self') <= 100)%Q
  /\ (0 <= image_quality (extraction_metrics self') <= 100)%Q
  /\ (0 <= table_quality (extraction_metrics self') <= 100)%Q
  /\ document self' = document self
  /\ current_page_number self' = current_page_number self
  /\ current_page_count self' = current_page_count self
  /\ exists ds,
       errors (extraction_metrics self')
       = (errors (extraction_metrics self) ++ ds)%list.
Proof.
  intros self'. subst self'.
  rewrite after_bind.
  pose proof (text_quality_range content None self) as R1.
  pose proof (text_quality_only_logs content None self) as L1.
  set (q1 := returns (calculate_text_quality content None) self) in *.
  set (s1 := after (calculate_text_quality content None) self) in *.
  rewrite after_bind.
  set (s2 := after (set_metrics (set_text_quality q1)) s1).
  rewrite after_bind.
  pose proof (image_quality_range images total s2) as R2.
  pose proof (image_quality_only_logs images total s2) as L2.
  set (q2 := returns (calculate_image_quality images total) s2) in *.
  set (s3 := after (calculate_image_quality images total) s2) in *.
  rewrite after_bind.
  set (s4 := after (set_metrics (set_image_quality q2)) s3).
  rewrite after_bind.
  pose proof (table_quality_range formatted format_info s4) as R3.
  pose proof (table_quality_only_logs formatted format_info s4) as L3.
  set (q3 := returns (calculate_table_quality formatted format_info) s4) in *.
  set (s5 := after (calculate_table_quality formatted format_info) s4) in *.
  destruct L1 as (A1 & A2 & A3 & _ & _ & _ & _ & _ & d1 & A9).
  destruct L2 as (B1 & B2 & B3 & _ & _ & B6 & _ & _ & d2 & B9).
  destruct L3 as (C1 & C2 & C3 & _ & _ & C6 & C7 & _ & d3 & C9).
  unfold after, set_metrics; cbn [snd extraction_metrics document
    current_page_number current_page_count set_table_quality text_quality
    image_quality table_quality errors].
  split.
  { rewrite C6.
    change (text_quality (extraction_metrics s4))
      with (text_quality (extraction_metrics s3)).
    rewrite B6. exact R1. }
  split; [rewrite C7; exact R2|].
  split; [exact R3|].
  split; [rewrite C1; cbn; rewrite B1; cbn; exact A1|].
  split; [rewrite C2; cbn; rewrite B2; cbn; exact A2|].
  split; [rewrite C3; cbn; rewrite B3; cbn; exact A3|].
  exists (d1 ++ d2 ++ d3)%list.
  rewrite C9. cbn. rewrite B9. cbn. rewrite A9.
  repeat rewrite <- app_assoc. reflexivity.
Qed.

(** X4.  After [update_extraction_metrics] the three stored scores lie
    between 0 and 100 and the page count is set and at least 1; the
    document and the page number are untouched and the diagnostics logged
    before are still there, in order, in front of the new ones. *)
Theorem update_leaves_scores_in_range :
  forall result self,
    let self' := after (update_extraction_metrics result) self in
    (0 <= text_quality (extraction_metrics self') <= 100)%Q
    /\ (0 <= image_quality (extraction_metrics self') <= 100)%Q
    /\ (0 <= table_quality (extraction_metrics self') <= 100)%Q
    /\ (exists pages, current_page_count self' = Some pages /\ 1 <= pages)
    /\ document self' = document self
    /\ current_page_number self' = current_page_number self
    /\ exists ds,
         errors (extraction_metrics self')
         = (errors (extraction_metrics self) ++ ds)%list.
Proof.
  intros result self self'. subst self'.
  unfold update_extraction_metrics.
  set (content := get (DocumentProcessor.content result) []).
  set (formatted := get (formatted_content result) []).
  set (images := get (DocumentProcessor.images result) []).
  set (info := get (format_info result) _).
  set (total := Some _).
  do 6 rewrite after_bind.
  match goal with
  | |- context [after (bind (calculate_text_quality content None) _) ?s] =>
      set (s0 := s)
  end.
  pose proof (scoring_steps content images total formatted info s0) as H.
  cbv zeta in H.
  destruct H as (H1 & H2 & H3 & H4 & H5 & H6 & ds & H7).
  assert (Hs0 :
            document s0 = document self
            /\ current_page_number s0 = current_page_number self
            /\ current_page_count s0
               = Some (_estimate_page_count content formatted)
            /\ errors (extraction_metrics s0)
               = errors (extraction_metrics self)).
  { subst s0.
    destruct (get (has_tables info) false); [|repeat split].
    rewrite after_bind.
    destruct (existsb _ _); repeat split. }
  destruct Hs0 as (D1 & D2 & D3 & D4).
  split; [exact H1|]. split; [exact H2|]. split; [exact H3|].
  split.
  { exists (_estimate_page_count content formatted).
    split; [rewrite H6; exact D3|].
    apply page_estimate_at_least_one. }
  split; [rewrite H4; exact D1|].
  split; [rewrite H5; exact D2|].
  exists ds. rewrite H7, D4. reflexivity.
Qed.

End UpdateScores.

(** ** The diagnostics the scorers emit *)

Section Diagnostics.
Import Py DocumentProcessor Run.
Local Open Scope py_scope.

Lemma logs_well_formed_refl self : logs_well_formed self self.
Proof.
  split; [reflexivity|]. exists []. split; [|constructor].
  symmetry. apply app_nil_r.
Qed.

Lemma logs_well_formed_trans s1 s2 s3 :
  logs_well_formed s1 s2 -> logs_well_formed s2 s3 -> logs_well_formed s1 s3.
Proof.
  intros (A1 & d1 & A2 & A3) (B1 & d2 & B2 & B3).
  split; [congruence|]. exists (d1 ++ d2)%list. split.
  - rewrite B2, A2. symmetry. apply app_assoc.
  - apply Forall_app. split; [exact A3|]. rewrite <- A1. exact B3.
Qed.

Lemma ret_logs_well_formed {A} (a : A) self :
  logs_well_formed self (after (ret a) self).
Proof. apply logs_well_formed_refl. Qed.

Lemma bind_logs_well_formed {A B} (m : M A) (k : A -> M B) :
  (forall self, logs_well_formed self (after m self)) ->
  (forall a self, logs_well_formed self (after (k a) self)) ->
  forall self, logs_well_formed self (after (bind m k) self).
Proof.
  intros Hm Hk self. rewrite after_bind.
  eapply logs_well_formed_trans; [apply Hm|apply Hk].
Qed.

(** The automatic suggestion is never empty. *)
Lemma auto_suggestion_not_empty error_type details :
  join "; " (firstn 2 (apply_automatic_corrections error_type details))
  <> EmptyString.
Proof.
  unfold apply_automatic_corrections.
  repeat match goal with
         | |- context [if ?c then _ else _] => destruct c
         end; discriminate.
Qed.

(** A call of the logger without page and element type, with a known
    severity and error type and a suggestion that is absent or not empty. *)
Lemma log_logs_well_formed error_type severity message details suggestion :
  In severity severities ->
  In error_type error_types ->
  suggestion <> Some EmptyString ->
  forall self,
    logs_well_formed self
      (after (log_extraction_error error_type severity message details
                None None suggestion) self).
Proof.
  intros Hs Ht Hf self. split; [reflexivity|].
  eexists. split; [reflexivity|].
  constructor; [|constructor].
  unfold well_formed, new_error_data. cbn.
  repeat split; try assumption.
  destruct suggestion as [given|].
  - intros ->. apply Hf. reflexivity.
  - apply auto_suggestion_not_empty.
Qed.

Ltac known := unfold severities, error_types; cbn [In]; tauto.

Ltac well_formed_step :=
  first [ apply ret_logs_well_formed
        | apply log_logs_well_formed; [known | known | discriminate]
        | apply bind_logs_well_formed; intros ].

Lemma text_quality_logs_well_formed t e self :
  logs_well_formed self (after (calculate_text_quality t e) self).
Proof.
  unfold calculate_text_quality.
  destruct t as [|c t]; [apply logs_well_formed_refl|].
  cbn [truthy negb]. revert self.
  apply bind_logs_well_formed; [intros self|intros q1].
  { destruct (0 <? _); [|apply ret_logs_well_formed]. revert self.
    apply bind_logs_well_formed; intros; [|apply ret_logs_well_formed].
    destruct (gt _ 10); well_formed_step. }
  apply bind_logs_well_formed; [intros self|intros q2].
  { destruct (gt (truediv _ _) (1 # 2)); [|apply ret_logs_well_formed].
    revert self. apply bind_logs_well_formed; intros; well_formed_step. }
  apply bind_logs_well_formed;
    [intros self|intros q3 self; apply ret_logs_well_formed].
  destruct e as [e|]; [|apply ret_logs_well_formed].
  destruct (negb (e =? 0) && gt _ (3 # 10)); [|apply ret_logs_well_formed].
  revert self. apply bind_logs_well_formed; intros; well_formed_step.
Qed.

Lemma inspect_image_logs_well_formed i img successful self :
  logs_well_formed self (after (inspect_image i img successful) self).
Proof.
  unfold inspect_image.
  destruct (has_data img); [destruct (too_small img) as [[|]|]|];
    try apply ret_logs_well_formed;
    (revert self; apply bind_logs_well_formed; intros; well_formed_step).
Qed.

Lemma inspect_images_logs_well_formed images_data :
  forall i successful self,
    logs_well_formed self
      (after (inspect_images i images_data successful) self).
Proof.
  induction images_data as [|img rest IH]; intros i successful.
  - intros self. apply logs_well_formed_refl.
  - cbn [inspect_images]. apply bind_logs_well_formed; intros.
    + apply inspect_image_logs_well_formed.
    + apply IH.
Qed.

Lemma image_quality_logs_well_formed images_data total self :
  logs_well_formed self
    (after (calculate_image_quality images_data total) self).
Proof.
  unfold calculate_image_quality.
  destruct images_data as [|img rest]; cbn [truthy negb].
  - destruct total as [n|]; [|apply ret_logs_well_formed].
    destruct (negb (n =? 0) && (0 <? n)); [|apply ret_logs_well_formed].
    revert self. apply bind_logs_well_formed; intros; well_formed_step.
  - revert self. apply bind_logs_well_formed; intros.
    + apply inspect_images_logs_well_formed.
    + destruct (0 <? len (img :: rest)); apply ret_logs_well_formed.
Qed.

Lemma table_quality_logs_well_formed content format_info self :
  logs_well_formed self
    (after (calculate_table_quality content format_info) self).
Proof.
  unfold calculate_table_quality.
  destruct (negb _); [apply ret_logs_well_formed|].
  destruct (_ =? 0).
  { revert self. apply bind_logs_well_formed; intros; well_formed_step. }
  destruct (contains _ _); [|apply ret_logs_well_formed].
  destruct (negb _); [|apply ret_logs_well_formed].
  revert self. apply bind_logs_well_formed; intros; well_formed_step.
Qed.

Lemma set_metrics_logs_well_formed f :
  (forall m, errors (f m) = errors m) ->
  forall self, logs_well_formed self (after (set_metrics f) self).
Proof.
  intros Hf self. split; [reflexivity|]. exists []. split; [|constructor].
  unfold after, set_metrics. cbn. rewrite Hf. symmetry. apply app_nil_r.
Qed.

Lemma set_current_page_count_logs_well_formed n self :
  logs_well_formed self (after (set_current_page_count n) self).
Proof.
  split; [reflexivity|]. exists []. split; [|constructor].
  symmetry. apply app_nil_r.
Qed.

Lemma update_logs_well_formed result self :
  logs_well_formed self (after (update_extraction_metrics result) self).
Proof.
  unfold update_extraction_metrics. revert self.
  repeat first
    [ apply bind_logs_well_formed; intros
    | apply set_metrics_logs_well_formed; reflexivity
    | apply set_current_page_count_logs_well_formed
    | apply text_quality_logs_well_formed
    | apply image_quality_logs_well_formed
    | apply table_quality_logs_well_formed
    | apply ret_logs_well_formed
    | apply logs_well_formed_refl
    | match goal with
      | |- context [if ?c then _ else _] => destruct c
      end ].
Qed.

(** X5.  Every diagnostic the three scorers and [update_extraction_metrics]
    emit has a severity among low, medium and high, an error type of the
    module's list, no element type, a suggestion that is not empty, and the
    processor's current page, page 1 when none is set.  The module never
    sets a current page, so on a processor made by [__init__] every
    diagnostic of an update is on page 1. *)
Theorem diagnostics_well_formed :
  forall self,
    (forall extracted_text expected_length,
       logs_well_formed self
         (after (calculate_text_quality extracted_text expected_length) self))
    /\ (forall images_data total,
          logs_well_formed self
            (after (calculate_image_quality images_data total) self))
    /\ (forall content format_info,
          logs_well_formed self
            (after (calculate_table_quality content format_info) self))
    /\ (forall result,
          logs_well_formed self
            (after (update_extraction_metrics result) self))
    /\ (forall document_instance result,
          Forall (well_formed 1)
            (emitted (update_extraction_metrics result)
               (init document_instance))).
Proof.
  intros self. split; [|split; [|split; [|split]]].
  - intros. apply text_quality_logs_well_formed.
  - intros. apply image_quality_logs_well_formed.
  - intros. apply table_quality_logs_well_formed.
  - intros. apply update_logs_well_formed.
  - intros document_instance result.
    destruct (update_logs_well_formed result (init document_instance))
      as (_ & ds & Hds & Hwf).
    rewrite (emitted_of_appended _ _ _ Hds). exact Hwf.
Qed.

End Diagnostics.

(** ** More on the text score *)

Section TextScore.
Import Py DocumentProcessor Run.

Lemma gt_false x y : gt x y = false -> (x <= y)%Q.
Proof.
  unfold gt. intros H. apply negb_false_iff in H.
  apply Qle_bool_iff. exact H.
Qed.

Lemma corruption_penalty_positive c n :
  0 < c -> 0 < n -> (0 < Qmin 50 (truediv c n * 100))%Q.
Proof.
  intros Hc Hn. apply Q.min_glb_lt; [reflexivity|].
  assert (0 < truediv c n)%Q.
  { unfold truediv. apply Qlt_shift_div_l.
    - change 0%Q with (inject_Z 0). rewrite <- Zlt_Qlt. exact Hn.
    - rewrite Qmult_0_l. change 0%Q with (inject_Z 0).
      rewrite <- Zlt_Qlt. exact Hc. }
  lra.
Qed.

Lemma text_quality_run t e self :
  t <> [] ->
  exists ds,
    errors (extraction_metrics (after (calculate_text_quality t e) self))
    = (errors (extraction_metrics self) ++ ds)%list
    /\ (15 <= returns (calculate_text_quality t e) self)%Q
    /\ (List.length ds <= 3)%nat
    /\ (ds = [] -> (90 <= returns (calculate_text_quality t e) self)%Q)
    /\ ((returns (calculate_text_quality t e) self == 100)%Q -> ds = []).
Proof.
  intros Hne. unfold returns, after, calculate_text_quality.
  destruct t as [|c t]; [congruence|].
  cbn [truthy negb].
  pose proof (corruption_penalty_bounds
                (len (List.filter corrupted (c :: t))) (len (c :: t))
                (len_nonneg _) (len_cons_pos _ _)) as Hp.
  pose proof (corruption_penalty_positive
                (len (List.filter corrupted (c :: t))) (len (c :: t))) as Hpos.
  specialize (fun H => Hpos H (len_cons_pos _ _)).
  set (pen := Qmin 50 _) in *.
  set (cc := len (List.filter corrupted (c :: t))) in *.
  set (lines := split_on 10 (c :: t)) in *.
  unfold bind, ret.
  destruct (0 <? cc) eqn:Hcc;
    [apply Z.ltb_lt in Hcc; specialize (Hpos Hcc);
     destruct (gt pen 10) eqn:Hg; [|apply gt_false in Hg]|];
  (destruct (gt (truediv _ (len lines)) (1 # 2)));
  (destruct e as [e|]; [destruct (negb (e =? 0) && gt _ (3 # 10))|]);
  cbn [fst snd log_extraction_error set_metrics append_error errors
       extraction_metrics];
  repeat rewrite <- app_assoc;
  (eexists; split; [first [reflexivity | symmetry; apply app_nil_r]|]);
  match goal with
  | |- context [Qmax 0 ?x] =>
      assert (Hx : (15 <= x)%Q) by lra;
      assert (Hm : (Qmax 0 x == x)%Q) by (apply Q.max_r; lra);
      rewrite !Hm
  end;
  (split; [exact Hx|]);
  (split; [cbn; lia|]);
  (split; [intros Hds; first [discriminate Hds | lra]
          |intros H100; first [reflexivity | exfalso; lra]]).
Qed.

(** X6.  A text that is not empty never scores below 15, so the clamp at 0
    is never reached; it draws at most three diagnostics; when it draws
    none its score is at least 90, and a score of 100 comes without any. *)
Theorem text_quality_floor :
  forall extracted_text expected_length self,
    extracted_text <> [] ->
    let run := calculate_text_quality extracted_text expected_length in
    (15 <= returns run self)%Q
    /\ (List.length (emitted run self) <= 3)%nat
    /\ (emitted run self = [] -> (90 <= returns run self)%Q)
    /\ ((returns run self == 100)%Q -> emitted run self = []).
Proof.
  intros t e self Hne run.
  destruct (text_quality_run t e self Hne) as (ds & He & H15 & H3 & H90 & H100).
  subst run. rewrite (emitted_of_appended _ _ _ He).
  repeat split; assumption.
Qed.

Lemma text_quality_floor_witness :
  let extracted_text := [63; 63; 10; 10] in
  let run := calculate_text_quality extracted_text (Some 100) in
  let self := init Document.empty in
  (15 <= returns run self)%Q
  /\ (List.length (emitted run self) <= 3)%nat
  /\ (emitted run self = [] -> (90 <= returns run self)%Q)
  /\ ((returns run self == 100)%Q -> emitted run self = []).
Proof.
  apply text_quality_floor. discriminate.
Defined.

End TextScore.

(** ** More on the image score *)

Section ImageScore.
Import Py DocumentProcessor Run.

Lemma inspect_image_one_record i img successful self :
  exists ds,
    errors (extraction_metrics (after (inspect_image i img successful) self))
    = (errors (extraction_metrics self) ++ ds)%list
    /\ (List.length ds <= 1)%nat.
Proof.
  unfold after, inspect_image.
  destruct (has_data img); [destruct (too_small img) as [[|]|]|];
    solve [ eexists; split; [reflexivity|cbn; lia]
          | exists []; split; [symmetry; apply app_nil_r|cbn; lia] ].
Qed.

Lemma inspect_images_records images_data :
  forall i successful self,
  exists ds,
    errors (extraction_metrics
              (after (inspect_images i images_data successful) self))
    = (errors (extraction_metrics self) ++ ds)%list
    /\ (List.length ds <= List.length images_data)%nat.
Proof.
  induction images_data as [|img rest IH]; intros i successful self.
  - exists []. split; [symmetry; apply app_nil_r|cbn; lia].
  - cbn [inspect_images]. rewrite after_bind.
    destruct (inspect_image_one_record i img successful self)
      as (d1 & H1 & L1).
    destruct (IH (i + 1) (returns (inspect_image i img successful) self)
                 (after (inspect_image i img successful) self))
      as (d2 & H2 & L2).
    exists (d1 ++ d2)%list. split.
    + rewrite H2, H1. symmetry. apply app_assoc.
    + rewrite length_app. cbn [List.length]. lia.
Qed.

Lemma quotient_times_divisor a b :
  ~ (b == 0)%Q -> (a / b * b == a)%Q.
Proof. intros Hb. field. exact Hb. Qed.

Lemma percentage_extremes k n :
  0 <= k <= n -> 0 < n ->
  ((inject_Z k / inject_Z n * 100 == 100)%Q <-> k = n)
  /\ ((inject_Z k / inject_Z n * 100 == 0)%Q <-> k = 0).
Proof.
  intros Hk Hn.
  assert (Hn' : ~ (inject_Z n == 0)%Q).
  { intros H. change 0%Q with (inject_Z 0) in H.
    apply (proj1 (inject_Z_injective _ _)) in H. lia. }
  assert (Hfull : (inject_Z n / inject_Z n * 100 == 100)%Q)
    by (field; exact Hn').
  assert (Hnone : (inject_Z 0 / inject_Z n * 100 == 0)%Q)
    by (unfold Qdiv; change (inject_Z 0) with 0%Q; ring).
  pose proof (quotient_times_divisor (inject_Z k) (inject_Z n) Hn') as Hq.
  split; split; intros H; try (subst k; assumption).
  - remember (inject_Z k / inject_Z n)%Q as q eqn:Eq. clear Eq.
    assert (E' : (q == 1)%Q) by lra.
    rewrite E', Qmult_1_l in Hq.
    apply (proj1 (inject_Z_injective _ _)) in Hq. lia.
  - remember (inject_Z k / inject_Z n)%Q as q eqn:Eq. clear Eq.
    assert (E' : (q == 0)%Q) by lra.
    rewrite E', Qmult_0_l in Hq.
    change 0%Q with (inject_Z 0) in Hq.
    apply (proj1 (inject_Z_injective _ _)) in Hq. lia.
Qed.

Lemma filter_all {A} (f : A -> bool) (l : list A) :
  List.length (List.filter f l) = List.length l <-> forallb f l = true.
Proof.
  split.
  - apply filter_length_forallb.
  - intros H. induction l as [|a l IH]; [reflexivity|].
    cbn in *. apply andb_true_iff in H. destruct H as [-> H].
    cbn. f_equal. apply IH. exact H.
Qed.

Lemma filter_none {A} (f : A -> bool) (l : list A) :
  List.length (List.filter f l) = 0%nat
  <-> forallb (fun a => negb (f a)) l = true.
Proof.
  induction l as [|a l IH]; cbn; [tauto|].
  destruct (f a); cbn; [split; [lia|discriminate]|exact IH].
Qed.

(** X7.  On a list of candidates that is not empty the image score lies
    between 0 and 100; it is 100 exactly when every candidate carries
    data and 0 exactly when none does.  The call emits at most one
    diagnostic per candidate, and when it emits none every candidate
    carried data. *)
Theorem image_quality_extremes :
  forall images_data total self,
    images_data <> [] ->
    let run := calculate_image_quality images_data total in
    (0 <= returns run self <= 100)%Q
    /\ ((returns run self == 100)%Q <-> forallb has_data images_data = true)
    /\ ((returns run self == 0)%Q
        <-> forallb (fun img => negb (has_data img)) images_data = true)
    /\ (List.length (emitted run self) <= List.length images_data)%nat
    /\ (emitted run self = [] -> forallb has_data images_data = true).
Proof.
  intros images_data total self Hne run. subst run.
  destruct (calculate_image_quality_run images_data total self Hne)
    as (ds & Hr & He & _ & Hm & _).
  set (k := len (List.filter has_data images_data)) in *.
  set (n := len images_data) in *.
  assert (Hk : 0 <= k <= n).
  { subst k n. split; [apply len_nonneg|].
    unfold len. apply inj_le, filter_length_le. }
  assert (Hn : 0 < n).
  { subst n. destruct images_data; [congruence|apply len_cons_pos]. }
  destruct (percentage_extremes k n Hk Hn) as [H100 H0].
  split; [apply image_quality_range|].
  split.
  { rewrite Hr, H100, <- filter_all. subst k n. unfold len. lia. }
  split.
  { rewrite Hr, H0, <- filter_none. subst k. unfold len. lia. }
  split.
  { rewrite He. clear Hm.
    destruct images_data as [|img rest]; [congruence|].
    destruct (inspect_images_records (img :: rest) 0 0 self) as (d & Hd & Hl).
    assert (Hem : emitted (calculate_image_quality (img :: rest) total) self
                  = d).
    { apply emitted_of_appended.
      unfold after, calculate_image_quality. cbn [truthy negb].
      rewrite bind_run. destruct (0 <? len (img :: rest)); exact Hd. }
    rewrite <- He, Hem. exact Hl. }
  rewrite He. intros ->. cbn in Hm.
  apply filter_all.
  pose proof (filter_length has_data images_data). lia.
Qed.

Lemma image_quality_extremes_witness :
  let images_data :=
    [{| data := Some [Byte.x89]; name := None;
        width := Some (VInt 64); height := Some (VInt 64) |};
     {| data := Some []; name := None; width := None; height := None |}] in
  let run := calculate_image_quality images_data None in
  let self := init Document.empty in
  (0 <= returns run self <= 100)%Q
  /\ ((returns run self == 100)%Q <-> forallb has_data images_data = true)
  /\ ((returns run self == 0)%Q
      <-> forallb (fun img => negb (has_data img)) images_data = true)
  /\ (List.length (emitted run self) <= List.length images_data)%nat
  /\ (emitted run self = [] -> forallb has_data images_data = true).
Proof.
  apply image_quality_extremes. discriminate.
Defined.

End ImageScore.

(** ** More on the table score *)

Section TableScore.
Import Py DocumentProcessor Run.

(** X8.  The table score takes one of four values.  It comes with exactly
    one diagnostic when it is 20 or 60 and with none when it is 85 or 100;
    at 60 the diagnostic reports the number of ['<table>'] minus the number
    of ['</table>'], which is negative when the closing tags are the more
    numerous.  Closing tags are only looked at when an opening tag occurs:
    a content with pipes or tabs and no ['<table>'] scores 85 whatever its
    closing tags. *)
Theorem table_quality_values :
  forall content format_info self,
    let run := calculate_table_quality content format_info in
    let opened := count (lit "<table>") content in
    let closed := count (lit "</table>") content in
    (returns run self = 100%Q \/ returns run self = 20%Q
     \/ returns run self = 60%Q \/ returns run self = 85%Q)
    /\ (emitted run self = []
        <-> returns run self = 100%Q \/ returns run self = 85%Q)
    /\ (List.length (emitted run self) <= 1)%nat
    /\ (returns run self = 60%Q ->
        opened <> closed
        /\ exists e,
             emitted run self = [e]
             /\ details e
                = Some [("incomplete_tables", VInt (opened - closed))])
    /\ (get (has_tables format_info) false = true ->
        opened = 0 ->
        0 < count (lit "|") content + count [9] content ->
        returns run self = 85%Q /\ emitted run self = []).
Proof.
  intros content format_info self run opened closed.
  assert (Hnil : forall q, emitted (ret q : M Q) self = [])
    by (intros q; apply emitted_of_appended; simpl; symmetry; apply app_nil_r).
  assert (Hone : forall q et sev msg d fx,
            emitted (bind (log_extraction_error et sev msg d None None fx)
                          (fun _ => ret q) : M Q) self
            = [new_error_data et sev msg d None None fx self])
    by (intros; apply emitted_of_appended; reflexivity).
  subst run. unfold calculate_table_quality. fold opened closed.
  destruct (get (has_tables format_info) false) eqn:Ht; cbn [negb].
  2:{ rewrite Hnil. unfold returns, ret; cbn [fst].
      split; [left; reflexivity|].
      split; [split; intros; [left|]; reflexivity|].
      split; [cbn; lia|].
      split; intros; discriminate. }
  destruct (opened + count (lit "|") content + count [9] content =? 0)
    eqn:Hind.
  { rewrite Hone. unfold returns, bind, ret; cbn [fst].
    apply Z.eqb_eq in Hind.
    split; [right; left; reflexivity|].
    split; [split; [discriminate|intros [H|H]; discriminate]|].
    split; [cbn; lia|].
    split; [intros; discriminate|].
    intros _ Ho Hp. exfalso. lia. }
  destruct (contains (lit "<table>") content) eqn:Hc.
  - destruct (opened =? closed) eqn:Heq; cbn [negb].
    + rewrite Hnil. unfold returns, ret; cbn [fst].
      split; [do 3 right; reflexivity|].
      split; [split; intros; [right|]; reflexivity|].
      split; [cbn; lia|].
      split; [intros; discriminate|].
      intros; split; reflexivity.
    + rewrite Hone. unfold returns, bind, ret; cbn [fst].
      apply Z.eqb_neq in Heq.
      pose proof (contains_count (lit "<table>") content
                    ltac:(discriminate) Hc) as Hpos.
      fold opened in Hpos.
      split; [do 2 right; left; reflexivity|].
      split; [split; [discriminate|intros [H|H]; discriminate]|].
      split; [cbn; lia|].
      split; [intros _; split; [exact Heq|eexists; split; reflexivity]|].
      intros _ Ho _. exfalso. lia.
  - rewrite Hnil. unfold returns, ret; cbn [fst].
    split; [do 3 right; reflexivity|].
    split; [split; intros; [right|]; reflexivity|].
    split; [cbn; lia|].
    split; [intros; discriminate|].
    intros; split; reflexivity.
Qed.

Lemma table_quality_values_witness :
  let content := lit "a|b</table></table>" in
  let format_info :=
    {| has_headers := None; has_footers := None; has_tables := Some true;
       has_images := None; generated_css := None |} in
  let run := calculate_table_quality content format_info in
  let self := init Document.empty in
  returns run self = 85%Q /\ emitted run self = [].
Proof.
  intros content format_info run self.
  refine (proj2 (proj2 (proj2 (proj2
            (table_quality_values content format_info self)))) _ _ _);
    [reflexivity | reflexivity | reflexivity].
Defined.

End TableScore.

(** ** Plain text files *)

Section TextFiles.
Import Py DocumentProcessor Run.
Local Open Scope py_scope.

(** The score of a text does not depend on the processor it is computed
    on. *)
Lemma text_quality_returns_anywhere t e self self' :
  returns (calculate_text_quality t e) self
  = returns (calculate_text_quality t e) self'.
Proof.
  unfold returns, calculate_text_quality.
  destruct t as [|c t]; [reflexivity|].
  cbn [truthy negb]. unfold bind, ret.
  destruct (0 <? _); [destruct (gt _ 10)|];
  (destruct (gt (truediv _ _) (1 # 2)));
  (destruct e as [e|]; [destruct (negb (e =? 0) && gt _ (3 # 10))|]);
  reflexivity.
Qed.

(** X9.  Updating a fresh processor with the result of a plain text file
    counts one detected element, the document, and counts it as extracted
    exactly when the text is not empty: the precision is 100 for any text
    with at least one character and 0 for an empty file.  The image and
    table scores are both 100 and the text score is that of the text. *)
Theorem text_file_metrics :
  forall content document_instance,
    let self := init document_instance in
    let metrics :=
      extraction_metrics
        (after (update_extraction_metrics (text_file_result content)) self) in
    total_elements_detected metrics = 1
    /\ total_elements_extracted metrics = (if truthy content then 1 else 0)
    /\ (precision metrics == if truthy content then 100 else 0)%Q
    /\ text_quality metrics
       = returns (calculate_text_quality content None) self
    /\ image_quality metrics = 100%Q
    /\ table_quality metrics = 100%Q.
Proof.
  intros content document_instance self metrics.
  subst metrics. unfold update_extraction_metrics, text_file_result.
  cbn [get DocumentProcessor.content formatted_content images format_info
       has_images has_tables truthy].
  do 6 rewrite after_bind.
  match goal with
  | |- context [after (bind (calculate_text_quality content None) _) ?s] =>
      set (s0 := s)
  end.
  assert (Hd0 : total_elements_detected (extraction_metrics s0) = 1)
    by reflexivity.
  assert (He0 : total_elements_extracted (extraction_metrics s0)
                = if truthy content then 1 else 0)
    by (subst s0; cbn; destruct (truthy content); reflexivity).
  rewrite after_bind.
  pose proof (text_quality_only_logs content None s0) as L1.
  pose proof (text_quality_returns_anywhere content None s0 self) as R1.
  set (q1 := returns (calculate_text_quality content None) s0) in *.
  set (s1 := after (calculate_text_quality content None) s0) in *.
  destruct L1 as (_ & _ & _ & A4 & A5 & _).
  rewrite He0 in A5. rewrite Hd0 in A4.
  clearbody s1 q1. clear s0 Hd0 He0.
  cbn.
  repeat split; try assumption.
  unfold precision. cbn. rewrite A4, A5. cbn.
  destruct (truthy content); reflexivity.
Qed.

End TextFiles.

(** ** Type detection *)

Section TypeDetection.
Import Py DocumentProcessor Run.
Local Open Scope list_scope.

Lemma rfind_from_app c a b :
  forall i last,
    rfind_from c (a ++ b) i last
    = rfind_from c b (i + len a) (rfind_from c a i last).
Proof.
  induction a as [|x a IH]; intros i last; cbn [app rfind_from].
  - unfold len. cbn. rewrite Z.add_0_r. reflexivity.
  - rewrite IH. f_equal. unfold len. cbn [List.length]. lia.
Qed.

Lemma rfind_from_without c p :
  without c p -> forall i last, rfind_from c p i last = last.
Proof.
  unfold without. induction p as [|x p IH]; intros H i last;
    cbn [rfind_from]; [reflexivity|].
  cbn in H. apply andb_true_iff in H. destruct H as [Hx Hp].
  apply negb_true_iff in Hx. rewrite Hx. apply IH. exact Hp.
Qed.

Lemma without_app c a b : without c (a ++ b) <-> without c a /\ without c b.
Proof.
  unfold without. rewrite forallb_app. apply andb_true_iff.
Qed.

(** The last occurrence of [c] in [a ++ c :: b], when [b] has none. *)
Lemma rfind_last c a b :
  without c b -> rfind c (a ++ c :: b) = len a.
Proof.
  intros Hb. unfold rfind. rewrite rfind_from_app. cbn [rfind_from].
  rewrite Z.eqb_refl. rewrite rfind_from_without by exact Hb. lia.
Qed.

Lemma slice_middle (a b c : text) :
  slice (a ++ b ++ c) (len a) (len a + len b) = b.
Proof.
  unfold slice, len.
  replace (Z.of_nat (List.length a) + Z.of_nat (List.length b)
           - Z.of_nat (List.length a))
    with (Z.of_nat (List.length b)) by lia.
  rewrite !Nat2Z.id.
  rewrite skipn_app, skipn_all, Nat.sub_diag. cbn [skipn app].
  rewrite firstn_app, firstn_all, Nat.sub_diag. cbn [firstn].
  apply app_nil_r.
Qed.

(** Where the separator and the dot are found in [dir/name.e]. *)
Lemma splitext_indices dir name e :
  directory dir -> without 47 name -> without 47 e -> without 46 e ->
  let p := (dir ++ name ++ 46 :: e)%list in
  rfind 47 p + 1 = len dir /\ rfind 46 p = len dir + len name.
Proof.
  intros Hdir Hn He47 He46 p. subst p. split.
  - assert (Hrest : without 47 (name ++ 46 :: e)).
    { apply without_app. split; [exact Hn|].
      unfold without in *. cbn. exact He47. }
    destruct Hdir as [-> | (d & ->)].
    + cbn [app]. unfold rfind.
      rewrite rfind_from_without by exact Hrest. reflexivity.
    + rewrite <- app_assoc. cbn [app].
      rewrite rfind_last by exact Hrest.
      unfold len. rewrite length_app. cbn [List.length]. lia.
  - rewrite app_assoc. rewrite rfind_last by exact He46.
    unfold len. rewrite length_app. lia.
Qed.

Lemma splitext_extension dir name e :
  directory dir -> without 47 name -> without 47 e -> without 46 e ->
  snd (splitext (dir ++ name ++ 46 :: e))
  = if existsb (fun x => negb (x =? 46)) name then 46 :: e else [].
Proof.
  intros Hdir Hn He47 He46.
  destruct (splitext_indices dir name e Hdir Hn He47 He46) as [Hs Hd].
  unfold splitext. rewrite Hs, Hd.
  assert (Hlt : (rfind 47 (dir ++ name ++ 46 :: e) <? len dir + len name)
                = true).
  { apply Z.ltb_lt. pose proof (len_nonneg name). lia. }
  rewrite Hlt. rewrite slice_middle.
  destruct (existsb _ name); [|reflexivity].
  cbn [snd]. unfold len. rewrite <- Nat2Z.inj_add, Nat2Z.id.
  rewrite app_assoc, <- length_app, skipn_app, skipn_all, Nat.sub_diag.
  reflexivity.
Qed.

(** X10.  Without type sniffing, the type of [dir/name.e] is looked up in
    the table under the lower-cased [.e], whatever the directory and the
    name, as long as the name has a character that is not a dot; so two
    paths whose extensions agree up to case get the same type.  A name
    made of dots only, as in the hidden file [.pdf], has no extension and
    gets the generic type. *)
Theorem detect_file_type_by_extension :
  forall magic beyond dir name e,
    let file_path := (dir ++ name ++ 46 :: e)%list in
    no_magic magic file_path ->
    directory dir -> without 47 name -> without 47 e -> without 46 e ->
    (existsb (fun x => negb (x =? 46)) name = true ->
     detect_file_type magic beyond file_path
     = lookup mime_map (lower beyond (46 :: e)) "application/octet-stream")
    /\ (existsb (fun x => negb (x =? 46)) name = false ->
        detect_file_type magic beyond file_path
        = "application/octet-stream").
Proof.
  intros magic beyond dir name e file_path Hmagic Hdir Hn He47 He46.
  assert (Hfall :
            detect_file_type magic beyond file_path
            = lookup mime_map (lower beyond (snd (splitext file_path)))
                     "application/octet-stream").
  { unfold detect_file_type. destruct magic as [from_file|]; [|reflexivity].
    destruct Hmagic as (msg & ->). reflexivity. }
  rewrite Hfall. subst file_path.
  rewrite (splitext_extension dir name e Hdir Hn He47 He46).
  split; intros ->; reflexivity.
Qed.

Lemma detect_file_type_by_extension_witness :
  detect_file_type None (fun c => [c]) (lit "/srv/media/Report.final.PDF")
  = "application/pdf"
  /\ detect_file_type (Some (fun _ => Raise "cannot open"))
       (fun c => [c]) (lit "uploads/.pdf")
     = "application/octet-stream".
Proof.
  split.
  - refine (proj1 (detect_file_type_by_extension None (fun c => [c])
                     (lit "/srv/media/") (lit "Report.final") (lit "PDF")
                     I _ _ _ _) _);
      [ right; exists (lit "/srv/media"); reflexivity
      | reflexivity | reflexivity | reflexivity | reflexivity ].
  - refine (proj2 (detect_file_type_by_extension
                     (Some (fun _ => Raise "cannot open")) (fun c => [c])
                     (lit "uploads/") [] (lit "pdf")
                     _ _ _ _ _) _);
      [ eexists; reflexivity
      | right; exists (lit "uploads"); reflexivity
      | reflexivity | reflexivity | reflexivity | reflexivity ].
Defined.

End TypeDetection.

(* ------------------------------------------------------------------ *)
(** * Further properties of the image processor *)

(** ** The size asked for when upscaling, in binary64 *)

Section UpscaledSize.
Import Binary64.

Lemma small_sides_spec s : In s small_sides <-> 1 <= s < 300.
Proof.
  unfold small_sides. rewrite in_map_iff. split.
  - intros (n & <- & Hn). apply in_seq in Hn. lia.
  - intros H. exists (Z.to_nat s). split; [lia|]. apply in_seq. lia.
Qed.

Lemma all_sides_checked : forallb scaled_sides_checked small_sides = true.
Proof. vm_compute. reflexivity. Qed.

Lemma scaled_side m s :
  1 <= m < 300 -> m <= s < 300 ->
  let n := scaled (scale_factor m) s in
  s * 300 / m - 1 <= n <= s * 300 / m
  /\ (s = m -> n = 300 \/ m = 281 \/ m = 291).
Proof.
  intros Hm Hs n.
  pose proof all_sides_checked as H.
  rewrite forallb_forall in H.
  specialize (H m (proj2 (small_sides_spec m) Hm)).
  unfold scaled_sides_checked in H. rewrite forallb_forall in H.
  specialize (H s (proj2 (small_sides_spec s) ltac:(lia))).
  fold n in H.
  assert (Hlt : (s <? m) = false) by (apply Z.ltb_ge; lia).
  rewrite Hlt in H. cbn [orb] in H.
  repeat rewrite andb_true_iff in H. destruct H as [[H1 H2] H3].
  apply Z.leb_le in H1, H2. split; [lia|].
  intros ->. rewrite Z.eqb_refl in H3. cbn [negb orb] in H3.
  repeat rewrite orb_true_iff in H3.
  destruct H3 as [[H3|H3]|H3]; apply Z.eqb_eq in H3; tauto.
Qed.

Lemma short_sides :
  scaled (scale_factor 281) 281 = 299 /\ scaled (scale_factor 291) 291 = 299.
Proof. split; vm_compute; reflexivity. Qed.

Lemma larger_side_quotient m s :
  1 <= m < 300 -> m < s -> 301 <= s * 300 / m.
Proof.
  intros Hm Hs. apply Z.div_le_lower_bound; nia.
Qed.

Lemma same_side_quotient m : 1 <= m -> m * 300 / m = 300.
Proof. intros Hm. rewrite Z.mul_comm. apply Z.div_mul. lia. Qed.

(** X11.  For an image with both sides between 1 and 299 the size asked of
    [resize], computed in binary64 as CPython does, has each side equal to
    the integer part of side * 300 / smaller side or one below it.  The
    smaller side therefore comes out as 300 or as 299: the minimum of 300
    is missed, by one pixel, exactly when the smaller side is 281 or
    291. *)
Theorem upscaled_size_near_300 :
  forall width height,
    1 <= width < 300 -> 1 <= height < 300 ->
    let smaller := Z.min width height in
    let new_width := fst (upscaled_size width height) in
    let new_height := snd (upscaled_size width height) in
    width * 300 / smaller - 1 <= new_width <= width * 300 / smaller
    /\ height * 300 / smaller - 1 <= new_height <= height * 300 / smaller
    /\ 299 <= Z.min new_width new_height <= 300
    /\ (Z.min new_width new_height = 300
        <-> smaller <> 281 /\ smaller <> 291).
Proof.
  intros w h Hw Hh m nw nh.
  assert (Hm : 1 <= m < 300) by (subst m; lia).
  destruct (scaled_side m w Hm ltac:(subst m; lia)) as [Bw Ew].
  destruct (scaled_side m h Hm ltac:(subst m; lia)) as [Bh Eh].
  cbv zeta in Bw, Ew, Bh, Eh.
  change (scaled (scale_factor m) w) with nw in Bw, Ew.
  change (scaled (scale_factor m) h) with nh in Bh, Eh.
  split; [exact Bw|]. split; [exact Bh|].
  assert (Hshort : m = 281 \/ m = 291 ->
                   (w = m -> nw = 299) /\ (h = m -> nh = 299)).
  { destruct short_sides as [S1 S2].
    change nw with (scaled (scale_factor m) w).
    change nh with (scaled (scale_factor m) h).
    intros [E|E]; rewrite E; split; intros ->; assumption. }
  destruct (Z.eq_dec w m) as [Ewm|Nw]; destruct (Z.eq_dec h m) as [Ehm|Nh].
  - pose proof (same_side_quotient m ltac:(lia)) as Q.
    rewrite Ewm in Bw. rewrite Ehm in Bh. rewrite Q in Bw, Bh.
    specialize (Ew Ewm). specialize (Eh Ehm).
    split; [lia|]. split.
    + intros Hmin. split; intros E;
        destruct (Hshort ltac:(tauto)) as [A B];
        specialize (A Ewm); lia.
    + intros [N1 N2]. lia.
  - assert (m < h) by (subst m; lia).
    pose proof (larger_side_quotient m h Hm ltac:(lia)).
    pose proof (same_side_quotient m ltac:(lia)) as Q.
    rewrite Ewm in Bw. rewrite Q in Bw. specialize (Ew Ewm).
    split; [lia|]. split.
    + intros Hmin. split; intros E;
        destruct (Hshort ltac:(tauto)) as [A B];
        specialize (A Ewm); lia.
    + intros [N1 N2]. lia.
  - assert (m < w) by (subst m; lia).
    pose proof (larger_side_quotient m w Hm ltac:(lia)).
    pose proof (same_side_quotient m ltac:(lia)) as Q.
    rewrite Ehm in Bh. rewrite Q in Bh. specialize (Eh Ehm).
    split; [lia|]. split.
    + intros Hmin. split; intros E;
        destruct (Hshort ltac:(tauto)) as [A B];
        specialize (B Ehm); lia.
    + intros [N1 N2]. lia.
  - exfalso. subst m. lia.
Qed.

Lemma upscaled_size_near_300_witness :
  let new_width := fst (upscaled_size 281 290) in
  let new_height := snd (upscaled_size 281 290) in
  281 * 300 / 281 - 1 <= new_width <= 281 * 300 / 281
  /\ 290 * 300 / 281 - 1 <= new_height <= 290 * 300 / 281
  /\ 299 <= Z.min new_width new_height <= 300
  /\ (Z.min new_width new_height = 300 <-> 281 <> 281 /\ 281 <> 291).
Proof.
  apply (upscaled_size_near_300 281 290); lia.
Defined.

End UpscaledSize.

Section ImageEntryPoints.
Import Py.
Import ImageProcessor.

(** The small instance, with its filter as the median filter, converts
    and contrasts as Pillow documents. *)
Lemma raster_conversions : PILConversions raster Raster.filter.
Proof.
  split.
  - intros im target im' H. injection H as <-. reflexivity.
  - intros im f im'. cbn. unfold Raster.contrasted, Raster.blend.
    destruct (existsb _ _); [discriminate|].
    intros H. injection H as <-. reflexivity.
  - intros im im'. cbn. unfold Raster.filter.
    destruct (String.eqb (Raster.mode im) "P"); [discriminate|].
    intros H. injection H as <-. reflexivity.
Qed.

Context {P : PIL}.

Lemma and_then_raise {A B} (r : result A) (k : A -> result B) msg :
  and_then r k = Raise msg ->
  r = Raise msg \/ exists a, r = Ok a /\ k a = Raise msg.
Proof. destruct r as [a|e]; cbn; [eauto|]. intros [= ->]. auto. Qed.

(** X12.  [_optimize_image] raises only where the copy, the enlargement
    or the reduction raises: when [copy] does; when both sides of the copy
    are below 300 and one of them is 0, with the message of a division by
    zero; when both sides are below 300 and [resize] raises; or when
    [thumbnail], called with the two maxima, raises.  The sharpening is
    never a cause. *)
Theorem optimize_image_failure_causes :
  forall self image msg,
    _optimize_image self image = Raise msg ->
    copy image = Raise msg
    \/ exists optimized,
         copy image = Ok optimized
         /\ ((width optimized < 300 /\ height optimized < 300
              /\ Z.min (width optimized) (height optimized) = 0
              /\ msg = "division by zero")
             \/ (width optimized < 300 /\ height optimized < 300
                 /\ exists size, resize optimized size = Raise msg)
             \/ (exists resized,
                   (max_width self < width resized
                    \/ max_height self < height resized)
                   /\ thumbnail resized (max_width self, max_height self)
                      = Raise msg)).
Proof.
  intros self image msg H. unfold _optimize_image in H.
  apply and_then_raise in H. destruct H as [H | (optimized & Hcopy & H)];
    [left; exact H|].
  right. exists optimized. split; [exact Hcopy|].
  apply and_then_raise in H. destruct H as [H | (resized & Hresized & H)].
  - destruct (width optimized <? 300) eqn:Hw; cbn [andb] in H;
      [|discriminate].
    destruct (height optimized <? 300) eqn:Hh; [|discriminate].
    apply Z.ltb_lt in Hw, Hh.
    destruct (Z.min (width optimized) (height optimized) =? 0) eqn:Hzero.
    + left. apply Z.eqb_eq in Hzero. injection H as <-. auto.
    + right. left. eauto.
  - apply and_then_raise in H. destruct H as [H | (fitted & Hfitted & H)];
      [|discriminate].
    right. right. exists resized.
    destruct (max_width self <? width resized) eqn:Hw; cbn [orb] in H.
    + apply Z.ltb_lt in Hw. auto.
    + destruct (max_height self <? height resized) eqn:Hh; [|discriminate].
      apply Z.ltb_lt in Hh. auto.
Qed.

Section Enhancing.
Variable median_filter : Image -> result Image.
Context {PM : PILModes P} {PC : PILConversions P median_filter}.

(** The enhancement steps keep the mode, whichever of them fail. *)
Lemma enhance_mode options image :
  mode (enhance median_filter options image) = mode image.
Proof.
  unfold enhance.
  assert (Hdenoise : forall im im',
            (if DocumentProcessor.get (denoise options) false
             then median_filter im else Ok im) = Ok im' ->
            mode im' = mode im).
  { intros im im'. destruct (DocumentProcessor.get (denoise options) false).
    - apply median_filter_mode.
    - intros [= <-]. reflexivity. }
  assert (Hcontrast : forall im im',
            (if DocumentProcessor.get (contrast_enhancement options) true
             then enhance_contrast im (12 # 10) else Ok im) = Ok im' ->
            mode im' = mode im).
  { intros im im'.
    destruct (DocumentProcessor.get (contrast_enhancement options) true).
    - apply enhance_contrast_mode.
    - intros [= <-]. reflexivity. }
  assert (Hsharpen : forall im im',
            (if DocumentProcessor.get (sharpen options) true
             then enhance_sharpness im (15 # 10) else Ok im) = Ok im' ->
            mode im' = mode im).
  { intros im im'. destruct (DocumentProcessor.get (sharpen options) true).
    - apply enhance_sharpness_mode.
    - intros [= <-]. reflexivity. }
  destruct (if DocumentProcessor.get (denoise options) false
            then median_filter image else Ok image) as [im1|] eqn:H1;
    [|reflexivity].
  apply Hdenoise in H1.
  destruct (if DocumentProcessor.get (contrast_enhancement options) true
            then enhance_contrast im1 (12 # 10) else Ok im1)
    as [im2|] eqn:H2; [|exact H1].
  apply Hcontrast in H2.
  destruct (if DocumentProcessor.get (sharpen options) true
            then enhance_sharpness im2 (15 # 10) else Ok im2)
    as [im3|] eqn:H3; [|congruence].
  apply Hsharpen in H3. congruence.
Qed.

(** X14.  Whatever [enhance_image_quality] encodes, the encoder gets the
    mode it can write: an image that decodes as RGBA is written as PNG,
    still RGBA; every other image is written as JPEG of quality 95, in
    mode RGB.  Which enhancement steps were asked for, and which of them
    failed, makes no difference. *)
Theorem enhance_image_quality_encoding :
  forall image_data options output,
    enhance_image_quality_try median_filter image_data options = Ok output ->
    exists image encoded,
      Image_open image_data = Ok image
      /\ ((mode image = "RGBA" /\ mode encoded = "RGBA"
           /\ save encoded "PNG" None true = Ok output)
          \/ (mode image <> "RGBA" /\ mode encoded = "RGB"
              /\ save encoded "JPEG" (Some 95) true = Ok output)).
Proof.
  intros image_data options output H. unfold enhance_image_quality_try in H.
  apply and_then_ok in H. destruct H as (image & Hopen & H).
  exists image.
  apply and_then_ok in H. destruct H as (scaled & Hscaled & H).
  assert (Hmode : mode scaled = mode image).
  { destruct (_ && _) in Hscaled.
    - apply resize_mode in Hscaled. exact Hscaled.
    - injection Hscaled as <-. reflexivity. }
  set (options' := match options with
                   | Some options => options
                   | None => default_options
                   end) in *.
  pose proof (enhance_mode options' scaled) as Henh.
  destruct (String.eqb (mode (enhance median_filter options' scaled)) "RGBA")
    eqn:Hrgba.
  - apply String.eqb_eq in Hrgba.
    exists (enhance median_filter options' scaled). split; [exact Hopen|].
    left. repeat split; congruence.
  - apply String.eqb_neq in Hrgba.
    apply and_then_ok in H. destruct H as (encoded & Hconv & H).
    exists encoded. split; [exact Hopen|]. right.
    split; [congruence|]. split; [|exact H].
    destruct (String.eqb (mode (enhance median_filter options' scaled)) "RGB")
      eqn:Hrgb; cbn [negb] in Hconv.
    + apply String.eqb_eq in Hrgb. injection Hconv as <-. exact Hrgb.
    + apply convert_mode in Hconv. exact Hconv.
Qed.

(** X15.  [convert_to_web_format] always asks for a JPEG of quality 90,
    and the image it hands to the encoder has the mode of the decoded
    image when that is RGB or RGBA, and RGB otherwise: an RGBA image
    reaches the JPEG encoder with its alpha band. *)
Theorem convert_to_web_format_encoding :
  forall image_data output,
    convert_to_web_format_try image_data = Ok output ->
    exists image encoded,
      Image_open image_data = Ok image
      /\ save encoded "JPEG" (Some 90) true = Ok output
      /\ mode encoded
         = (if existsb (String.eqb (mode image)) ["RGB"; "RGBA"]
            then mode image else "RGB").
Proof.
  intros image_data output H. unfold convert_to_web_format_try in H.
  apply and_then_ok in H. destruct H as (image & Hopen & H).
  apply and_then_ok in H. destruct H as (fitted & Hfit & H).
  exists image, (web_enhance fitted). repeat split; [exact Hopen|exact H|].
  assert (Henh : mode (web_enhance fitted) = mode fitted).
  { unfold web_enhance.
    destruct (enhance_contrast fitted (11 # 10)) as [c|] eqn:Hc;
      [|reflexivity].
    apply enhance_contrast_mode in Hc.
    destruct (enhance_sharpness c (13 # 10)) as [s|] eqn:Hs; [|exact Hc].
    apply enhance_sharpness_mode in Hs. congruence. }
  rewrite Henh. unfold web_fit in Hfit.
  apply and_then_ok in Hfit. destruct Hfit as (converted & Hconv & Hfit).
  assert (Hfitted : mode fitted = mode converted).
  { destruct (_ || _) in Hfit.
    - apply thumbnail_mode in Hfit. exact Hfit.
    - injection Hfit as <-. reflexivity. }
  rewrite Hfitted.
  destruct (existsb (String.eqb (mode image)) ["RGB"; "RGBA"]);
    cbn [negb] in Hconv.
  - injection Hconv as <-. reflexivity.
  - apply convert_mode in Hconv. exact Hconv.
Qed.

End Enhancing.

Section Thumbnails.
Variable open_path : string -> result Image.
Context {PM : PILModes P}.

(** X16.  [create_thumbnail] never puts the thumbnail on a white
    background: the format is JPEG only when the mode is not RGBA, so the
    test that guards the background fails every time.  The thumbnail of
    an RGBA image is written as PNG, that of any other image as JPEG in
    the mode it was opened in, both with the processor's quality; [None]
    is returned exactly when opening, reducing or encoding raises. *)
Theorem create_thumbnail_encoding :
  forall self image_path size,
    create_thumbnail_try open_path self image_path size
    = (img <- open_path image_path ;;
       thumb <- thumbnail img size ;;
       save thumb (if String.eqb (mode img) "RGBA" then "PNG" else "JPEG")
            (Some (quality self)) false)
    /\ (create_thumbnail open_path self image_path size = None
        <-> exists msg,
              create_thumbnail_try open_path self image_path size
              = Raise msg).
Proof.
  intros self image_path size. split.
  - unfold create_thumbnail_try.
    destruct (open_path image_path) as [img|]; [|reflexivity].
    cbn [and_then].
    destruct (thumbnail img size) as [thumb|] eqn:Hthumb; [|reflexivity].
    cbn [and_then]. apply thumbnail_mode in Hthumb. rewrite Hthumb.
    destruct (String.eqb (mode img) "RGBA"); reflexivity.
  - unfold create_thumbnail.
    destruct (create_thumbnail_try open_path self image_path size).
    + split; [discriminate|]. intros [msg H]. discriminate.
    + split; eauto.
Qed.

End Thumbnails.

End ImageEntryPoints.

Lemma optimize_image_failure_causes_witness :
  let image : ImageProcessor.Image (PIL := ImageProcessor.raster) :=
    {| ImageProcessor.Raster.mode := "RGB";
       ImageProcessor.Raster.width := 0;
       ImageProcessor.Raster.height := 80 |} in
  exists optimized,
    ImageProcessor.copy (PIL := ImageProcessor.raster) image
    = Py.Ok optimized
    /\ ImageProcessor.width optimized < 300
    /\ ImageProcessor.height optimized < 300.
Proof.
  intros image.
  destruct (optimize_image_failure_causes (P := ImageProcessor.raster)
              ImageProcessor.init image "division by zero" eq_refl)
    as [H | (optimized & Hcopy & H)]; [discriminate H|].
  exists optimized. split; [exact Hcopy|].
  injection Hcopy as <-. cbn. lia.
Defined.

Lemma enhance_image_quality_encoding_witness :
  exists image encoded : ImageProcessor.Image (PIL := ImageProcessor.raster),
    ImageProcessor.Image_open
      [Byte.x02; Byte.x64; Byte.x50] = Py.Ok image
    /\ ImageProcessor.mode encoded = "RGB"
    /\ ImageProcessor.save encoded "JPEG" (Some 95) true
       = Py.Ok [Byte.xff; Byte.x00; Byte.xc8; Byte.xa0].
Proof.
  destruct (enhance_image_quality_encoding (P := ImageProcessor.raster)
              ImageProcessor.Raster.filter
              (PM := raster_modes) (PC := raster_conversions)
              [Byte.x02; Byte.x64; Byte.x50] None
              [Byte.xff; Byte.x00; Byte.xc8; Byte.xa0] eq_refl)
    as (image & encoded & Hopen & [(Hrgba & _) | (_ & Hmode & Hsave)]).
  - injection Hopen as <-. discriminate Hrgba.
  - exists image, encoded. auto.
Defined.

Lemma convert_to_web_format_encoding_witness :
  exists image encoded : ImageProcessor.Image (PIL := ImageProcessor.raster),
    ImageProcessor.Image_open
      [Byte.x02; Byte.x64; Byte.x50] = Py.Ok image
    /\ ImageProcessor.save encoded "JPEG" (Some 90) true
       = Py.Ok [Byte.xff; Byte.x00; Byte.x64; Byte.x50]
    /\ ImageProcessor.mode encoded = "RGB".
Proof.
  destruct (convert_to_web_format_encoding (P := ImageProcessor.raster)
              ImageProcessor.Raster.filter
              (PM := raster_modes) (PC := raster_conversions)
              [Byte.x02; Byte.x64; Byte.x50]
              [Byte.xff; Byte.x00; Byte.x64; Byte.x50] eq_refl)
    as (image & encoded & Hopen & Hsave & Hmode).
  exists image, encoded. repeat split; [exact Hopen|exact Hsave|].
  rewrite Hmode. injection Hopen as <-. reflexivity.
Defined.

Lemma create_thumbnail_encoding_witness :
  let open_path := fun _ : string =>
    Py.Ok {| ImageProcessor.Raster.mode := "RGBA";
             ImageProcessor.Raster.width := 400;
             ImageProcessor.Raster.height := 300 |} in
  ImageProcessor.create_thumbnail (P := ImageProcessor.raster) open_path
    ImageProcessor.init "media/figure.png" (200, 200)
  = Some [Byte.x89; Byte.x01; Byte.xc8; Byte.x96].
Proof.
  intros open_path. unfold ImageProcessor.create_thumbnail.
  rewrite (proj1 (create_thumbnail_encoding (P := ImageProcessor.raster)
                    open_path (PM := raster_modes)
                    ImageProcessor.init "media/figure.png" (200, 200))).
  reflexivity.
Defined.

(** ** Images embedded in HTML *)

Section EmbeddedImages.
Import Py DocumentProcessor Run.
Local Open Scope list_scope.

Variable b64decode : text -> result ImageProcessor.bytes.

Abbreviation split_header := ImageProcessor.split_header.
Abbreviation embedded_image := (ImageProcessor.embedded_image b64decode).
Abbreviation embedded_images := (ImageProcessor.embedded_images b64decode).
Abbreviation extract_images_from_html :=
  (ImageProcessor.extract_images_from_html b64decode).

(** The header is what stands before the first comma. *)
Lemma split_header_spec src header payload :
  split_header src = Ok (header, payload)
  <-> src = header ++ 44 :: payload /\ ~ In 44 header.
Proof.
  revert header. induction src as [|c rest IH]; intros header; cbn.
  - split; [discriminate|]. intros [H _]. destruct header; discriminate.
  - destruct (c =? 44) eqn:Hc.
    + apply Z.eqb_eq in Hc. subst c. split.
      * intros [= <- <-]. split; [reflexivity|]. intros [].
      * intros [H Hnot]. destruct header as [|c header].
        -- cbn in H. injection H as <-. reflexivity.
        -- cbn in H. injection H as <- _. exfalso. apply Hnot. left.
           reflexivity.
    + apply Z.eqb_neq in Hc.
      destruct (split_header rest) as [[h d]|msg] eqn:Hrest; cbn.
      * split.
        -- intros [= <- <-]. destruct (proj1 (IH h) eq_refl) as [-> Hnot].
           split; [reflexivity|]. intros [H|H]; [congruence|auto].
        -- intros [H Hnot]. destruct header as [|c' header].
           ++ cbn in H. injection H as -> _. congruence.
           ++ cbn in H. injection H as <- ->.
              assert (Hh : Ok (h, d) = Ok (header, payload)).
              { apply IH. split; [reflexivity|].
                intros Hin. apply Hnot. right. exact Hin. }
              injection Hh as -> ->. reflexivity.
      * split; [discriminate|].
        intros [H Hnot]. destruct header as [|c' header].
        -- cbn in H. injection H as -> _. congruence.
        -- cbn in H. injection H as <- ->.
           assert (Hh : Raise msg = Ok (header, payload)).
           { apply IH. split; [reflexivity|].
             intros Hin. apply Hnot. right. exact Hin. }
           discriminate.
Qed.

(** What the [try] block stores, and when it stores anything. *)
Lemma embedded_image_spec i img src image :
  embedded_image i img src = Ok image
  <-> exists header payload image_data,
        src = header ++ 44 :: payload
        /\ ~ In 44 header
        /\ b64decode payload = Ok image_data
        /\ image = stored_image i img header image_data.
Proof.
  unfold ImageProcessor.embedded_image. split.
  - intros H.
    destruct (split_header src) as [[header payload]|] eqn:Hsplit;
      [|discriminate].
    apply split_header_spec in Hsplit. destruct Hsplit as [Hsrc Hnot].
    cbn [and_then fst snd] in H.
    destruct (b64decode payload) as [image_data|] eqn:Hdecode;
      [|discriminate].
    cbn [and_then] in H. injection H as <-.
    exists header, payload, image_data. auto.
  - intros (header & payload & image_data & Hsrc & Hnot & Hdecode & ->).
    assert (Hsplit : split_header src = Ok (header, payload))
      by (apply split_header_spec; auto).
    rewrite Hsplit. cbn [and_then fst snd]. rewrite Hdecode. reflexivity.
Qed.

(** The dicts found from index [k] on: one for each tag whose [src] is a
    data URL of an image with a comma and a payload that decodes. *)
Lemma embedded_images_spec img_tags :
  forall k image,
    In image (embedded_images k img_tags)
    <-> exists i img header payload image_data,
          nth_error img_tags i = Some img
          /\ ImageProcessor.src img = Some (header ++ 44 :: payload)
          /\ ~ In 44 header
          /\ startswith (lit "data:image/") (header ++ 44 :: payload) = true
          /\ b64decode payload = Ok image_data
          /\ image = stored_image (k + Z.of_nat i) img header image_data.
Proof.
  induction img_tags as [|img rest IH]; intros k image.
  - cbn. split; [intros []|].
    intros (i & img & _ & _ & _ & H & _). destruct i; discriminate.
  - cbn [ImageProcessor.embedded_images]. rewrite in_app_iff, IH. split.
    + intros [H | (i & img' & header & payload & image_data & Hnth & H)].
      * destruct (startswith (lit "data:image/")
                    (get (ImageProcessor.src img) [])) eqn:Hstart;
          [|destruct H].
        destruct (embedded_image k img (get (ImageProcessor.src img) []))
          as [found|] eqn:Hfound; [|destruct H].
        destruct H as [<-|[]].
        apply embedded_image_spec in Hfound.
        destruct Hfound as (header & payload & image_data
                            & Hsrc & Hnot & Hdecode & ->).
        exists 0%nat, img, header, payload, image_data.
        destruct (ImageProcessor.src img) as [src|] eqn:Himg;
          cbn [get] in Hsrc, Hstart; [|destruct header; discriminate].
        subst src. rewrite Z.add_0_r. auto 7.
      * exists (S i), img', header, payload, image_data.
        split; [exact Hnth|].
        replace (k + Z.of_nat (S i)) with (k + 1 + Z.of_nat i) by lia.
        exact H.
    + intros (i & img' & header & payload & image_data
              & Hnth & Hsrc & Hnot & Hstart & Hdecode & ->).
      destruct i as [|i].
      * left. cbn in Hnth. injection Hnth as <-.
        rewrite Hsrc. cbn [get]. rewrite Hstart.
        assert (Hfound : embedded_image k img (header ++ 44 :: payload)
                         = Ok (stored_image k img header image_data)).
        { apply embedded_image_spec.
          exists header, payload, image_data. auto. }
        rewrite Hfound, Z.add_0_r. left. reflexivity.
      * right. exists i, img', header, payload, image_data.
        split; [exact Hnth|].
        replace (k + 1 + Z.of_nat i) with (k + Z.of_nat (S i)) by lia.
        auto 6.
Qed.

Lemma embedded_images_length img_tags :
  forall k,
    (List.length (embedded_images k img_tags) <= List.length img_tags)%nat.
Proof.
  induction img_tags as [|img rest IH]; intros k; [cbn; lia|].
  cbn [ImageProcessor.embedded_images]. rewrite length_app.
  specialize (IH (k + 1)). cbn [List.length].
  destruct (startswith _ _); [|cbn; lia].
  destruct (embedded_image _ _ _); cbn; lia.
Qed.

(** X17.  [extract_images_from_html] returns one dict for each [<img>]
    tag whose [src] starts with [data:image/], has a comma, and whose text
    after the first comma decodes, and nothing else.  The dict holds the
    decoded bytes, the name [embedded_image_<i>.<ext>] where [i] is the
    index of the tag among all [<img>] tags and the extension is [png]
    when the text before the comma mentions [png], else [jpg] when it
    mentions [jpeg] or [jpg], else [png]; and the [width] and [height]
    attributes as the tag has them, text or [None].  A tag that fails is
    skipped, so there are at most as many dicts as tags. *)
Theorem extract_images_from_html_found :
  forall img_tags,
    (forall image,
       In image (extract_images_from_html img_tags)
       <-> exists i img header payload image_data,
             nth_error img_tags i = Some img
             /\ ImageProcessor.src img = Some (header ++ 44 :: payload)
             /\ ~ In 44 header
             /\ startswith (lit "data:image/") (header ++ 44 :: payload)
                = true
             /\ b64decode payload = Ok image_data
             /\ image
                = {| data := Some image_data;
                     name :=
                       Some ("embedded_image_" ++ str_of_int (Z.of_nat i)
                             ++ "."
                             ++ (if contains (lit "png") header then "png"
                                 else if contains (lit "jpeg") header
                                         || contains (lit "jpg") header
                                      then "jpg"
                                      else "png"))%string;
                     width :=
                       Some (ImageProcessor.attribute_value
                               (ImageProcessor.width_attribute img));
                     height :=
                       Some (ImageProcessor.attribute_value
                               (ImageProcessor.height_attribute img)) |})
    /\ (List.length (extract_images_from_html img_tags)
        <= List.length img_tags)%nat.
Proof.
  intros img_tags. split.
  - intros image. apply (embedded_images_spec img_tags 0 image).
  - apply embedded_images_length.
Qed.






End EmbeddedImages.


(** ** The hand-over to the database *)

Section Stored.
Import Py.
Import Storage.
Local Open Scope list_scope.

Context {P : ImageProcessor.PIL}.
Variable DB : Type.
Variable create_image : DocumentImage -> DB -> result DB.
Variable create_error : DocumentProcessor.error_data -> DB -> result DB.
Variable document_id : string.

Abbreviation save_images_from :=
  (Storage.save_images_from DB create_image document_id).
Abbreviation save_errors := (Storage.save_errors DB create_error).

(** The loop over a list in two parts is the loop over the second part,
    started where the first ended. *)
Lemma save_images_from_app before :
  forall i after db,
    save_images_from i (before ++ after) db
    = save_images_from (i + len before) after (save_images_from i before db).
Proof.
  induction before as [|image_data before IH]; intros i after db.
  - cbn. rewrite Z.add_0_r. reflexivity.
  - cbn [app Storage.save_images_from]. rewrite IH. f_equal.
    unfold len. cbn [List.length]. lia.
Qed.

(** X19.  In [_save_images] an image that cannot be saved (no data, or a
    row the database refuses) is passed over and costs nothing but its
    index: the images before it are stored as if the list ended there,
    and the images after it are stored with the positions they have in
    the whole list. *)
Theorem save_images_passes_over_failures :
  forall before image_data after db msg,
    let db' := _save_images DB create_image document_id before db in
    save_image_row DB create_image document_id (len before) image_data db'
    = Raise msg ->
    _save_images DB create_image document_id
      (before ++ image_data :: after) db
    = save_images_from (len before + 1) after db'.
Proof.
  intros before image_data after db msg db' Hraise.
  unfold _save_images. rewrite save_images_from_app.
  cbn [Storage.save_images_from]. rewrite Z.add_0_l.
  fold (_save_images DB create_image document_id before db). fold db'.
  rewrite Hraise. reflexivity.
Qed.

(** X20.  [save_extraction_errors] stops at the first diagnostic the
    database refuses: neither that one nor any diagnostic after it is
    stored, however many there are. *)
Theorem save_extraction_errors_stops_at_failure :
  forall before error_data after db msg,
    create_error error_data (save_errors before db) = Raise msg ->
    save_errors (before ++ error_data :: after) db = save_errors before db.
Proof.
  induction before as [|e before IH]; intros error_data after db msg Hraise.
  - cbn in *. rewrite Hraise. reflexivity.
  - cbn [app Storage.save_errors] in *.
    destruct (create_error e db) as [db1|]; [|reflexivity].
    apply (IH error_data after db1 msg Hraise).
Qed.

(** The file [save_image] returns is named as asked, or with every
    [.png] of the name turned into [.jpg]. *)
Lemma save_image_name self image_data filename :
  ImageProcessor.name (ImageProcessor.save_image self image_data filename)
  = filename
  \/ ImageProcessor.name (ImageProcessor.save_image self image_data filename)
     = replace ".png" ".jpg" filename.
Proof.
  unfold ImageProcessor.save_image.
  destruct (ImageProcessor.save_image_try self image_data filename)
    as [django_file|] eqn:Htry; [|left; reflexivity].
  unfold ImageProcessor.save_image_try in Htry.
  apply and_then_ok in Htry. destruct Htry as (image & _ & Htry).
  apply and_then_ok in Htry. destruct Htry as (optimized & _ & Htry).
  destruct (String.eqb
              (if String.eqb (ImageProcessor.mode optimized) "RGBA"
               then "PNG" else "JPEG") "JPEG").
  - apply and_then_ok in Htry. destruct Htry as (rgb & _ & Htry).
    apply and_then_ok in Htry. destruct Htry as (output & _ & Htry).
    injection Htry as <-. right. reflexivity.
  - apply and_then_ok in Htry. destruct Htry as (output & _ & Htry).
    injection Htry as <-. left. reflexivity.
Qed.

(** The row built at index [i] has position [i] and a file named as asked
    or with [.jpg] for [.png]. *)
Lemma image_row_position i image_data row :
  image_row document_id i image_data = Ok row ->
  position_in_document row = i
  /\ (ImageProcessor.name (image row) = image_filename document_id i
      \/ ImageProcessor.name (image row)
         = replace ".png" ".jpg" (image_filename document_id i)).
Proof.
  unfold image_row.
  destruct (DocumentProcessor.data image_data) as [data|]; [|discriminate].
  intros [= <-]. cbn. split; [reflexivity|]. apply save_image_name.
Qed.

Lemma image_row_has_data i image_data :
  (exists row, image_row document_id i image_data = Ok row)
  <-> DocumentProcessor.data image_data <> None.
Proof.
  unfold image_row.
  destruct (DocumentProcessor.data image_data) as [data|].
  - split; [discriminate|]. eauto.
  - split; [intros [row H]; discriminate|congruence].
Qed.

Section AcceptingDatabase.

(** A table of rows on which every [create] succeeds. *)
Variable create : DocumentImage -> list DocumentImage
                  -> result (list DocumentImage).
Hypothesis create_appends : forall row db, create row db = Ok (db ++ [row]).

Lemma save_images_from_rows images :
  forall i db,
  exists rows,
    Storage.save_images_from (list DocumentImage) create document_id
      i images db
    = db ++ rows
    /\ map position_in_document rows = Run.indices_with_data i images
    /\ (forall row,
          In row rows
          <-> exists k image_data,
                nth_error images k = Some image_data
                /\ image_row document_id (i + Z.of_nat k) image_data
                   = Ok row).
Proof.
  induction images as [|image_data rest IH]; intros i db.
  - exists []. cbn. rewrite app_nil_r. split; [reflexivity|].
    split; [reflexivity|]. intros row. split; [intros []|].
    intros (k & img & H & _). destruct k; discriminate.
  - cbn [Storage.save_images_from Run.indices_with_data].
    unfold save_image_row.
    destruct (image_row document_id i image_data) as [row|msg] eqn:Hrow;
      cbn [and_then].
    + rewrite create_appends.
      destruct (IH (i + 1) (db ++ [row])) as (rows & Heq & Hpos & Hin).
      exists (row :: rows). split; [|split].
      * rewrite Heq, <- app_assoc. reflexivity.
      * assert (Hdata : DocumentProcessor.data image_data <> None)
          by (apply (image_row_has_data i); eauto).
        destruct (DocumentProcessor.data image_data); [|congruence].
        cbn. rewrite Hpos.
        rewrite (proj1 (image_row_position i image_data row Hrow)).
        reflexivity.
      * intros row'. cbn [In]. rewrite Hin. split.
        -- intros [<- | (k & img & Hk & Hr)].
           ++ exists 0%nat, image_data. rewrite Z.add_0_r. auto.
           ++ exists (S k), img. split; [exact Hk|].
              replace (i + Z.of_nat (S k)) with (i + 1 + Z.of_nat k) by lia.
              exact Hr.
        -- intros (k & img & Hk & Hr). destruct k as [|k].
           ++ cbn in Hk. injection Hk as <-. rewrite Z.add_0_r in Hr.
              left. congruence.
           ++ right. exists k, img. split; [exact Hk|].
              replace (i + 1 + Z.of_nat k) with (i + Z.of_nat (S k)) by lia.
              exact Hr.
    + destruct (IH (i + 1) db) as (rows & Heq & Hpos & Hin).
      exists rows. split; [exact Heq|]. split.
      * assert (Hdata : DocumentProcessor.data image_data = None).
        { destruct (DocumentProcessor.data image_data) eqn:Hd;
            [|reflexivity].
          exfalso.
          assert (Hex : exists row,
                     image_row document_id i image_data = Ok row)
            by (apply image_row_has_data; congruence).
          destruct Hex as [row Hex]. congruence. }
        rewrite Hdata. exact Hpos.
      * intros row'. rewrite Hin. split.
        -- intros (k & img & Hk & Hr). exists (S k), img.
           split; [exact Hk|].
           replace (i + Z.of_nat (S k)) with (i + 1 + Z.of_nat k) by lia.
           exact Hr.
        -- intros (k & img & Hk & Hr). destruct k as [|k].
           ++ cbn in Hk. injection Hk as <-. rewrite Z.add_0_r in Hr.
              congruence.
           ++ exists k, img. split; [exact Hk|].
              replace (i + 1 + Z.of_nat k) with (i + Z.of_nat (S k)) by lia.
              exact Hr.
Qed.

(** X21.  When the database accepts every row, [_save_images] adds to the
    table, after the rows it holds, one row for each image with data and
    none for the others, in the order of the list.  The position of a row
    is the index of its image in the whole list, so the positions stored
    are the indices of the images with data and skip the others; and the
    file of the row at position [i] is named [<id>_image_<i>.png], or the
    same with [.jpg] for [.png]. *)
Theorem save_images_rows :
  forall images db,
  exists rows,
    _save_images (list DocumentImage) create document_id images db
    = db ++ rows
    /\ map position_in_document rows = Run.indices_with_data 0 images
    /\ (forall row,
          In row rows
          <-> exists k image_data,
                nth_error images k = Some image_data
                /\ image_row document_id (Z.of_nat k) image_data = Ok row)
    /\ Forall
         (fun row =>
            ImageProcessor.name (image row)
            = image_filename document_id (position_in_document row)
            \/ ImageProcessor.name (image row)
               = replace ".png" ".jpg"
                   (image_filename document_id (position_in_document row)))
         rows.
Proof.
  intros images db.
  destruct (save_images_from_rows images 0 db) as (rows & Heq & Hpos & Hin).
  exists rows. split; [exact Heq|]. split; [exact Hpos|]. split.
  - intros row. rewrite Hin. split; intros (k & img & Hk & Hr);
      exists k, img; (split; [exact Hk|]);
      rewrite ?Z.add_0_l in *; exact Hr.
  - apply Forall_forall. intros row Hrow. apply Hin in Hrow.
    destruct Hrow as (k & img & _ & Hr).
    destruct (image_row_position _ _ _ Hr) as [-> Hname]. exact Hname.
Qed.

End AcceptingDatabase.

End Stored.

Lemma save_images_passes_over_failures_witness :
  let create := fun (row : Storage.DocumentImage) db =>
    Py.Ok (db ++ [Storage.position_in_document row])%list in
  let stored := {| DocumentProcessor.data := Some [Byte.x00; Byte.x64; Byte.x50];
                   DocumentProcessor.name := None;
                   DocumentProcessor.width := None;
                   DocumentProcessor.height := None |} in
  let lost := {| DocumentProcessor.data := None;
                 DocumentProcessor.name := Some "figure";
                 DocumentProcessor.width := None;
                 DocumentProcessor.height := None |} in
  Storage._save_images (P := ImageProcessor.raster) (list Z) create "7"
    ([stored] ++ lost :: [stored])%list []
  = [0; 2].
Proof.
  intros create stored lost.
  rewrite (save_images_passes_over_failures
             (P := ImageProcessor.raster) (list Z) create "7"
             [stored] lost [stored] [] "'data'" eq_refl).
  reflexivity.
Defined.

Lemma save_extraction_errors_stops_at_failure_witness :
  let create := fun (e : DocumentProcessor.error_data) (db : list string) =>
    if String.eqb (DocumentProcessor.severity e) "high"
    then Py.Raise "refused" else Py.Ok (db ++ [DocumentProcessor.severity e])%list in
  let record := fun severity =>
    DocumentProcessor.new_error_data "image_extraction" severity "m"
      None None None None (DocumentProcessor.init Document.empty) in
  Storage.save_errors (list string) create
    ([record "low"] ++ record "high" :: [record "medium"])%list []
  = ["low"].
Proof.
  intros create record.
  rewrite (save_extraction_errors_stops_at_failure (list string) create
             [record "low"] (record "high") [record "medium"] []
             "refused" eq_refl).
  reflexivity.
Defined.

Lemma save_images_rows_witness :
  let create := fun (row : Storage.DocumentImage) db =>
    Py.Ok (db ++ [row])%list in
  let stored := {| DocumentProcessor.data := Some [Byte.x00; Byte.x64; Byte.x50];
                   DocumentProcessor.name := None;
                   DocumentProcessor.width := None;
                   DocumentProcessor.height := None |} in
  let lost := {| DocumentProcessor.data := None;
                 DocumentProcessor.name := Some "figure";
                 DocumentProcessor.width := None;
                 DocumentProcessor.height := None |} in
  exists rows,
    Storage._save_images (P := ImageProcessor.raster)
      (list Storage.DocumentImage) create "7" [stored; lost; stored] []
    = rows
    /\ List.map Storage.position_in_document rows = [0; 2].
Proof.
  intros create stored lost.
  destruct (save_images_rows (P := ImageProcessor.raster) "7" create
              (fun row db => eq_refl) [stored; lost; stored] [])
    as (rows & Heq & Hpos & _).
  exists rows. split; [exact Heq|exact Hpos].
Defined.
